(** * SPC analytics: a shallow embedding of [spcUtils.ts] and of its variant

    The repository holds two implementations of [calculateAnalysisData]:
    [src/app/spcUtils.ts] (module [SpcUtils] below) and a second source file
    whose name is not known (module [Part000] below).  Both are embedded as
    they are written, function by function; [calculateAnalysisData] is split
    into the values it computes ([analysis]) and the object it builds from
    them ([report]).

    JavaScript numbers are IEEE 754 binary64 values and are modelled by
    Rocq's primitive floats, whose operations are the same correctly rounded
    binary64 operations, so that NaN, the infinities and overflow behave as
    in the program.  A sample size is an integer, an array is a list, the
    functions that may return [null] return an [option], and a call that
    throws returns the message of its error.

    The file has the embedding first, then the notions and the concrete
    series the statements use, then the facts: about binary64 numbers, and
    about each stage of the pipeline. *)

From Stdlib Require Import ZArith List Bool String Ascii Lia Floats.
From Stdlib Require Import DecimalString Zpower.
From Stdlib Require Uint63.
Import ListNotations.

Local Open Scope float_scope.

(** ** JavaScript numbers and the built-ins the program calls *)

Module JS.

Definition number := float.

(** [Number.isFinite], [isFinite] and [isNaN] on a value that is already a
    number. *)
Definition isFinite (x : number) : bool := PrimFloat.is_finite x.
Definition isNaN (x : number) : bool := PrimFloat.is_nan x.

(** [a > b], [a >= b] of the source, written with the primitive tests. *)
Definition gt (a b : number) : bool := b <? a.
Definition ge (a b : number) : bool := b <=? a.

(** [Math.max(a, b)] and [Math.min(a, b)]: NaN if an argument is NaN, and
    [+0] is larger than [-0]. *)
Definition max2 (a b : number) : number :=
  if isNaN a || isNaN b then nan
  else if a <? b then b
  else if b <? a then a
  else if get_sign a then b else a.

Definition min2 (a b : number) : number :=
  if isNaN a || isNaN b then nan
  else if a <? b then a
  else if b <? a then b
  else if get_sign a then a else b.

(** [Math.max(...xs)] and [Math.min(...xs)]: the fold starts from
    [-Infinity], respectively [+Infinity]. *)
Definition maxOf (xs : list number) : number := fold_left max2 xs neg_infinity.
Definition minOf (xs : list number) : number := fold_left min2 xs infinity.

(** [xs.reduce((sum, v) => sum + v, 0)]. *)
Definition sum (xs : list number) : number := fold_left add xs 0.

(** A nat (an array length or an index) as a number. *)
Definition ofNat (n : nat) : number := of_uint63 (Uint63.of_Z (Z.of_nat n)).
Definition ofZ (z : Z) : number := SF2Prim (binary_normalize prec emax z 0 false).

(** [Math.floor(x)] as an integer; [None] when [x] is NaN or infinite.  The
    program only compares the result with integers and uses it as an array
    index, and both tests fail on NaN and on the infinities. *)
Definition floorZ (x : number) : option Z :=
  match Prim2SF x with
  | S754_zero _ => Some 0%Z
  | S754_finite s m e => Some (Z.shiftl (cond_Zopp s (Zpos m)) e)
  | _ => None
  end.

(** The number nearest to the decimal [m * 10^e] ([m >= 0]), ties to even. *)
Definition ofDecimal (m e : Z) : number :=
  match m with
  | Zpos p =>
      if (400 <? e)%Z then infinity
      else if (0 <=? e)%Z then ofZ (m * 10 ^ e)
      else if (e <? - (400 + Z.log2 m))%Z then 0
      else SF2Prim (SFdiv prec emax (S754_finite false p 0)
                          (S754_finite false (Z.to_pos (10 ^ (- e))) 0))
  | _ => 0
  end.

(** *** [parseFloat]

    The longest prefix of the trimmed string that is a [StrDecimalLiteral]
    is converted; there is none, the result is NaN.

    A string of the model is a JavaScript string whose code units are below
    256, one [ascii] for each code unit.  Of the white space and line
    terminators that [parseFloat] skips, those are the code units 9 to 13,
    32 and 160 (the no-break space U+00A0); the others (U+1680, U+2000 to
    U+200A, U+2028, U+2029, U+202F, U+205F, U+3000 and U+FEFF) are above
    255. *)

Definition isWhiteSpace (c : ascii) : bool :=
  let n := nat_of_ascii c in
  ((9 <=? n)%nat && (n <=? 13)%nat) || (n =? 32)%nat || (n =? 160)%nat.

Fixpoint trimStart (s : string) : string :=
  match s with
  | String c r => if isWhiteSpace c then trimStart r else s
  | EmptyString => s
  end.

Definition digitOf (c : ascii) : option Z :=
  let n := nat_of_ascii c in
  if ((48 <=? n)%nat && (n <=? 57)%nat) then Some (Z.of_nat (n - 48)) else None.

(** Reads decimal digits: the value (continuing [acc]), how many digits
    were read, and what follows them. *)
Fixpoint digits (s : string) (acc : Z) (cnt : nat) : Z * nat * string :=
  match s with
  | String c r =>
      match digitOf c with
      | Some d => digits r (acc * 10 + d)%Z (S cnt)
      | None => (acc, cnt, s)
      end
  | EmptyString => (acc, cnt, s)
  end.

Definition exponentPart (s : string) : Z :=
  match s with
  | String c r =>
      if (Ascii.eqb c "e" || Ascii.eqb c "E")%bool then
        match r with
        | String "+" r' => let '(v, n, _) := digits r' 0%Z 0%nat in
                           if (n =? 0)%nat then 0%Z else v
        | String "-" r' => let '(v, n, _) := digits r' 0%Z 0%nat in
                           if (n =? 0)%nat then 0%Z else (- v)%Z
        | _ => let '(v, n, _) := digits r 0%Z 0%nat in
               if (n =? 0)%nat then 0%Z else v
        end
      else 0%Z
  | EmptyString => 0%Z
  end.

Definition unsignedLiteral (s : string) : number :=
  if String.prefix "Infinity" s then infinity
  else
    let '(ip, ni, r1) := digits s 0%Z 0%nat in
    let '(m, nf, r2) :=
      match r1 with
      | String "." r => digits r ip 0%nat
      | _ => (ip, 0%nat, r1)
      end in
    if ((ni + nf) =? 0)%nat then nan
    else ofDecimal m (exponentPart r2 - Z.of_nat nf).

Definition parseFloat (s : string) : number :=
  match trimStart s with
  | String "-" r => - unsignedLiteral r
  | String "+" r => unsignedLiteral r
  | t => unsignedLiteral t
  end.

(** *** [Number(x.toFixed(d))]

    [toFixed] prints the integer [n] for which [n / 10^d] is nearest to
    [|x|] (the larger one on a tie) with [d] decimals, after the sign of a
    negative [x]; from [1e21] on it prints the number itself.  Reading the
    text back gives the number nearest to [n / 10^d]. *)
Definition toFixed (d : Z) (x : number) : number :=
  match Prim2SF x with
  | S754_finite s m e =>
      if 1e21 <=? abs x then x
      else
        let n := if (0 <=? e)%Z then (Zpos m * 2 ^ e * 10 ^ d)%Z
                 else ((2 * Zpos m * 10 ^ d + 2 ^ (- e)) / 2 ^ (- e + 1))%Z in
        if s then - ofDecimal n (- d) else ofDecimal n (- d)
  | S754_zero _ => 0
  | _ => x
  end.

(** [`${n}`] for an array length. *)
Definition showNat (n : nat) : string := NilEmpty.string_of_uint (Nat.to_uint n).

End JS.

Import JS.
Local Open Scope string_scope.
Local Open Scope float_scope.
Set Warnings "-inexact-float".

(** ** Data shared by the two files *)

(** [InspectionData]: the three textual fields the program reads. *)
Record InspectionData := {
  ActualSpecification : string;
  FromSpecification : string;
  ToSpecification : string
}.

Record ChartConstants := { A2 : number; D3 : number; D4 : number; d2 : number }.

(** [controlChartConstants[sampleSize.toString()]].  The keys of the table are
    the texts of 1 to 5, and no other number prints as one of them; a sample
    size is taken to be an integer here. *)
Definition controlChartConstants (sampleSize : Z) : option ChartConstants :=
  match sampleSize with
  | 1%Z => Some {| A2 := 2.66; D3 := 0; D4 := 3.267; d2 := 1.128 |}
  | 2%Z => Some {| A2 := 1.88; D3 := 0; D4 := 3.267; d2 := 1.128 |}
  | 3%Z => Some {| A2 := 1.772; D3 := 0; D4 := 2.574; d2 := 1.693 |}
  | 4%Z => Some {| A2 := 0.796; D3 := 0; D4 := 2.282; d2 := 2.059 |}
  | 5%Z => Some {| A2 := 0.691; D3 := 0; D4 := 2.114; d2 := 2.326 |}
  | _ => None
  end.

(** A call either returns or throws an [Error] with a message. *)
Inductive outcome (A : Type) : Type :=
| Returns (a : A)
| Throws (message : string).
Arguments Returns {A} a.
Arguments Throws {A} message.

(** The parts of [AnalysisData], as the returned object literal lists them. *)
Record Point := { x : nat; y : number }.
Record HistogramBar := { barX : number; barY : nat }.

Record Metrics := {
  xBar : number; stdDevOverall : number; stdDevWithin : number; avgRange : number;
  cp : number; cpu : number; cpl : number; cpk : number;
  pp : number; ppu : number; ppl : number; ppk : number;
  lsl : number; usl : number; target : number
}.

Record Limits := {
  xBarUcl : number; xBarMean : number; xBarLcl : number;
  rangeUcl : number; rangeMean : number; rangeLcl : number;
  Agostinho : number
}.

Record ControlCharts := {
  xBarData : list Point; rangeData : list Point; limits : Limits
}.

Record DistributionStats := {
  statsMean : number; statsTarget : number; binEdges : list number;
  statsMin : number; statsMax : number
}.

Record Distribution := { data : list HistogramBar; stats : DistributionStats }.

Record SsAnalysis := {
  ssProcessShift : string; processSpread : string; specialCausePresent : string;
  pointsOutsideLimits : string; rangePointsOutsideLimits : string;
  eightConsecutivePoints : string; sixConsecutiveTrend : string
}.

Record ProcessInterpretation := {
  decisionRemark : string; processPotential : string; processPerformance : string;
  processStability : string; processShift : string
}.

Record AnalysisData := {
  metrics : Metrics;
  controlCharts : ControlCharts;
  distribution : Distribution;
  ssAnalysis : SsAnalysis;
  processInterpretation : ProcessInterpretation
}.

(** [for (let i = 0; i < xs.length; i += sampleSize) xs.slice(i, i + sampleSize)]:
    the slices the two subgrouping loops visit, in order.  [fuel] bounds the
    number of iterations; the length of the array is enough since the size is
    at least 1 where the loops run. *)
Fixpoint slicesFrom (fuel sampleSize : nat) (rest : list number) : list (list number) :=
  match fuel, rest with
  | S fuel', _ :: _ => firstn sampleSize rest :: slicesFrom fuel' sampleSize (skipn sampleSize rest)
  | _, _ => []
  end.

Definition slices (sampleSize : Z) (xs : list number) : list (list number) :=
  slicesFrom (List.length xs) (Z.to_nat sampleSize) xs.

(** [|x[i] - x[i-1]|] for [i = 1 .. n-1]. *)
Fixpoint movingRanges (xs : list number) : list number :=
  match xs with
  | a :: (b :: _) as rest => abs (b - a) :: movingRanges rest
  | _ => []
  end.

(** [xs.map((v, i) => ({ x: i + 1, y: v }))]. *)
Fixpoint pointsFrom (i : nat) (xs : list number) : list Point :=
  match xs with
  | [] => []
  | v :: rest => {| x := i + 1; y := v |} :: pointsFrom (S i) rest
  end.

(** [bins[i]++] on an array of counts: an index outside the array adds no
    element to it. *)
Fixpoint bump (i : nat) (bins : list nat) : list nat :=
  match bins, i with
  | [], _ => []
  | c :: rest, O => S c :: rest
  | c :: rest, S i' => c :: bump i' rest
  end.

Definition bumpZ (i : Z) (bins : list nat) : list nat :=
  if (0 <=? i)%Z then bump (Z.to_nat i) bins else bins.

(** [Math.ceil(Math.sqrt(n))] for an array length [n]: on the integers below
    [2^52] the correctly rounded square root followed by [ceil] is the integer
    ceiling of the square root. *)
Definition ceilSqrt (n : nat) : nat := Z.to_nat (Z.sqrt_up (Z.of_nat n)).

(** The same through the binary64 square root, for comparison. *)
Definition ceilSqrtFloat (n : nat) : option Z :=
  match floorZ (- sqrt (ofNat n)) with
  | Some k => Some (- k)%Z
  | None => None
  end.

(** ** [src/app/spcUtils.ts] *)

Module SpcUtils.

Definition calculateSubgroupXBar (measurements : list number) (sampleSize : Z)
  : list number :=
  if (sampleSize =? 1)%Z then measurements
  else
    flat_map
      (fun subgroup =>
         if (0 <? List.length subgroup)%nat
         then [sum subgroup / ofNat (List.length subgroup)]
         else [])
      (slices sampleSize measurements).

Definition calculateSubgroupRanges (measurements : list number) (sampleSize : Z)
  : list number :=
  if (sampleSize =? 1)%Z then movingRanges measurements
  else
    flat_map
      (fun subgroup =>
         if (1 <? List.length subgroup)%nat
         then [maxOf subgroup - minOf subgroup]
         else [])
      (slices sampleSize measurements).

Definition calculateMean (data : list number) : option number :=
  match data with
  | [] => None
  | _ => Some (sum data / ofNat (List.length data))
  end.

(** [Math.pow(value - dataMean, 2)] is the product of the difference with
    itself. *)
Definition calculateStdDev (data : list number) (mean : option number)
  : option number :=
  match data with
  | [] => None
  | _ =>
      let dataMean := match mean with Some m => Some m | None => calculateMean data end in
      match dataMean with
      | None => None
      | Some dataMean =>
          let squaredDiffs :=
            map (fun value => (value - dataMean) * (value - dataMean)) data in
          match calculateMean squaredDiffs with
          | Some variance => Some (sqrt variance)
          | None => None
          end
      end
  end.

(** The body of [data.forEach] in [calculateDistributionData]. *)
Definition binStep (max binStart binWidth : number) (binCount : nat)
  (bins : list nat) (value : number) : list nat :=
  if value =? max then bumpZ (Z.of_nat binCount - 1) bins
  else
    match floorZ ((value - binStart) / binWidth) with
    | Some binIndex =>
        if ((0 <=? binIndex) && (binIndex <? Z.of_nat binCount))%Z
        then bumpZ binIndex bins else bins
    | None => bins
    end.

Definition calculateDistributionData (data : list number) (lsl usl : number)
  : option Distribution :=
  match data with
  | [] => None
  | _ =>
      let min := minOf data in
      let max := maxOf data in
      let range := max - min in
      let binCount := ceilSqrt (List.length data) in
      let binWidth := range / ofNat binCount in
      let binStart := min2 min lsl in
      let binEdges :=
        map (fun i => binStart + ofNat i * binWidth) (seq 0 (binCount + 1)) in
      let bins := fold_left (binStep max binStart binWidth binCount) data
                            (repeat 0%nat binCount) in
      let histData :=
        map (fun '(edge, count) =>
               {| barX := toFixed 4 (edge + binWidth / 2); barY := count |})
            (combine binEdges bins) in
      Some {| data := histData;
              stats := {| statsMean := match calculateMean data with
                                       | Some m => m | None => 0 end;
                          statsTarget := (usl + lsl) / 2;
                          binEdges := binEdges;
                          statsMin := min;
                          statsMax := max |} |}
  end.

(** The counters of the runs-and-trends loop. *)
Record Counters := {
  consecutiveAboveMean : nat;
  consecutiveBelowMean : nat;
  maxConsecutiveAbove : nat;
  maxConsecutiveBelow : nat;
  consecutiveIncreasing : nat;
  consecutiveDecreasing : nat
}.

Definition initialCounters : Counters :=
  {| consecutiveAboveMean := 0; consecutiveBelowMean := 0;
     maxConsecutiveAbove := 0; maxConsecutiveBelow := 0;
     consecutiveIncreasing := 0; consecutiveDecreasing := 0 |}.

(** One iteration of the loop at a point [cur]; [prev] is the point before
    it, absent at [i = 0]. *)
Definition runStep (grandMean : number) (c : Counters) (prev : option number)
  (cur : number) : Counters :=
  let '(above, below, maxAbove, maxBelow) :=
    if gt cur grandMean then
      (S (consecutiveAboveMean c), 0%nat,
       Nat.max (maxConsecutiveAbove c) (S (consecutiveAboveMean c)),
       maxConsecutiveBelow c)
    else if cur <? grandMean then
      (0%nat, S (consecutiveBelowMean c),
       maxConsecutiveAbove c,
       Nat.max (maxConsecutiveBelow c) (S (consecutiveBelowMean c)))
    else (0%nat, 0%nat, maxConsecutiveAbove c, maxConsecutiveBelow c) in
  let '(increasing, decreasing) :=
    match prev with
    | None => (consecutiveIncreasing c, consecutiveDecreasing c)
    | Some p =>
        if gt cur p then (S (consecutiveIncreasing c), 0%nat)
        else if cur <? p then (0%nat, S (consecutiveDecreasing c))
        else (0%nat, 0%nat)
    end in
  {| consecutiveAboveMean := above; consecutiveBelowMean := below;
     maxConsecutiveAbove := maxAbove; maxConsecutiveBelow := maxBelow;
     consecutiveIncreasing := increasing; consecutiveDecreasing := decreasing |}.

Fixpoint runLoop (grandMean : number) (c : Counters) (prev : option number)
  (ys : list number) : Counters :=
  match ys with
  | [] => c
  | cur :: rest => runLoop grandMean (runStep grandMean c prev cur) (Some cur) rest
  end.

Definition hasEightConsecutive (c : Counters) : bool :=
  ((8 <=? maxConsecutiveAbove c) || (8 <=? maxConsecutiveBelow c))%nat.

Definition hasSixConsecutiveTrend (c : Counters) : bool :=
  ((6 <=? consecutiveIncreasing c) || (6 <=? consecutiveDecreasing c))%nat.

(** [Number(isFinite(v) ? v.toFixed(2) : "0.00")]. *)
Definition shown2 (v : number) : number := if isFinite v then toFixed 2 v else 0.

(** The values [calculateAnalysisData] computes before it builds the
    result. *)
Record Analysis := {
  measurements : list number;
  a_lsl : number; a_usl : number;
  xBarValues : list number; rangeValues : list number;
  grandMean : number; a_avgRange : number;
  a_xBarUcl : number; a_xBarLcl : number; a_rangeUcl : number; a_rangeLcl : number;
  stdDev : number; withinStdDev : number;
  safeWithinStdDev : number; safeStdDev : number;
  a_cp : number; a_cpu : number; a_cpl : number; a_cpk : number;
  a_pp : number; a_ppu : number; a_ppl : number; a_ppk : number;
  pointsOutsideXBarLimits : nat; pointsOutsideRangeLimits : nat;
  counters : Counters
}.

Definition validMeasurements (inspectionData : list InspectionData) : list number :=
  filter (fun m => negb (isNaN m))
         (map (fun d => parseFloat (ActualSpecification d)) inspectionData).

Definition analyse (first : InspectionData) (measurements : list number)
  (sampleSize : Z) (constants : ChartConstants) : Analysis :=
  let lsl := parseFloat (FromSpecification first) in
  let usl := parseFloat (ToSpecification first) in
  let xBarValues := calculateSubgroupXBar measurements sampleSize in
  let rangeValues := calculateSubgroupRanges measurements sampleSize in
  let grandMean := match calculateMean xBarValues with Some m => m | None => 0 end in
  let avgRange := match calculateMean rangeValues with Some m => m | None => 0 end in
  let xBarUcl := grandMean + A2 constants * avgRange in
  let xBarLcl := grandMean - A2 constants * avgRange in
  let rangeUcl := D4 constants * avgRange in
  let rangeLcl := D3 constants * avgRange in
  let stdDev := match calculateStdDev measurements None with Some s => s | None => 0 end in
  let withinStdDev := avgRange / d2 constants in
  let safeWithinStdDev := if withinStdDev =? 0 then 0.000001 else withinStdDev in
  let safeStdDev := if stdDev =? 0 then 0.000001 else stdDev in
  let cp := (usl - lsl) / (6 * safeWithinStdDev) in
  let cpu := (usl - grandMean) / (3 * safeWithinStdDev) in
  let cpl := (grandMean - lsl) / (3 * safeWithinStdDev) in
  let cpk := min2 cpu cpl in
  let pp := (usl - lsl) / (6 * safeStdDev) in
  let ppu := (usl - grandMean) / (3 * safeStdDev) in
  let ppl := (grandMean - lsl) / (3 * safeStdDev) in
  let ppk := min2 ppu ppl in
  {| measurements := measurements; a_lsl := lsl; a_usl := usl;
     xBarValues := xBarValues; rangeValues := rangeValues;
     grandMean := grandMean; a_avgRange := avgRange;
     a_xBarUcl := xBarUcl; a_xBarLcl := xBarLcl;
     a_rangeUcl := rangeUcl; a_rangeLcl := rangeLcl;
     stdDev := stdDev; withinStdDev := withinStdDev;
     safeWithinStdDev := safeWithinStdDev; safeStdDev := safeStdDev;
     a_cp := cp; a_cpu := cpu; a_cpl := cpl; a_cpk := cpk;
     a_pp := pp; a_ppu := ppu; a_ppl := ppl; a_ppk := ppk;
     pointsOutsideXBarLimits :=
       List.length (filter (fun point => gt (y point) xBarUcl || (y point <? xBarLcl))
                           (pointsFrom 0 xBarValues));
     pointsOutsideRangeLimits :=
       List.length (filter (fun point => gt (y point) rangeUcl || (y point <? rangeLcl))
                           (pointsFrom 0 rangeValues));
     counters := runLoop grandMean initialCounters None xBarValues |}.

(** The returned object, built from the computed values. *)
Definition report (a : Analysis) : AnalysisData :=
  let cp := a_cp a in let cpk := a_cpk a in let pp := a_pp a in
  let lsl := a_lsl a in let usl := a_usl a in
  let eight := hasEightConsecutive (counters a) in
  {| metrics :=
       {| xBar := toFixed 4 (grandMean a);
          stdDevOverall := toFixed 4 (stdDev a);
          stdDevWithin := toFixed 4 (withinStdDev a);
          avgRange := toFixed 4 (a_avgRange a);
          cp := shown2 cp; cpu := shown2 (a_cpu a); cpl := shown2 (a_cpl a);
          cpk := shown2 cpk;
          pp := shown2 pp; ppu := shown2 (a_ppu a); ppl := shown2 (a_ppl a);
          ppk := shown2 (a_ppk a);
          lsl := toFixed 3 lsl; usl := toFixed 3 usl;
          target := toFixed 3 ((usl + lsl) / 2) |};
     controlCharts :=
       {| xBarData := pointsFrom 0 (xBarValues a);
          rangeData := pointsFrom 0 (rangeValues a);
          limits :=
            {| xBarUcl := toFixed 4 (a_xBarUcl a);
               xBarMean := toFixed 4 (grandMean a);
               xBarLcl := toFixed 4 (a_xBarLcl a);
               rangeUcl := toFixed 4 (a_rangeUcl a);
               rangeMean := toFixed 4 (a_avgRange a);
               rangeLcl := toFixed 4 (a_rangeLcl a);
               Agostinho :=
                 toFixed 4
                   (abs (grandMean a -
                         match calculateMean (measurements a) with
                         | Some m => m | None => 0 end) / stdDev a) |} |};
     distribution :=
       match calculateDistributionData (measurements a) lsl usl with
       | Some d => d
       | None =>
           {| data := [];
              stats := {| statsMean := 0; statsTarget := (usl + lsl) / 2;
                          binEdges := []; statsMin := 0; statsMax := 0 |} |}
       end;
     ssAnalysis :=
       {| ssProcessShift := if cpk <? 0.75 * cp then "Yes" else "No";
          processSpread := if cp <? 1 then "Yes" else "No";
          specialCausePresent :=
            if ge pp cp then "Special Cause Detection impossible"
            else if pp <? 0.75 * cp then "Yes" else "No";
          pointsOutsideLimits :=
            if (0 <? pointsOutsideXBarLimits a)%nat
            then String.append (showNat (pointsOutsideXBarLimits a)) " Points Detected"
            else "None";
          rangePointsOutsideLimits :=
            if (0 <? pointsOutsideRangeLimits a)%nat
            then String.append (showNat (pointsOutsideRangeLimits a)) " Points Detected"
            else "None";
          eightConsecutivePoints := if eight then "Yes" else "No";
          sixConsecutiveTrend :=
            if hasSixConsecutiveTrend (counters a) then "Yes" else "No" |};
     processInterpretation :=
       {| decisionRemark :=
            if ge cpk 1.67 then "Process Excellent"
            else if ge cpk 1.45
                 then "Process is more capable, Scope for Further Improvement"
            else if ge cpk 1.33
                 then "Process is capable, Scope for Further Improvement"
            else if ge cpk 1.0
                 then "Process is slightly capable, need 100% inspection"
            else "Stop Process change, process design";
          processPotential :=
            if ge cp 1.33 then "Excellent" else if ge cp 1.0 then "Good" else "Poor";
          processPerformance :=
            if ge cpk 1.33 then "Excellent" else if ge cpk 1.0 then "Good" else "Poor";
          processStability :=
            if ((pointsOutsideXBarLimits a =? 0)%nat && negb eight)%bool
            then "Stable" else "Unstable";
          processShift := if eight then "Present" else "Not Detected" |} |}.

(** The checks at the head of [calculateAnalysisData] and what they let
    through.  [inspectionData[0]] of an empty array is [undefined], and
    reading a field of it throws a [TypeError]. *)
Definition analysis (inspectionData : list InspectionData) (sampleSize : Z)
  : outcome Analysis :=
  match controlChartConstants sampleSize with
  | None => Throws "Sample size must be between 1 and 5"
  | Some constants =>
      let measurements := validMeasurements inspectionData in
      if (Z.of_nat (List.length measurements) <? sampleSize)%Z
      then Throws "Insufficient valid data for analysis"
      else
        match inspectionData with
        | [] => Throws "TypeError: Cannot read properties of undefined"
        | first :: _ => Returns (analyse first measurements sampleSize constants)
        end
  end.

Definition calculateAnalysisData (inspectionData : list InspectionData)
  (sampleSize : Z) : outcome AnalysisData :=
  match analysis inspectionData sampleSize with
  | Returns a => Returns (report a)
  | Throws message => Throws message
  end.

End SpcUtils.

(** ** The second source file (its name is not known) *)

Module Part000.

Definition calculateMean (data : list number) : option number :=
  match data with
  | [] => None
  | _ =>
      let filtered := filter isFinite data in
      match filtered with
      | [] => None
      | _ => Some (sum filtered / ofNat (List.length filtered))
      end
  end.

(** [mean ?? calculateMean(data)], then the squared differences that are
    finite. *)
Definition calculateStdDev (data : list number) (mean : option number)
  : option number :=
  match data with
  | [] => None
  | _ =>
      let m := match mean with Some m => Some m | None => calculateMean data end in
      match m with
      | None => None
      | Some m =>
          let squaredDiffs :=
            filter isFinite (map (fun v => (v - m) * (v - m)) data) in
          match calculateMean squaredDiffs with
          | Some variance => Some (sqrt variance)
          | None => None
          end
      end
  end.

(** The body of [data.forEach] in [calculateDistributionData]; [index] is
    an integer or, for a NaN or infinite quotient, fails both tests. *)
Definition binStep (max binStart binWidth : number) (binCount : nat)
  (bins : list nat) (v : number) : list nat :=
  if negb (isFinite v) then bins
  else
    let index :=
      if v =? max then Some (Z.of_nat binCount - 1)%Z
      else floorZ ((v - binStart) / binWidth) in
    match index with
    | Some index =>
        if ((0 <=? index) && (index <? Z.of_nat binCount))%Z
        then bumpZ index bins else bins
    | None => bins
    end.

Definition calculateDistributionData (data : list number) (lsl usl : number)
  : option Distribution :=
  match data with
  | [] => None
  | _ =>
      let min := minOf data in
      let max := maxOf data in
      let range := max - min in
      let binCount := ceilSqrt (List.length data) in
      let binWidth := range / ofNat binCount in
      let binStart := min2 min lsl in
      let binEdges :=
        map (fun i => binStart + ofNat i * binWidth) (seq 0 (binCount + 1)) in
      let bins := fold_left (binStep max binStart binWidth binCount) data
                            (repeat 0%nat binCount) in
      let histData :=
        map (fun '(edge, count) =>
               {| barX := toFixed 4 (edge + binWidth / 2); barY := count |})
            (combine binEdges bins) in
      Some {| data := histData;
              stats := {| statsMin := min;
                          statsMax := max;
                          statsMean := match calculateMean data with
                                       | Some m => m | None => 0 end;
                          statsTarget := (lsl + usl) / 2;
                          binEdges := binEdges |} |}
  end.

Record Runs := {
  runsAbove : nat; runsBelow : nat; maxRunLength : nat;
  maxTrendUp : nat; maxTrendDown : nat
}.

(** The state of the first loop of [analyzeRuns]. *)
Record RunState := {
  s_runsAbove : nat; s_runsBelow : nat; s_maxRunLength : nat;
  currentRun : nat; prevAboveMean : option bool
}.

Definition runStep (mean : number) (s : RunState) (value : number) : RunState :=
  let isAbove := gt value mean in
  match prevAboveMean s with
  | None =>
      {| s_runsAbove := s_runsAbove s; s_runsBelow := s_runsBelow s;
         s_maxRunLength := s_maxRunLength s;
         currentRun := 1; prevAboveMean := Some isAbove |}
  | Some prev =>
      if Bool.eqb isAbove prev then
        {| s_runsAbove := s_runsAbove s; s_runsBelow := s_runsBelow s;
           s_maxRunLength := s_maxRunLength s;
           currentRun := S (currentRun s); prevAboveMean := Some prev |}
      else
        {| s_runsAbove := if prev then S (s_runsAbove s) else s_runsAbove s;
           s_runsBelow := if prev then s_runsBelow s else S (s_runsBelow s);
           s_maxRunLength := Nat.max (s_maxRunLength s) (currentRun s);
           currentRun := 1; prevAboveMean := Some isAbove |}
  end.

Definition closeRuns (s : RunState) : RunState :=
  match prevAboveMean s with
  | None => s
  | Some prev =>
      {| s_runsAbove := if prev then S (s_runsAbove s) else s_runsAbove s;
         s_runsBelow := if prev then s_runsBelow s else S (s_runsBelow s);
         s_maxRunLength := Nat.max (s_maxRunLength s) (currentRun s);
         currentRun := currentRun s; prevAboveMean := Some prev |}
  end.

(** The state of the second loop: [(maxTrendUp, maxTrendDown, trendUp,
    trendDown)], stepped at [data[i]] with [data[i - 1]] before it. *)
Record TrendState := {
  t_maxTrendUp : nat; t_maxTrendDown : nat; trendUp : nat; trendDown : nat
}.

Definition trendStep (t : TrendState) (prev cur : number) : TrendState :=
  let '(up, down) :=
    if gt cur prev then (S (trendUp t), 1%nat)
    else if cur <? prev then (1%nat, S (trendDown t))
    else (1%nat, 1%nat) in
  {| t_maxTrendUp := Nat.max (t_maxTrendUp t) up;
     t_maxTrendDown := Nat.max (t_maxTrendDown t) down;
     trendUp := up; trendDown := down |}.

Fixpoint trendLoop (t : TrendState) (data : list number) : TrendState :=
  match data with
  | prev :: (cur :: _) as rest => trendLoop (trendStep t prev cur) rest
  | _ => t
  end.

Definition analyzeRuns (data : list number) : option Runs :=
  match data with
  | [] => None
  | _ =>
      match calculateMean data with
      | None => None
      | Some mean =>
          let s := closeRuns
                     (fold_left (runStep mean) data
                        {| s_runsAbove := 0; s_runsBelow := 0; s_maxRunLength := 0;
                           currentRun := 0; prevAboveMean := None |}) in
          let t := trendLoop {| t_maxTrendUp := 0; t_maxTrendDown := 0;
                                trendUp := 1; trendDown := 1 |} data in
          Some {| runsAbove := s_runsAbove s; runsBelow := s_runsBelow s;
                  maxRunLength := s_maxRunLength s;
                  maxTrendUp := t_maxTrendUp t; maxTrendDown := t_maxTrendDown t |}
      end
  end.

Definition validData (inspectionData : list InspectionData) : list InspectionData :=
  filter (fun d =>
            let a := parseFloat (ActualSpecification d) in
            let l := parseFloat (FromSpecification d) in
            let u := parseFloat (ToSpecification d) in
            isFinite a && isFinite l && isFinite u)
         inspectionData.

(** The two branches that fill [subgroupRanges] and [subgroupMeans]. *)
Definition subgroupRanges (measurements : list number) (sampleSize : Z)
  : list number :=
  if (sampleSize =? 1)%Z then filter isFinite (movingRanges measurements)
  else
    flat_map
      (fun group =>
         if (0 <? List.length group)%nat then [maxOf group - minOf group] else [])
      (slices sampleSize measurements).

Definition subgroupMeans (measurements : list number) (sampleSize : Z)
  : list number :=
  if (sampleSize =? 1)%Z
  then map (fun v => if isFinite v then v else 0) measurements
  else
    flat_map
      (fun group =>
         if (0 <? List.length group)%nat
         then [match calculateMean group with Some m => m | None => 0 end]
         else [])
      (slices sampleSize measurements).

(** The values [calculateAnalysisData] computes before it builds the
    result. *)
Record Analysis := {
  measurements : list number;
  a_lsl : number; a_usl : number;
  a_subgroupMeans : list number; a_subgroupRanges : list number;
  grandMean : number; a_avgRange : number; stdDev : number;
  a_xBarUcl : number; a_xBarLcl : number; a_rangeUcl : number; a_rangeLcl : number;
  withinStdDev : number;
  a_cp : number; a_cpu : number; a_cpl : number; a_cpk : number;
  a_pp : number; a_ppu : number; a_ppl : number; a_ppk : number;
  a_distribution : Distribution;
  runs : Runs
}.

Definition analyse (first : InspectionData) (measurements : list number)
  (sampleSize : Z) (constants : ChartConstants) : Analysis :=
  let lsl := parseFloat (FromSpecification first) in
  let usl := parseFloat (ToSpecification first) in
  let subgroupRanges := subgroupRanges measurements sampleSize in
  let subgroupMeans := subgroupMeans measurements sampleSize in
  let grandMean := match calculateMean subgroupMeans with Some m => m | None => 0 end in
  let avgRange := match calculateMean subgroupRanges with Some m => m | None => 0 end in
  let stdDev := match calculateStdDev measurements (Some grandMean) with
                | Some s => s | None => 0 end in
  let xBarUcl := grandMean + A2 constants * avgRange in
  let xBarLcl := grandMean - A2 constants * avgRange in
  let rangeUcl := D4 constants * avgRange in
  let rangeLcl := D3 constants * avgRange in
  let withinStdDev :=
    if (sampleSize =? 1)%Z then avgRange / d2 constants else avgRange / d2 constants in
  let cp := (usl - lsl) / (6 * withinStdDev) in
  let cpu := (usl - grandMean) / (3 * withinStdDev) in
  let cpl := (grandMean - lsl) / (3 * withinStdDev) in
  let cpk := min2 cpu cpl in
  let pp := (usl - lsl) / (6 * stdDev) in
  let ppu := (usl - grandMean) / (3 * stdDev) in
  let ppl := (grandMean - lsl) / (3 * stdDev) in
  let ppk := min2 ppu ppl in
  {| measurements := measurements; a_lsl := lsl; a_usl := usl;
     a_subgroupMeans := subgroupMeans; a_subgroupRanges := subgroupRanges;
     grandMean := grandMean; a_avgRange := avgRange; stdDev := stdDev;
     a_xBarUcl := xBarUcl; a_xBarLcl := xBarLcl;
     a_rangeUcl := rangeUcl; a_rangeLcl := rangeLcl;
     withinStdDev := withinStdDev;
     a_cp := cp; a_cpu := cpu; a_cpl := cpl; a_cpk := cpk;
     a_pp := pp; a_ppu := ppu; a_ppl := ppl; a_ppk := ppk;
     a_distribution :=
       match calculateDistributionData measurements lsl usl with
       | Some d => d
       | None =>
           {| data := [];
              stats := {| statsMin := 0; statsMax := 0; statsMean := 0;
                          statsTarget := (lsl + usl) / 2; binEdges := [] |} |}
       end;
     runs :=
       match analyzeRuns subgroupMeans with
       | Some r => r
       | None => {| runsAbove := 0; runsBelow := 0; maxRunLength := 0;
                    maxTrendUp := 0; maxTrendDown := 0 |}
       end |}.

(** The returned object, built from the computed values. *)
Definition report (a : Analysis) : AnalysisData :=
  let cp := a_cp a in let cpk := a_cpk a in let pp := a_pp a in
  let lsl := a_lsl a in let usl := a_usl a in
  let xBarUcl := a_xBarUcl a in let xBarLcl := a_xBarLcl a in
  let rangeUcl := a_rangeUcl a in let rangeLcl := a_rangeLcl a in
  let xBarData := pointsFrom 0 (a_subgroupMeans a) in
  let rangeData := pointsFrom 0 (a_subgroupRanges a) in
  {| metrics :=
       {| xBar := grandMean a;
          stdDevOverall := stdDev a;
          stdDevWithin := withinStdDev a;
          avgRange := a_avgRange a;
          cp := cp; cpu := a_cpu a; cpl := a_cpl a; cpk := cpk;
          pp := pp; ppu := a_ppu a; ppl := a_ppl a; ppk := a_ppk a;
          lsl := lsl; usl := usl; target := (lsl + usl) / 2 |};
     controlCharts :=
       {| xBarData := xBarData;
          rangeData := rangeData;
          limits :=
            {| xBarUcl := xBarUcl; xBarMean := grandMean a; xBarLcl := xBarLcl;
               rangeUcl := rangeUcl; rangeMean := a_avgRange a; rangeLcl := rangeLcl;
               Agostinho :=
                 abs (grandMean a - statsMean (stats (a_distribution a)))
                 / stdDev a |} |};
     distribution := a_distribution a;
     ssAnalysis :=
       {| ssProcessShift := if cpk <? 0.75 * cp then "Yes" else "No";
          processSpread := if cp <? 1 then "Yes" else "No";
          specialCausePresent :=
            if ge pp cp then "Special Cause Detection impossible"
            else if pp <? 0.75 * cp then "Yes" else "No";
          pointsOutsideLimits :=
            if Nat.ltb 0 (List.length
                            (filter (fun p => gt (y p) xBarUcl || (y p <? xBarLcl))
                                    xBarData))
            then "Points Detected" else "None";
          rangePointsOutsideLimits :=
            if Nat.ltb 0 (List.length
                            (filter (fun p => gt (y p) rangeUcl || (y p <? rangeLcl))
                                    rangeData))
            then "Points Detected" else "None";
          eightConsecutivePoints :=
            if (8 <=? maxRunLength (runs a))%nat then "Yes" else "No";
          sixConsecutiveTrend :=
            if (6 <=? Nat.max (maxTrendUp (runs a)) (maxTrendDown (runs a)))%nat
            then "Yes" else "No" |};
     processInterpretation :=
       {| decisionRemark :=
            if ge cpk 1.67 then "Process Excellent"
            else if ge cpk 1.45 then "Process more capable, improve"
            else if ge cpk 1.33 then "Process capable"
            else if ge cpk 1.0 then "Slightly capable"
            else "Stop and fix";
          processPotential :=
            if ge cp 1.33 then "Excellent" else if ge cp 1.0 then "Good" else "Poor";
          processPerformance :=
            if ge cpk 1.33 then "Excellent" else if ge cpk 1.0 then "Good" else "Poor";
          processStability :=
            if forallb (fun p => ge (y p) xBarLcl && (y p <=? xBarUcl)) xBarData
               && Nat.eqb (maxRunLength (runs a)) 0
            then "Stable" else "Unstable";
          processShift :=
            if (8 <=? maxRunLength (runs a))%nat then "Present" else "Not Detected" |} |}.

(** The checks at the head of [calculateAnalysisData] and what they let
    through.  [validData[0]] of an empty array is [undefined], and reading a
    field of it throws a [TypeError]. *)
Definition analysis (inspectionData : list InspectionData) (sampleSize : Z)
  : outcome Analysis :=
  match controlChartConstants sampleSize with
  | None => Throws "Invalid sample size"
  | Some constants =>
      let validData := validData inspectionData in
      let measurements := map (fun d => parseFloat (ActualSpecification d)) validData in
      if (Z.of_nat (List.length measurements) <? sampleSize)%Z
      then Throws "Insufficient data"
      else
        match validData with
        | [] => Throws "TypeError: Cannot read properties of undefined"
        | first :: _ => Returns (analyse first measurements sampleSize constants)
        end
  end.

Definition calculateAnalysisData (inspectionData : list InspectionData)
  (sampleSize : Z) : outcome AnalysisData :=
  match analysis inspectionData sampleSize with
  | Returns a => Returns (report a)
  | Throws message => Throws message
  end.

End Part000.

(** ** Notions the statements are written with *)

Local Close Scope string_scope.

(** How a binary64 value is classified, read on its specification. *)
Definition sf_finite (s : spec_float) : bool :=
  match s with S754_zero _ | S754_finite _ _ _ => true | _ => false end.

Definition sf_nonneg (s : spec_float) : bool :=
  match s with
  | S754_zero _ | S754_infinity false | S754_finite false _ _ => true
  | _ => false
  end.

Definition signed_as (s : bool) (r : spec_float) : Prop :=
  match r with
  | S754_zero s' | S754_infinity s' | S754_finite s' _ _ => s' = s
  | S754_nan => False
  end.

(** A point strictly above, strictly below a centre line. *)
Definition above (centre v : number) : bool := gt v centre.
Definition below (centre v : number) : bool := v <? centre.

(** A point strictly above, strictly below the point before it. *)
Definition rising (before v : number) : bool := gt v before.
Definition falling (before v : number) : bool := v <? before.

(** [Streak P k ys]: some [k] consecutive points of [ys] all satisfy [P]. *)
Definition Streak (P : number -> bool) (k : nat) (ys : list number) : Prop :=
  exists before run after,
    ys = before ++ run ++ after /\ List.length run = k /\ forallb P run = true.

(** Each point of the run is related to the one before it. *)
Fixpoint chained (R : number -> number -> bool) (run : list number) : bool :=
  match run with
  | a :: (b :: _) as rest => R a b && chained R rest
  | _ => true
  end.

(** [Trend R k ys]: some [k] consecutive points of [ys] form a run in which
    each point is related by [R] to its predecessor. *)
Definition Trend (R : number -> number -> bool) (k : nat) (ys : list number) : Prop :=
  exists before run after,
    ys = before ++ run ++ after /\ List.length run = k /\ chained R run = true.

(** The lengths of the longest streak and of the longest run, computed from
    the head of the series. *)
Fixpoint leading (P : number -> bool) (ys : list number) : nat :=
  match ys with
  | v :: rest => if P v then S (leading P rest) else 0
  | [] => 0
  end.

Fixpoint longestStreak (P : number -> bool) (ys : list number) : nat :=
  match ys with
  | [] => 0
  | _ :: rest => Nat.max (leading P ys) (longestStreak P rest)
  end.

Fixpoint leadingChain (R : number -> number -> bool) (ys : list number) : nat :=
  match ys with
  | [] => 0
  | a :: rest =>
      match rest with
      | b :: _ => if R a b then S (leadingChain R rest) else 1
      | [] => 1
      end
  end.

Fixpoint longestChain (R : number -> number -> bool) (ys : list number) : nat :=
  match ys with
  | [] => 0
  | _ :: rest => Nat.max (leadingChain R ys) (longestChain R rest)
  end.

(** The population standard deviation of [xs] around [centre], in the
    words of the specification: the square root of the sum of the squared
    deviations divided by the number of values. *)
Definition populationStdDev (xs : list number) (centre : number) : number :=
  sqrt (sum (map (fun v => (v - centre) * (v - centre)) xs) / ofNat (List.length xs)).

(** A record whose three fields parse to finite numbers. *)
Definition allFinite (d : InspectionData) : bool :=
  isFinite (parseFloat (ActualSpecification d))
  && isFinite (parseFloat (FromSpecification d))
  && isFinite (parseFloat (ToSpecification d)).

(** A record whose measurement does not parse to NaN: the test of
    [spcUtils.ts]. *)
Definition measured (d : InspectionData) : bool :=
  negb (isNaN (parseFloat (ActualSpecification d))).

(** The first record of a list that satisfies [keep]. *)
Fixpoint firstRetained (keep : InspectionData -> bool) (ds : list InspectionData)
  : option InspectionData :=
  match ds with
  | [] => None
  | d :: rest => if keep d then Some d else firstRetained keep rest
  end.

(** The sum of the counts of a histogram. *)
Definition total (counts : list nat) : nat := fold_right Nat.add 0%nat counts.

(** Whether the loop body of [calculateDistributionData] counts [v] in some
    bin, and whether it counts it in bin [j], in each file. *)
Definition indexOf (binStart binWidth v : number) : option Z :=
  floorZ ((v - binStart) / binWidth).

Definition inBins (binCount : nat) (i : option Z) : bool :=
  match i with
  | Some i => ((0 <=? i) && (i <? Z.of_nat binCount))%Z
  | None => false
  end.

Definition isBin (j : nat) (i : option Z) : bool :=
  match i with
  | Some i => (i =? Z.of_nat j)%Z
  | None => false
  end.

(** The values the loop of [calculateDistributionData] counts, and those it
    counts in bin [j]: in [spcUtils.ts] ([countedA], [binA]) and in the second
    file ([countedB], [binB]), which skips the values that are not finite. *)
Definition countedA (max binStart binWidth : number) (binCount : nat) (v : number) : bool :=
  (v =? max) || inBins binCount (indexOf binStart binWidth v).

Definition binA (max binStart binWidth : number) (binCount j : nat) (v : number) : bool :=
  if v =? max then (j =? binCount - 1)%nat
  else inBins binCount (indexOf binStart binWidth v)
       && isBin j (indexOf binStart binWidth v).

Definition countedB (max binStart binWidth : number) (binCount : nat) (v : number) : bool :=
  isFinite v && countedA max binStart binWidth binCount v.

Definition binB (max binStart binWidth : number) (binCount j : nat) (v : number) : bool :=
  isFinite v && binA max binStart binWidth binCount j v.

(** A value that is not negative: NaN, a zero, or a positive number or
    infinity; and a value with a clear sign bit that is not NaN. *)
Definition sf_notneg (s : spec_float) : bool :=
  match s with S754_nan => true | _ => sf_nonneg s end.

Definition sf_plus (s : spec_float) : bool :=
  match s with
  | S754_zero false | S754_infinity false | S754_finite false _ _ => true
  | _ => false
  end.

(** [EndsWith R k ys]: the last [k] points of [ys] form a run in which each
    point is related by [R] to its predecessor. *)
Definition EndsWith (R : number -> number -> bool) (k : nat) (ys : list number) : Prop :=
  exists before run,
    ys = before ++ run /\ List.length run = k /\ chained R run = true.

(** A point that is not strictly above a centre line: below it, on it, or
    NaN. *)
Definition notAbove (centre v : number) : bool := negb (above centre v).

(** The relation read from the later point to the earlier one. *)
Definition backwards (R : number -> number -> bool) (a b : number) : bool := R b a.

(** ** Concrete series *)

(** Inspection records with the given measurements and the limits 5 and 15. *)
Definition inspected (actual : list string) : list InspectionData :=
  map (fun a => {| ActualSpecification := a;
                   FromSpecification := "5"%string;
                   ToSpecification := "15"%string |}) actual.

(** Three records: the first has no measurement, the second no lower
    limit, the third is complete. *)
Definition mixedRecords : list InspectionData :=
  [ {| ActualSpecification := "n/a"; FromSpecification := "1"; ToSpecification := "9" |};
    {| ActualSpecification := "5"; FromSpecification := "low"; ToSpecification := "8" |};
    {| ActualSpecification := "6"; FromSpecification := "2"; ToSpecification := "8" |}
  ]%string.

(** Eight measurements, the first seven rising, the last equal to the
    seventh. *)
Definition ramp : list InspectionData :=
  inspected ["1"; "2"; "3"; "4"; "5"; "6"; "7"; "7"]%string.

(** Eight equal measurements. *)
Definition level : list InspectionData :=
  inspected ["5"; "5"; "5"; "5"; "5"; "5"; "5"; "5"]%string.


(** * Facts about binary64 numbers

    The primitive operations are specified on [spec_float]; the facts below
    are read off those specifications. *)

(** Shifting right keeps a non-negative mantissa non-negative, so that
    rounding never yields NaN and keeps the sign it is given. *)
Lemma shr_1_nonneg r : (0 <= shr_m r)%Z -> (0 <= shr_m (shr_1 r))%Z.
Proof.
  destruct r as [m r s]; simpl. destruct m as [|p|p]; simpl; intros H; try lia.
  - destruct p; simpl; lia.
Qed.

Lemma iter_pos_shr_1_nonneg p : forall r, (0 <= shr_m r)%Z -> (0 <= shr_m (iter_pos shr_1 p r))%Z.
Proof.
  induction p; simpl; intros r H.
  - apply IHp, IHp, shr_1_nonneg, H.
  - apply IHp, IHp, H.
  - apply shr_1_nonneg, H.
Qed.

Lemma shr_nonneg r e n : (0 <= shr_m r)%Z -> (0 <= shr_m (fst (shr r e n)))%Z.
Proof.
  intros H. unfold shr. destruct n; simpl; auto. apply iter_pos_shr_1_nonneg, H.
Qed.

Lemma shr_record_of_loc_m m l : shr_m (shr_record_of_loc m l) = m.
Proof. destruct l as [|[]]; reflexivity. Qed.

Lemma shr_fexp_nonneg m e l : (0 <= m)%Z -> (0 <= shr_m (fst (shr_fexp prec emax m e l)))%Z.
Proof.
  intros H. unfold shr_fexp. apply shr_nonneg. rewrite shr_record_of_loc_m. exact H.
Qed.

Lemma round_nearest_even_nonneg m l : (0 <= m)%Z -> (0 <= round_nearest_even m l)%Z.
Proof.
  intros H. unfold round_nearest_even. destruct l as [|[]]; try lia.
  destruct (Z.even m); lia.
Qed.

Lemma binary_round_aux_signed s m e l :
  (0 <= m)%Z -> signed_as s (binary_round_aux prec emax s m e l).
Proof.
  intros H. unfold binary_round_aux.
  pose proof (shr_fexp_nonneg m e l H) as H1.
  destruct (shr_fexp prec emax m e l) as [r1 e1]. simpl in H1.
  pose proof (shr_fexp_nonneg _ e1 loc_Exact
                (round_nearest_even_nonneg _ (loc_of_shr_record r1) H1)) as H2.
  destruct (shr_fexp prec emax _ e1 loc_Exact) as [r2 e2]. simpl in H2.
  destruct (shr_m r2) as [|p|p]; simpl; try lia; auto.
  destruct (e2 <=? _)%Z; simpl; auto.
Qed.

Lemma binary_round_signed s m e : signed_as s (binary_round prec emax s m e).
Proof.
  unfold binary_round. destruct (shl_align m e _) as [mz ez].
  apply binary_round_aux_signed. lia.
Qed.

Lemma binary_normalize_nonneg m e :
  (0 <= m)%Z ->
  match binary_normalize prec emax m e false with
  | S754_zero false | S754_infinity false | S754_finite false _ _ => True
  | _ => False
  end.
Proof.
  intros H. destruct m as [|p|p]; simpl; try lia; auto.
  pose proof (binary_round_signed false p e) as S.
  destruct (binary_round prec emax false p e) as [[]|[]| |[] ? ?]; simpl in S; auto; discriminate.
Qed.

Lemma binary_normalize_not_nan m e : binary_normalize prec emax m e false <> S754_nan.
Proof.
  destruct m as [|p|p]; simpl; try discriminate.
  - pose proof (binary_round_signed false p e) as S. intros E. rewrite E in S. exact S.
  - pose proof (binary_round_signed true p e) as S. intros E. rewrite E in S. exact S.
Qed.

(** The mantissa of a canonical number has at most [prec] bits, and exactly
    [prec] above the smallest exponent. *)
Lemma digits2_pos_bounds p :
  (2 ^ (Zpos (digits2_pos p) - 1) <= Zpos p < 2 ^ Zpos (digits2_pos p))%Z.
Proof.
  induction p as [p IH|p IH|]; simpl digits2_pos; [| |simpl; lia].
  all: rewrite Pos2Z.inj_succ;
    replace (Z.succ (Zpos (digits2_pos p)) - 1)%Z with (Zpos (digits2_pos p)) by lia;
    rewrite Z.pow_succ_r by lia;
    assert (E : (2 ^ Zpos (digits2_pos p) = 2 * 2 ^ (Zpos (digits2_pos p) - 1))%Z)
      by (rewrite <- Z.pow_succ_r by lia; f_equal; lia);
    lia.
Qed.

Lemma canonical_bounds m e :
  canonical_mantissa prec emax m e = true ->
  (Zpos m < 2 ^ prec)%Z /\ ((emin < e)%Z -> (2 ^ (prec - 1) <= Zpos m)%Z).
Proof.
  unfold canonical_mantissa, fexp. intros H. apply Z.eqb_eq in H.
  pose proof (digits2_pos_bounds m) as [L U].
  set (d := Zpos (digits2_pos m)) in *.
  split.
  - assert (d <= prec)%Z by lia.
    apply Z.lt_le_trans with (1 := U). apply Z.pow_le_mono_r; lia.
  - intros He. assert (d = prec)%Z by lia. subst d. rewrite <- H0. exact L.
Qed.

Lemma shl_align_value m e e' :
  (e' <= e)%Z -> Zpos (fst (shl_align m e e')) = (Zpos m * 2 ^ (e - e'))%Z.
Proof.
  intros H. unfold shl_align.
  destruct (e' - e)%Z as [|d|d] eqn:E; simpl.
  - replace (e - e')%Z with 0%Z by lia. simpl. lia.
  - lia.
  - change (Pos.iter xO m d) with (shift_pos d m).
    rewrite shift_pos_correct.
    replace (e - e')%Z with (Zpos d) by lia.
    rewrite Z.mul_comm. reflexivity.
Qed.

Lemma SFsub_finite_not_nan x y :
  sf_finite x = true -> sf_finite y = true -> SFsub prec emax x y <> S754_nan.
Proof.
  destruct x as [sx|sx| |sx mx ex], y as [sy|sy| |sy my ey]; simpl; try discriminate; intros _ _.
  - destruct sx, sy; discriminate.
  - apply binary_normalize_not_nan.
Qed.

Lemma SFsub_nonneg x y :
  valid_binary x = true -> valid_binary y = true ->
  sf_finite x = true -> sf_finite y = true ->
  SFleb y x = true -> sf_nonneg (SFsub prec emax x y) = true.
Proof.
  unfold SFleb.
  destruct x as [sx|sx| |sx mx ex], y as [sy|sy| |sy my ey]; simpl; try discriminate;
    intros Vx Vy _ _ L.
  - destruct sx, sy; reflexivity.
  - destruct sy; simpl in *; congruence.
  - destruct sx; simpl in *; congruence.
  - apply andb_prop in Vx as [Cx _]. apply andb_prop in Vy as [Cy _].
    pose proof (canonical_bounds _ _ Cx) as [Ux Lx].
    pose proof (canonical_bounds _ _ Cy) as [Uy Ly].
    assert (Ex : (emin <= ex)%Z).
    { unfold canonical_mantissa, fexp in Cx. apply Z.eqb_eq in Cx. lia. }
    assert (Ey : (emin <= ey)%Z).
    { unfold canonical_mantissa, fexp in Cy. apply Z.eqb_eq in Cy. lia. }
    set (ez := Z.min ex ey).
    pose proof (shl_align_value mx ex ez ltac:(unfold ez; lia)) as Hx.
    pose proof (shl_align_value my ey ez ltac:(unfold ez; lia)) as Hy.
    set (X := Zpos (fst (shl_align mx ex ez))) in *.
    set (Y := Zpos (fst (shl_align my ey ez))) in *.
    assert (N : (0 <= cond_Zopp sx X - cond_Zopp sy Y)%Z).
    { assert (PX : (0 < X)%Z) by (unfold X; lia).
      assert (PY : (0 < Y)%Z) by (unfold Y; lia).
      clearbody X Y. unfold cond_Zopp.
      destruct sy, sx; simpl in L; try discriminate; try lia.
      - (* both negative: y <= x means |x| <= |y| *)
        destruct (Z.compare_spec ey ex) as [E|E|E]; try discriminate.
        + subst ey. unfold ez in *. rewrite Z.min_id in *.
          rewrite Z.sub_diag, Z.pow_0_r in *.
          destruct (Pos.compare_cont Eq my mx) eqn:C; simpl in L; try discriminate.
          * apply Pos.compare_eq in C. subst. lia.
          * change (Pos.compare_cont Eq my mx) with (Pos.compare my mx) in C.
            assert (mx < my)%positive by (apply Pos.compare_gt_iff; exact C). lia.
        + (* ex < ey : |y| has the larger exponent *)
          unfold ez in *. rewrite Z.min_l in * by lia.
          rewrite Z.sub_diag, Z.pow_0_r in *.
          specialize (Ly ltac:(lia)).
          assert (2 ^ 1 <= 2 ^ (ey - ex))%Z by (apply Z.pow_le_mono_r; lia).
          change (2 ^ prec)%Z with (2 * 2 ^ (prec - 1))%Z in Ux. nia.
      - (* both positive *)
        destruct (Z.compare_spec ey ex) as [E|E|E]; try discriminate.
        + subst ey. unfold ez in *. rewrite Z.min_id in *.
          rewrite Z.sub_diag, Z.pow_0_r in *.
          destruct (Pos.compare_cont Eq my mx) eqn:C; simpl in L; try discriminate.
          * apply Pos.compare_eq in C. subst. lia.
          * change (Pos.compare_cont Eq my mx) with (Pos.compare my mx) in C.
            assert (my < mx)%positive by (apply Pos.compare_lt_iff; exact C). lia.
        + unfold ez in *. rewrite Z.min_r in * by lia.
          rewrite Z.sub_diag, Z.pow_0_r in *.
          specialize (Lx ltac:(lia)).
          assert (2 ^ 1 <= 2 ^ (ex - ey))%Z by (apply Z.pow_le_mono_r; lia).
          change (2 ^ prec)%Z with (2 * 2 ^ (prec - 1))%Z in Uy. nia. }
    pose proof (binary_normalize_nonneg _ ez N) as B.
    destruct (binary_normalize prec emax _ ez false) as [[]|[]| |[] ? ?]; simpl; auto.
Qed.

Lemma SFcompare_antisym x y c :
  SFcompare x y = Some c -> SFcompare y x = Some (CompOpp c).
Proof.
  destruct x as [sx|sx| |sx mx ex], y as [sy|sy| |sy my ey]; simpl;
    try discriminate;
    try (destruct sx; intros [= <-]; reflexivity);
    try (destruct sy; intros [= <-]; reflexivity);
    try (destruct sx, sy; intros [= <-]; reflexivity).
  destruct sx, sy; intros [= <-]; try reflexivity.
  - rewrite (Z.compare_antisym ex ey). destruct (ex ?= ey)%Z; simpl; try reflexivity.
    change (PosDef.Pos.compare_cont Eq) with (Pos.compare_cont Eq).
    rewrite (Pos.compare_cont_antisym mx my Eq). simpl. reflexivity.
  - rewrite (Z.compare_antisym ex ey). destruct (ex ?= ey)%Z; simpl; try reflexivity.
    change (PosDef.Pos.compare_cont Eq) with (Pos.compare_cont Eq).
    rewrite (Pos.compare_cont_antisym mx my Eq). simpl. destruct (Pos.compare_cont Eq my mx); reflexivity.
Qed.

Lemma ltb_asym x y : (x <? y) = true -> (y <? x) = false.
Proof.
  rewrite !ltb_spec. unfold SFltb.
  destruct (SFcompare (Prim2SF x) (Prim2SF y)) as [c|] eqn:E; try discriminate.
  rewrite (SFcompare_antisym _ _ _ E). destruct c; simpl; congruence.
Qed.


Lemma SFcompare_refl s : s <> S754_nan -> SFcompare s s = Some Eq.
Proof.
  destruct s as [[]|[]| |[] m e]; simpl; try congruence; intros _;
    rewrite Z.compare_refl;
    change (PosDef.Pos.compare_cont Eq m m) with (Pos.compare m m);
    rewrite Pos.compare_refl; reflexivity.
Qed.

Lemma isNaN_spec v : isNaN v = match Prim2SF v with S754_nan => true | _ => false end.
Proof.
  unfold isNaN, is_nan. rewrite eqb_spec. unfold SFeqb.
  destruct (Prim2SF v) eqn:E; try reflexivity;
    rewrite SFcompare_refl by discriminate; reflexivity.
Qed.

Lemma isFinite_spec v : isFinite v = sf_finite (Prim2SF v).
Proof.
  unfold isFinite, is_finite. fold (isNaN v). rewrite isNaN_spec.
  unfold is_infinity. rewrite eqb_spec, abs_spec. unfold SFeqb.
  change (Prim2SF infinity) with (S754_infinity false).
  destruct (Prim2SF v) as [[]|[]| |[] m e]; reflexivity.
Qed.

Lemma nonneg_spec v : (0 <=? v) = sf_nonneg (Prim2SF v).
Proof.
  rewrite leb_spec. change (Prim2SF 0) with (S754_zero false).
  unfold SFleb. destruct (Prim2SF v) as [[]|[]| |[] m e]; reflexivity.
Qed.

Lemma sub_nonneg a b :
  isFinite a = true -> isFinite b = true -> (b <=? a) = true -> (0 <=? a - b) = true.
Proof.
  rewrite !isFinite_spec, leb_spec, nonneg_spec, sub_spec. intros Fa Fb L.
  apply SFsub_nonneg; auto using Prim2SF_valid.
Qed.

Lemma abs_sub_nonneg a b :
  isFinite a = true -> isFinite b = true -> (0 <=? abs (b - a)) = true.
Proof.
  rewrite !isFinite_spec, nonneg_spec, abs_spec, sub_spec. intros Fa Fb.
  pose proof (SFsub_finite_not_nan _ _ Fb Fa) as N. unfold SF64sub.
  destruct (SFsub prec emax (Prim2SF b) (Prim2SF a)) as [[]|[]| |[] m e]; try reflexivity.
  congruence.
Qed.

Lemma abs_finite_nonneg v : isFinite (abs v) = true -> (0 <=? abs v) = true.
Proof.
  rewrite isFinite_spec, nonneg_spec, abs_spec.
  destruct (Prim2SF v) as [[]|[]| |[] m e]; simpl; congruence.
Qed.

(** [0 * a] is a zero when [a] is finite and NaN otherwise. *)
Lemma zero_mul a :
  if isFinite a then (0 * a =? 0) = true else isNaN (0 * a) = true.
Proof.
  rewrite isFinite_spec, isNaN_spec, eqb_spec, mul_spec.
  change (Prim2SF 0) with (S754_zero false).
  destruct (Prim2SF a) as [[]|[]| |[] m e]; reflexivity.
Qed.

Lemma nonneg_not_below_zero_mul v a : (0 <=? v) = true -> (v <? 0 * a) = false.
Proof.
  rewrite nonneg_spec, ltb_spec, mul_spec.
  change (Prim2SF 0) with (S754_zero false).
  unfold SF64mul, SFltb.
  destruct (Prim2SF a) as [[]|[]| |[] m e], (Prim2SF v) as [[]|[]| |[] m' e'];
    simpl; congruence.
Qed.

(** The order on finite numbers. *)
Lemma leb_refl v : isFinite v = true -> (v <=? v) = true.
Proof.
  rewrite isFinite_spec, leb_spec. unfold SFleb. intros F.
  rewrite SFcompare_refl; auto. intros E. rewrite E in F. discriminate.
Qed.

Lemma ltb_leb a b : (a <? b) = true -> (a <=? b) = true.
Proof.
  rewrite ltb_spec, leb_spec. unfold SFltb, SFleb.
  destruct (SFcompare _ _) as [[]|]; congruence.
Qed.

Lemma SFcompare_finite x y :
  sf_finite x = true -> sf_finite y = true -> exists c, SFcompare x y = Some c.
Proof.
  destruct x as [[]|[]| |[] m e], y as [[]|[]| |[] m' e']; simpl; try discriminate; eauto.
Qed.

Lemma not_ltb_leb a b :
  isFinite a = true -> isFinite b = true -> (a <? b) = false -> (b <=? a) = true.
Proof.
  rewrite !isFinite_spec, ltb_spec, leb_spec. unfold SFltb, SFleb. intros Fa Fb.
  destruct (SFcompare_finite _ _ Fa Fb) as [c E]. rewrite E.
  rewrite (SFcompare_antisym _ _ _ E). destruct c; simpl; congruence.
Qed.

(** [Math.max] and [Math.min] over a non-empty array of finite numbers. *)
Lemma isFinite_not_NaN v : isFinite v = true -> isNaN v = false.
Proof. rewrite isFinite_spec, isNaN_spec. destruct (Prim2SF v); simpl; congruence. Qed.

Lemma max2_start v : isFinite v = true -> max2 neg_infinity v = v.
Proof.
  intros F. unfold max2. rewrite (isFinite_not_NaN v F).
  change (isNaN neg_infinity) with false. simpl.
  assert (E : (neg_infinity <? v) = true).
  { rewrite ltb_spec. rewrite isFinite_spec in F.
    change (Prim2SF neg_infinity) with (S754_infinity true).
    unfold SFltb. destruct (Prim2SF v) as [[]|[]| |[] m e]; simpl in *; congruence. }
  rewrite E. reflexivity.
Qed.

Lemma min2_start v : isFinite v = true -> min2 infinity v = v.
Proof.
  intros F. unfold min2. rewrite (isFinite_not_NaN v F).
  change (isNaN infinity) with false. simpl.
  assert (E : (infinity <? v) = false).
  { rewrite ltb_spec. rewrite isFinite_spec in F.
    change (Prim2SF infinity) with (S754_infinity false).
    unfold SFltb. destruct (Prim2SF v) as [[]|[]| |[] m e]; simpl in *; congruence. }
  assert (E' : (v <? infinity) = true).
  { rewrite ltb_spec. rewrite isFinite_spec in F.
    change (Prim2SF infinity) with (S754_infinity false).
    unfold SFltb. destruct (Prim2SF v) as [[]|[]| |[] m e]; simpl in *; congruence. }
  rewrite E, E'. reflexivity.
Qed.

Lemma min_max_step lo hi v :
  isFinite lo = true -> isFinite hi = true -> isFinite v = true ->
  (lo <=? hi) = true ->
  isFinite (min2 lo v) = true /\ isFinite (max2 hi v) = true /\
  (min2 lo v <=? max2 hi v) = true.
Proof.
  intros Flo Fhi Fv L. unfold min2, max2.
  rewrite (isFinite_not_NaN _ Flo), (isFinite_not_NaN _ Fhi), (isFinite_not_NaN _ Fv).
  simpl.
  destruct (lo <? v) eqn:A, (v <? lo) eqn:B, (hi <? v) eqn:C, (v <? hi) eqn:D,
    (get_sign lo), (get_sign hi);
    repeat split; auto using ltb_leb, not_ltb_leb, leb_refl.
Qed.

Lemma min_max_fold xs : forall lo hi,
  forallb isFinite xs = true ->
  isFinite lo = true -> isFinite hi = true -> (lo <=? hi) = true ->
  isFinite (fold_left min2 xs lo) = true /\ isFinite (fold_left max2 xs hi) = true /\
  (fold_left min2 xs lo <=? fold_left max2 xs hi) = true.
Proof.
  induction xs as [|v xs IH]; simpl; intros lo hi F Flo Fhi L; auto.
  apply andb_prop in F as [Fv F].
  destruct (min_max_step lo hi v Flo Fhi Fv L) as (F1 & F2 & L').
  apply IH; auto.
Qed.

Lemma spread_nonneg g :
  g <> [] -> forallb isFinite g = true -> (0 <=? maxOf g - minOf g) = true.
Proof.
  destruct g as [|v xs]; [congruence|]. intros _ F. simpl in F.
  apply andb_prop in F as [Fv F]. unfold maxOf, minOf. simpl.
  rewrite (max2_start v Fv), (min2_start v Fv).
  destruct (min_max_fold xs v v F Fv Fv (leb_refl v Fv)) as (F1 & F2 & L).
  apply sub_nonneg; auto.
Qed.

(** * The interpretation layer *)

(** In [spcUtils.ts] the verdict is "Stable" exactly when no X-bar point is
    outside the limits and no run of eight was found. *)
Lemma SpcUtils_processStability a :
  processStability (processInterpretation (SpcUtils.report a)) = "Stable"%string <->
  SpcUtils.pointsOutsideXBarLimits a = 0%nat /\
  SpcUtils.hasEightConsecutive (SpcUtils.counters a) = false.
Proof.
  simpl.
  destruct (SpcUtils.pointsOutsideXBarLimits a) as [|n];
    destruct (SpcUtils.hasEightConsecutive (SpcUtils.counters a)); simpl;
    split; try discriminate; try tauto; intros [? ?]; discriminate.
Qed.

(** The first loop of [analyzeRuns] has a current run of at least one point
    once it has seen a point. *)
Lemma Part000_runStep_started mean s v :
  let s' := Part000.runStep mean s v in
  (Part000.prevAboveMean s <> None -> (1 <= Part000.currentRun s)%nat) ->
  Part000.prevAboveMean s' <> None /\ (1 <= Part000.currentRun s')%nat.
Proof.
  unfold Part000.runStep. destruct (Part000.prevAboveMean s) as [prev|].
  - intros H. specialize (H ltac:(discriminate)).
    destruct (Bool.eqb (gt v mean) prev); simpl; split; try discriminate; lia.
  - intros _. simpl. split; [discriminate | lia].
Qed.

Lemma Part000_runs_started mean ys : forall s,
  ys <> [] ->
  (Part000.prevAboveMean s <> None -> (1 <= Part000.currentRun s)%nat) ->
  let s' := fold_left (Part000.runStep mean) ys s in
  Part000.prevAboveMean s' <> None /\ (1 <= Part000.currentRun s')%nat.
Proof.
  induction ys as [|v ys IH]; intros s NE H; [congruence|].
  simpl. destruct (Part000_runStep_started mean s v H) as [P C].
  destruct ys as [|v' ys']; [simpl; auto|].
  apply IH; [discriminate | auto].
Qed.

Lemma Part000_maxRunLength_pos ys r :
  Part000.analyzeRuns ys = Some r -> (1 <= Part000.maxRunLength r)%nat.
Proof.
  unfold Part000.analyzeRuns. destruct ys as [|y ys]; [discriminate|].
  destruct (Part000.calculateMean (y :: ys)) as [mean|]; [|discriminate].
  intros [= <-]. cbn [Part000.maxRunLength].
  destruct (Part000_runs_started mean (y :: ys)
              {| Part000.s_runsAbove := 0; Part000.s_runsBelow := 0;
                 Part000.s_maxRunLength := 0; Part000.currentRun := 0;
                 Part000.prevAboveMean := None |}) as [P C];
    [discriminate | simpl; congruence |].
  cbv zeta in P, C. simpl fold_left in P, C.
  set (s := fold_left (Part000.runStep mean) ys _) in *. clearbody s.
  unfold Part000.closeRuns.
  destruct (Part000.prevAboveMean s) as [prev|]; [|congruence].
  cbn [Part000.s_maxRunLength]. lia.
Qed.

(** In the second file the verdict is "Unstable" whenever [analyzeRuns]
    returns a result, that is, whenever some subgroup mean is finite. *)
Lemma Part000_never_stable first ms sampleSize constants :
  let a := Part000.analyse first ms sampleSize constants in
  Part000.analyzeRuns (Part000.a_subgroupMeans a) <> None ->
  processStability (processInterpretation (Part000.report a)) = "Unstable"%string.
Proof.
  cbn [Part000.report processStability processInterpretation Part000.analyse Part000.runs
       Part000.a_subgroupMeans Part000.a_xBarLcl Part000.a_xBarUcl].
  destruct (Part000.analyzeRuns _) as [r|] eqn:E; [|congruence]. intros _.
  pose proof (Part000_maxRunLength_pos _ _ E).
  destruct (Part000.maxRunLength r); [lia|]. simpl. rewrite andb_false_r. reflexivity.
Qed.

(** C7 (code defect in the second file).  The claim: [processStability] is
    "Stable" if and only if no X-bar point lies outside the limits and no
    run of eight points was detected.  On the measurements 1, 2, 3 with
    sample size 1 the second file reports no point outside the limits and no
    run of eight, and still answers "Unstable": it tests [!runs.maxRunLength],
    which is false as soon as the series is not empty.  [spcUtils.ts] answers
    "Stable" on the same input. *)
Theorem processStability_second_file_unstable :
  (exists r,
      Part000.calculateAnalysisData (inspected ["1"; "2"; "3"]%string) 1 = Returns r /\
      pointsOutsideLimits (ssAnalysis r) = "None"%string /\
      eightConsecutivePoints (ssAnalysis r) = "No"%string /\
      processStability (processInterpretation r) = "Unstable"%string) /\
  (exists r,
      SpcUtils.calculateAnalysisData (inspected ["1"; "2"; "3"]%string) 1 = Returns r /\
      pointsOutsideLimits (ssAnalysis r) = "None"%string /\
      eightConsecutivePoints (ssAnalysis r) = "No"%string /\
      processStability (processInterpretation r) = "Stable"%string).
Proof.
  split; eexists; (split; [vm_compute; reflexivity|]); vm_compute; auto.
Qed.

(** * The capability engine *)

(** In [spcUtils.ts] the two divisors are never zero: a zero estimator is
    replaced by [0.000001]. *)
Lemma SpcUtils_safe_estimators first ms sampleSize constants :
  let a := SpcUtils.analyse first ms sampleSize constants in
  (SpcUtils.safeWithinStdDev a =? 0) = false /\
  (SpcUtils.safeStdDev a =? 0) = false /\
  ((SpcUtils.withinStdDev a =? 0) = true -> SpcUtils.safeWithinStdDev a = 0.000001) /\
  ((SpcUtils.stdDev a =? 0) = true -> SpcUtils.safeStdDev a = 0.000001).
Proof.
  unfold SpcUtils.analyse.
  cbn [SpcUtils.safeWithinStdDev SpcUtils.safeStdDev SpcUtils.withinStdDev SpcUtils.stdDev].
  repeat split.
  - match goal with
    | |- ((if ?c then _ else _) =? 0) = false => destruct c eqn:E; [reflexivity | exact E]
    end.
  - match goal with
    | |- ((if ?c then _ else _) =? 0) = false => destruct c eqn:E; [reflexivity | exact E]
    end.
  - intros E. rewrite E. reflexivity.
  - intros E. rewrite E. reflexivity.
Qed.

(** A quotient by a zero is an infinity or NaN. *)
Lemma div_by_zero_not_finite v w : (w =? 0) = true -> isFinite (v / w) = false.
Proof.
  rewrite eqb_spec, isFinite_spec, div_spec. change (Prim2SF 0) with (S754_zero false).
  unfold SFeqb, SF64div.
  destruct (Prim2SF w) as [[]|[]| |[] ? ?], (Prim2SF v) as [[]|[]| |[] ? ?];
    simpl; congruence.
Qed.

Lemma mul_zero_r k w : isFinite k = true -> (w =? 0) = true -> (k * w =? 0) = true.
Proof.
  rewrite !eqb_spec, isFinite_spec, mul_spec. change (Prim2SF 0) with (S754_zero false).
  unfold SFeqb, SF64mul.
  destruct (Prim2SF w) as [[]|[]| |[] ? ?], (Prim2SF k) as [[]|[]| |[] ? ?];
    simpl; congruence.
Qed.

Lemma min2_not_finite a b :
  isFinite a = false -> isFinite b = false -> isFinite (min2 a b) = false.
Proof.
  intros Fa Fb. unfold min2.
  destruct (isNaN a || isNaN b); [reflexivity|].
  destruct (a <? b); auto. destruct (b <? a); auto. destruct (get_sign a); auto.
Qed.

Lemma quotient_by_zero_estimator k v w :
  isFinite k = true -> (w =? 0) = true -> isFinite (v / (k * w)) = false.
Proof. intros Fk Z. apply div_by_zero_not_finite, mul_zero_r; auto. Qed.

(** In the second file a zero estimator makes the four indices computed
    from it infinite or NaN, on every input. *)
Lemma Part000_zero_estimators first ms sampleSize constants :
  let a := Part000.analyse first ms sampleSize constants in
  ((Part000.withinStdDev a =? 0) = true ->
   existsb isFinite [Part000.a_cp a; Part000.a_cpu a; Part000.a_cpl a; Part000.a_cpk a]
   = false) /\
  ((Part000.stdDev a =? 0) = true ->
   existsb isFinite [Part000.a_pp a; Part000.a_ppu a; Part000.a_ppl a; Part000.a_ppk a]
   = false).
Proof.
  cbn [Part000.analyse Part000.withinStdDev Part000.stdDev
       Part000.a_cp Part000.a_cpu Part000.a_cpl Part000.a_cpk
       Part000.a_pp Part000.a_ppu Part000.a_ppl Part000.a_ppk].
  split; intros Z; cbn [existsb];
    repeat (rewrite min2_not_finite || rewrite quotient_by_zero_estimator);
    auto using quotient_by_zero_estimator.
Qed.

(** C1 (code defect in the second file).  The claim: a standard deviation
    estimator that is exactly zero is replaced by 1e-6 before the division,
    so that on identical measurements the eight indices are large finite
    numbers.  On three measurements 10 with the limits 5 and 15 and sample
    size 1 both estimators are zero; the second file divides by them and
    returns [Infinity] for all eight indices, while [spcUtils.ts], which has
    the guard, returns 1666666.67. *)
Theorem capability_second_file_divides_by_zero :
  (exists r,
      Part000.calculateAnalysisData (inspected ["10"; "10"; "10"]%string) 1 = Returns r /\
      stdDevWithin (metrics r) = 0 /\ stdDevOverall (metrics r) = 0 /\
      map (fun index => index (metrics r)) [cp; cpu; cpl; cpk; pp; ppu; ppl; ppk]
      = repeat infinity 8) /\
  (exists r,
      SpcUtils.calculateAnalysisData (inspected ["10"; "10"; "10"]%string) 1 = Returns r /\
      stdDevWithin (metrics r) = 0 /\ stdDevOverall (metrics r) = 0 /\
      map (fun index => index (metrics r)) [cp; cpu; cpl; cpk; pp; ppu; ppl; ppk]
      = repeat 1666666.67 8).
Proof.
  split; eexists; (split; [vm_compute; reflexivity|]); vm_compute; auto.
Qed.

(** * The validator *)

Lemma firstRetained_filter keep ds :
  firstRetained keep ds = hd_error (filter keep ds).
Proof.
  induction ds as [|d ds IH]; simpl; auto. destruct (keep d); simpl; auto.
Qed.

(** The second file retains exactly the records whose three fields parse to
    finite numbers, in their order, and reads the limits from the first of
    them. *)
Lemma Part000_validator ds sampleSize a :
  Part000.analysis ds sampleSize = Returns a ->
  Part000.measurements a
  = map (fun d => parseFloat (ActualSpecification d)) (filter allFinite ds) /\
  exists first,
    firstRetained allFinite ds = Some first /\
    Part000.a_lsl a = parseFloat (FromSpecification first) /\
    Part000.a_usl a = parseFloat (ToSpecification first).
Proof.
  unfold Part000.analysis. destruct (controlChartConstants sampleSize); [|discriminate].
  destruct (_ <? _)%Z; [discriminate|].
  rewrite firstRetained_filter. change (Part000.validData ds) with (filter allFinite ds).
  destruct (filter allFinite ds) as [|first rest] eqn:E; [discriminate|].
  intros [= <-]. split; [reflexivity|]. exists first. simpl. auto.
Qed.

Lemma Part000_retained d ds :
  In d (Part000.validData ds) <->
  In d ds /\
  isFinite (parseFloat (ActualSpecification d)) = true /\
  isFinite (parseFloat (FromSpecification d)) = true /\
  isFinite (parseFloat (ToSpecification d)) = true.
Proof.
  unfold Part000.validData. rewrite filter_In, !andb_true_iff. tauto.
Qed.

(** C2 (code defect in [spcUtils.ts]).  The claim: a record is retained only
    if its three fields parse to finite numbers, and the limits are those of
    the first retained record.  On [mixedRecords] with sample size 1,
    [spcUtils.ts] keeps the measurement 5 of the record whose lower limit
    does not parse, and reads the limits 1 and 9 from the first record of
    the input, which it has not retained; the second file keeps the
    measurement 6 only and reads the limits 2 and 8. *)
Theorem validator_spcUtils_first_record :
  (exists a,
      SpcUtils.analysis mixedRecords 1 = Returns a /\
      SpcUtils.measurements a = [5; 6] /\
      SpcUtils.a_lsl a = 1 /\ SpcUtils.a_usl a = 9) /\
  (exists a,
      Part000.analysis mixedRecords 1 = Returns a /\
      Part000.measurements a = [6] /\
      Part000.a_lsl a = 2 /\ Part000.a_usl a = 8) /\
  map allFinite mixedRecords = [false; false; true].
Proof.
  repeat split; try (eexists; (split; [vm_compute; reflexivity|]); vm_compute; auto).
Qed.

(** * The two errors *)

Lemma constants_defined sampleSize :
  controlChartConstants sampleSize = None <-> ~ (1 <= sampleSize <= 5)%Z.
Proof.
  split.
  - intros E H.
    assert (C : sampleSize = 1%Z \/ sampleSize = 2%Z \/ sampleSize = 3%Z \/
                sampleSize = 4%Z \/ sampleSize = 5%Z) by lia.
    destruct C as [-> | [-> | [-> | [-> | ->]]]]; discriminate.
  - intros H. destruct sampleSize as [|p|p]; try reflexivity.
    destruct p as [[[|[]|]|[|[]|]|]|[[|[]|]|[|[]|]|]|]; try reflexivity; exfalso; lia.
Qed.

(** What [spcUtils.ts] does at its two checks. *)
Lemma SpcUtils_outcome ds sampleSize :
  match SpcUtils.calculateAnalysisData ds sampleSize with
  | Throws message =>
      (message = "Sample size must be between 1 and 5"%string /\
       controlChartConstants sampleSize = None) \/
      (message = "Insufficient valid data for analysis"%string /\
       controlChartConstants sampleSize <> None /\
       (Z.of_nat (List.length (SpcUtils.validMeasurements ds)) < sampleSize)%Z)
  | Returns _ =>
      controlChartConstants sampleSize <> None /\
      (sampleSize <= Z.of_nat (List.length (SpcUtils.validMeasurements ds)))%Z
  end.
Proof.
  unfold SpcUtils.calculateAnalysisData, SpcUtils.analysis.
  destruct (controlChartConstants sampleSize) as [c|] eqn:C; [|left; auto].
  assert (1 <= sampleSize)%Z.
  { destruct (Z_le_gt_dec 1 sampleSize); auto.
    assert (N : controlChartConstants sampleSize = None) by (apply constants_defined; lia).
    congruence. }
  destruct (Z.ltb_spec (Z.of_nat (List.length (SpcUtils.validMeasurements ds))) sampleSize)
    as [L|L].
  - right. repeat split; auto; discriminate.
  - destruct ds as [|first rest]; [simpl in L; lia|].
    split; [discriminate | exact L].
Qed.

(** What the second file does at its two checks. *)
Lemma Part000_outcome ds sampleSize :
  match Part000.calculateAnalysisData ds sampleSize with
  | Throws message =>
      (message = "Invalid sample size"%string /\
       controlChartConstants sampleSize = None) \/
      (message = "Insufficient data"%string /\
       controlChartConstants sampleSize <> None /\
       (Z.of_nat (List.length (Part000.validData ds)) < sampleSize)%Z)
  | Returns _ =>
      controlChartConstants sampleSize <> None /\
      (sampleSize <= Z.of_nat (List.length (Part000.validData ds)))%Z
  end.
Proof.
  unfold Part000.calculateAnalysisData, Part000.analysis.
  destruct (controlChartConstants sampleSize) as [c|] eqn:C; [|left; auto].
  assert (1 <= sampleSize)%Z.
  { destruct (Z_le_gt_dec 1 sampleSize); auto.
    assert (N : controlChartConstants sampleSize = None) by (apply constants_defined; lia).
    congruence. }
  rewrite length_map.
  destruct (Z.ltb_spec (Z.of_nat (List.length (Part000.validData ds))) sampleSize)
    as [L|L].
  - right. repeat split; auto; discriminate.
  - destruct (Part000.validData ds) as [|first rest]; [simpl in L; lia|].
    split; [discriminate | exact L].
Qed.

(** The measurements [spcUtils.ts] keeps are those of the records it tests
    as [measured]; every valid record is among them. *)
Lemma SpcUtils_validMeasurements_length ds :
  List.length (SpcUtils.validMeasurements ds) = List.length (filter measured ds).
Proof.
  unfold SpcUtils.validMeasurements, measured.
  induction ds as [|d ds IH]; simpl; auto.
  destruct (isNaN (parseFloat (ActualSpecification d))); simpl; auto.
Qed.

Lemma allFinite_measured d : allFinite d = true -> measured d = true.
Proof.
  unfold allFinite, measured. intros H.
  apply andb_prop in H as [H _]. apply andb_prop in H as [H _].
  rewrite (isFinite_not_NaN _ H). reflexivity.
Qed.

Lemma valid_le_measured ds :
  (List.length (filter allFinite ds) <= List.length (filter measured ds))%nat.
Proof.
  induction ds as [|d ds IH]; simpl; auto.
  destruct (allFinite d) eqn:A.
  - rewrite (allFinite_measured d A). simpl. lia.
  - destruct (measured d); simpl; lia.
Qed.

Lemma valid_eq_measured ds :
  forallb (fun d => implb (measured d) (allFinite d)) ds = true ->
  List.length (filter measured ds) = List.length (filter allFinite ds).
Proof.
  induction ds as [|d ds IH]; simpl; auto. intros H. apply andb_prop in H as [H1 H2].
  destruct (measured d) eqn:M; simpl in H1.
  - rewrite H1. simpl. auto.
  - destruct (allFinite d) eqn:A; auto. rewrite (allFinite_measured d A) in M. discriminate.
Qed.

(** C3 (amended).  A measurement is valid when the three fields of its
    record parse to finite numbers.  In both files the call throws the
    invalid-sample-size error exactly when the sample size is outside 1..5.
    In the second file it throws the insufficient-data error exactly when
    the sample size is within 1..5 and there are fewer valid measurements
    than the sample size, and returns a result exactly when the sample size
    is within 1..5 and there are at least that many valid measurements.  In
    [spcUtils.ts] the insufficient-data error is thrown only when the sample
    size is within 1..5 and there are fewer valid measurements than the
    sample size, a result is returned whenever the sample size is within
    1..5 and there are at least that many valid measurements, and only for a
    sample size within 1..5; the three outcomes are as exact as in the
    second file on every input in which each record with a measurement is
    valid.  A call that throws returns no result. *)
Theorem errors_of_the_two_checks ds sampleSize :
  let valid := Z.of_nat (List.length (filter allFinite ds)) in
  let inTable := (1 <= sampleSize <= 5)%Z in
  (Part000.calculateAnalysisData ds sampleSize = Throws "Invalid sample size"
   <-> ~ inTable) /\
  (Part000.calculateAnalysisData ds sampleSize = Throws "Insufficient data"
   <-> inTable /\ (valid < sampleSize)%Z) /\
  ((exists r, Part000.calculateAnalysisData ds sampleSize = Returns r)
   <-> inTable /\ (sampleSize <= valid)%Z) /\
  (SpcUtils.calculateAnalysisData ds sampleSize
   = Throws "Sample size must be between 1 and 5" <-> ~ inTable) /\
  (SpcUtils.calculateAnalysisData ds sampleSize
   = Throws "Insufficient valid data for analysis" ->
   inTable /\ (valid < sampleSize)%Z) /\
  (inTable /\ (sampleSize <= valid)%Z ->
   exists r, SpcUtils.calculateAnalysisData ds sampleSize = Returns r) /\
  ((exists r, SpcUtils.calculateAnalysisData ds sampleSize = Returns r) -> inTable) /\
  (forallb (fun d => implb (measured d) (allFinite d)) ds = true ->
   (SpcUtils.calculateAnalysisData ds sampleSize
    = Throws "Insufficient valid data for analysis" <->
    inTable /\ (valid < sampleSize)%Z) /\
   ((exists r, SpcUtils.calculateAnalysisData ds sampleSize = Returns r) <->
    inTable /\ (sampleSize <= valid)%Z)).
Proof.
  intros valid inTable.
  pose proof (SpcUtils_outcome ds sampleSize) as A.
  pose proof (Part000_outcome ds sampleSize) as B.
  pose proof (constants_defined sampleSize) as C.
  assert (D : controlChartConstants sampleSize <> None <-> inTable).
  { unfold inTable. split.
    - intros H. destruct (Z_le_gt_dec 1 sampleSize), (Z_le_gt_dec sampleSize 5);
        try lia; exfalso; apply H; apply C; lia.
    - intros H E. apply C in E. lia. }
  rewrite SpcUtils_validMeasurements_length in A.
  change (Part000.validData ds) with (filter allFinite ds) in B. fold valid in B.
  pose proof (valid_le_measured ds) as L.
  pose proof (valid_eq_measured ds) as E.
  set (m := List.length (filter measured ds)) in *.
  assert (L' : (valid <= Z.of_nat m)%Z) by (unfold valid; lia).
  assert (E' : forallb (fun d => implb (measured d) (allFinite d)) ds = true ->
               Z.of_nat m = valid) by (intros H; unfold valid; rewrite <- (E H); reflexivity).
  clearbody m valid. clear L E. fold inTable in C.
  destruct (SpcUtils.calculateAnalysisData ds sampleSize) as [ra|ma];
    destruct (Part000.calculateAnalysisData ds sampleSize) as [rb|mb];
    repeat match goal with
      | |- _ /\ _ => split
      | |- _ <-> _ => split
      | |- _ -> _ => intros ?
      end;
    repeat match goal with
      | H : _ /\ _ |- _ => destruct H
      | H : _ \/ _ |- _ => destruct H
      | H : exists _, _ |- _ => destruct H
      | H : forallb _ _ = true |- _ => apply E' in H
      end;
    subst; try discriminate; try tauto; try lia; eauto;
    try (exfalso; tauto); try (exfalso; lia).
Qed.

(** The statement above at three valid records with sample size 5. *)
Lemma errors_of_the_two_checks_witness :
  forallb (fun d => implb (measured d) (allFinite d)) (inspected ["1"; "2"; "3"]%string) = true /\
  SpcUtils.calculateAnalysisData (inspected ["1"; "2"; "3"]%string) 5
  = Throws "Insufficient valid data for analysis" /\
  Part000.calculateAnalysisData (inspected ["1"; "2"; "3"]%string) 5
  = Throws "Insufficient data".
Proof.
  assert (H : forallb (fun d => implb (measured d) (allFinite d))
                (inspected ["1"; "2"; "3"]%string) = true) by (vm_compute; reflexivity).
  pose proof (errors_of_the_two_checks (inspected ["1"; "2"; "3"]%string) 5)
    as (_ & B & _ & _ & _ & _ & _ & A).
  split; [exact H|]. split.
  - apply (proj1 (A H)). split; [lia | vm_compute; reflexivity].
  - apply B. split; [lia | vm_compute; reflexivity].
Defined.

(** C3, as stated, fails: with three valid measurements and sample size 6
    there are fewer valid measurements than the sample size, and the error
    is the invalid-sample-size one, in both files. *)
Lemma insufficient_data_counterexample :
  (Z.of_nat (List.length (SpcUtils.validMeasurements (inspected ["1"; "2"; "3"]%string))) < 6)%Z /\
  SpcUtils.calculateAnalysisData (inspected ["1"; "2"; "3"]%string) 6
  <> Throws "Insufficient valid data for analysis" /\
  (Z.of_nat (List.length (Part000.validData (inspected ["1"; "2"; "3"]%string))) < 6)%Z /\
  Part000.calculateAnalysisData (inspected ["1"; "2"; "3"]%string) 6
  <> Throws "Insufficient data".
Proof.
  repeat split; try (vm_compute; reflexivity); vm_compute; discriminate.
Qed.

(** * The overall standard deviation *)

Lemma filter_all {A} (f : A -> bool) xs : forallb f xs = true -> filter f xs = xs.
Proof.
  induction xs as [|v xs IH]; simpl; auto. intros H. apply andb_prop in H as [-> H].
  f_equal. auto.
Qed.

Lemma filter_twice {A} (f : A -> bool) xs : filter f (filter f xs) = filter f xs.
Proof.
  apply filter_all. apply forallb_forall. intros v H. apply filter_In in H. tauto.
Qed.

Lemma SpcUtils_calculateMean_some data :
  data <> [] -> SpcUtils.calculateMean data = Some (sum data / ofNat (List.length data)).
Proof. destruct data; [congruence | reflexivity]. Qed.

(** [calculateStdDev] of [spcUtils.ts] without a centre. *)
Lemma SpcUtils_calculateStdDev_flat ms :
  ms <> [] ->
  SpcUtils.calculateStdDev ms None
  = Some (populationStdDev ms (sum ms / ofNat (List.length ms))).
Proof.
  intros NE. unfold SpcUtils.calculateStdDev, populationStdDev.
  rewrite (SpcUtils_calculateMean_some ms NE).
  destruct ms as [|v ms]; [congruence|]. cbv beta iota.
  rewrite SpcUtils_calculateMean_some by discriminate.
  rewrite length_map. reflexivity.
Qed.

(** [calculateStdDev] of the second file with a centre. *)
Lemma Part000_calculateStdDev_centre ms centre :
  ms <> [] ->
  Part000.calculateStdDev ms (Some centre)
  = match filter isFinite (map (fun v => (v - centre) * (v - centre)) ms) with
    | [] => None
    | kept => Some (sqrt (sum kept / ofNat (List.length kept)))
    end.
Proof.
  destruct ms as [|v ms]; [congruence|]. intros _. unfold Part000.calculateStdDev.
  set (data := v :: ms) in *. unfold Part000.calculateMean.
  rewrite filter_twice. destruct (filter isFinite _) as [|k kept]; reflexivity.
Qed.

(** In [spcUtils.ts], on every input, the deviations are taken from the flat
    mean of the raw series: [calculateStdDev] is called without a centre. *)
Lemma SpcUtils_overallStdDev_flat ds sampleSize a :
  SpcUtils.analysis ds sampleSize = Returns a ->
  SpcUtils.stdDev a
  = populationStdDev (SpcUtils.measurements a)
      (sum (SpcUtils.measurements a) / ofNat (List.length (SpcUtils.measurements a))).
Proof.
  unfold SpcUtils.analysis. destruct (controlChartConstants sampleSize) eqn:C; [|discriminate].
  destruct (Z.ltb_spec (Z.of_nat (List.length (SpcUtils.validMeasurements ds))) sampleSize);
    [discriminate|].
  destruct ds as [|first rest]; [discriminate|]. intros [= <-].
  cbn [SpcUtils.stdDev SpcUtils.measurements SpcUtils.analyse].
  rewrite SpcUtils_calculateStdDev_flat; [reflexivity|].
  intros E. rewrite E in H. simpl in H.
  assert (N : controlChartConstants sampleSize = None) by (apply constants_defined; lia).
  congruence.
Qed.

(** In the second file the deviations are taken from the grand mean of the
    subgroup means; the squared deviations that are not finite are left out
    before averaging, and when all are finite the result is the population
    standard deviation of the raw series around the grand mean. *)
Lemma Part000_overallStdDev_grand ds sampleSize a :
  Part000.analysis ds sampleSize = Returns a ->
  let squared :=
    map (fun v => (v - Part000.grandMean a) * (v - Part000.grandMean a))
        (Part000.measurements a) in
  Part000.grandMean a
  = match Part000.calculateMean (Part000.a_subgroupMeans a) with
    | Some m => m | None => 0 end /\
  Part000.stdDev a
  = match filter isFinite squared with
    | [] => 0
    | kept => sqrt (sum kept / ofNat (List.length kept))
    end /\
  (forallb isFinite squared = true ->
   Part000.stdDev a
   = populationStdDev (Part000.measurements a) (Part000.grandMean a)).
Proof.
  unfold Part000.analysis. destruct (controlChartConstants sampleSize) eqn:C; [|discriminate].
  destruct (Z.ltb_spec
              (Z.of_nat (List.length
                 (map (fun d => parseFloat (ActualSpecification d)) (Part000.validData ds))))
              sampleSize); [discriminate|].
  destruct (Part000.validData ds) as [|first rest] eqn:V; [discriminate|].
  set (ms := map _ (first :: rest)) in *.
  assert (NE : ms <> []) by discriminate. clearbody ms.
  intros [= <-].
  cbn [Part000.stdDev Part000.measurements Part000.grandMean Part000.a_subgroupMeans
       Part000.analyse].
  set (gm := match Part000.calculateMean _ with Some m => m | None => 0 end).
  rewrite (Part000_calculateStdDev_centre ms gm NE).
  split; [reflexivity|]. split.
  - destruct (filter isFinite _); reflexivity.
  - intros F. rewrite (filter_all _ _ F). unfold populationStdDev.
    replace (List.length ms)
      with (List.length (map (fun v => (v - gm) * (v - gm)) ms)) by apply length_map.
    match goal with
    | |- context [match ?m with [] => None | _ => _ end] => destruct m eqn:E
    end; [|reflexivity].
    destruct ms; [congruence | discriminate].
Qed.

(** C4 (code defect in [spcUtils.ts]).  The claim: the overall standard
    deviation is the population standard deviation of the raw series around
    the grand mean of the subgroup means, not around the flat mean of the
    raw series.  On the measurements 1 to 7 with sample size 5 the subgroup
    means are 3 and 6.5 and the grand mean is 4.75, while the flat mean is
    4: [spcUtils.ts], which calls [calculateStdDev] without a centre,
    returns 2, the deviation around 4; the second file, which passes the
    grand mean, returns the deviation around 4.75, between 2.136 and
    2.137. *)
Theorem overallStdDev_spcUtils_flat_mean :
  (exists a,
      SpcUtils.analysis (inspected ["1"; "2"; "3"; "4"; "5"; "6"; "7"]%string) 5 = Returns a /\
      SpcUtils.xBarValues a = [3; 6.5] /\
      SpcUtils.grandMean a = 4.75 /\
      SpcUtils.stdDev a = 2 /\
      SpcUtils.stdDev a = populationStdDev (SpcUtils.measurements a) 4 /\
      (SpcUtils.stdDev a
       =? populationStdDev (SpcUtils.measurements a) (SpcUtils.grandMean a)) = false /\
      stdDevOverall (metrics (SpcUtils.report a)) = 2) /\
  (exists b,
      Part000.analysis (inspected ["1"; "2"; "3"; "4"; "5"; "6"; "7"]%string) 5 = Returns b /\
      Part000.grandMean b = 4.75 /\
      Part000.stdDev b = populationStdDev (Part000.measurements b) (Part000.grandMean b) /\
      (2.136 <? Part000.stdDev b) = true /\ (Part000.stdDev b <? 2.137) = true /\
      stdDevOverall (metrics (Part000.report b)) = Part000.stdDev b).
Proof.
  split; eexists; (split; [vm_compute; reflexivity|]); vm_compute; repeat split.
Qed.

(** In the second file the divisor is not always the number of
    measurements: on 1e200 and 0 with sample size 2 both squared deviations
    from the grand mean 5e199 overflow and are left out, and the result is
    0. *)
Lemma Part000_overallStdDev_overflow :
  exists a,
    Part000.analysis (inspected ["1e200"; "0"]%string) 2 = Returns a /\
    Part000.grandMean a = 5e199 /\
    Part000.stdDev a = 0 /\
    populationStdDev (Part000.measurements a) (Part000.grandMean a) = infinity.
Proof.
  eexists. (split; [vm_compute; reflexivity|]); vm_compute; auto.
Qed.

(** * Streaks and trends in a series *)

Section Streaks.
Variable P : number -> bool.

Lemma leading_le_longest ys : (leading P ys <= longestStreak P ys)%nat.
Proof. destruct ys; simpl; lia. Qed.

Lemma leading_prefix k : forall ys,
  (k <= leading P ys)%nat ->
  exists run after, ys = run ++ after /\ List.length run = k /\ forallb P run = true.
Proof.
  induction k as [|k IH]; intros ys H.
  - exists [], ys. auto.
  - destruct ys as [|v ys]; simpl in H; [lia|].
    destruct (P v) eqn:E; [|lia].
    destruct (IH ys ltac:(lia)) as (run & after & -> & L & F).
    exists (v :: run), after. simpl. rewrite E, F, L. auto.
Qed.

Lemma prefix_leading run : forall after,
  forallb P run = true -> (List.length run <= leading P (run ++ after))%nat.
Proof.
  induction run as [|v run IH]; simpl; intros after F; [lia|].
  apply andb_prop in F as [-> F]. specialize (IH after F). lia.
Qed.

Lemma longestStreak_Streak k ys : (k <= longestStreak P ys)%nat <-> Streak P k ys.
Proof.
  split.
  - induction ys as [|v ys IH]; intros H.
    + simpl in H. exists [], [], []. repeat split; simpl; auto; lia.
    + change (longestStreak P (v :: ys))
        with (Nat.max (leading P (v :: ys)) (longestStreak P ys)) in H.
      destruct (Nat.max_spec (leading P (v :: ys)) (longestStreak P ys)) as [[_ E]|[_ E]];
        rewrite E in H.
      * destruct (IH H) as (before & run & after & -> & L & F).
        exists (v :: before), run, after. auto.
      * destruct (leading_prefix k _ H) as (run & after & E' & L & F).
        exists [], run, after. auto.
  - intros (before & run & after & -> & <- & F).
    induction before as [|b before IH].
    + simpl. etransitivity; [apply prefix_leading, F | apply leading_le_longest].
    + change (longestStreak P ((b :: before) ++ run ++ after))
        with (Nat.max (leading P ((b :: before) ++ run ++ after))
                      (longestStreak P (before ++ run ++ after))).
      lia.
Qed.
End Streaks.

Section Trends.
Variable R : number -> number -> bool.

Lemma leadingChain_le_longest ys : (leadingChain R ys <= longestChain R ys)%nat.
Proof. destruct ys; simpl; [lia|]. destruct ys; try destruct (R _ _); lia. Qed.

Lemma leadingChain_pos v ys : (1 <= leadingChain R (v :: ys))%nat.
Proof. simpl. destruct ys; [lia|]. destruct (R v n); lia. Qed.

Lemma chain_prefix k : forall ys,
  (k <= leadingChain R ys)%nat ->
  exists run after, ys = run ++ after /\ List.length run = k /\ chained R run = true.
Proof.
  induction k as [|k IH]; intros ys H.
  - exists [], ys. auto.
  - destruct ys as [|a ys]; [simpl in H; lia|].
    destruct ys as [|b ys].
    + simpl in H. assert (k = 0)%nat by lia. subst. exists [a], []. auto.
    + change (leadingChain R (a :: b :: ys))
        with (if R a b then S (leadingChain R (b :: ys)) else 1%nat) in H.
      destruct (R a b) eqn:E.
      * destruct (IH (b :: ys) ltac:(lia)) as (run & after & E' & L & F).
        exists (a :: run), after. rewrite E'. simpl. rewrite L. repeat split.
        destruct run as [|r run]; auto. injection E' as <- _. rewrite E. exact F.
      * assert (k = 0)%nat by lia. subst. exists [a], (b :: ys). auto.
Qed.

Lemma prefix_chain run : forall after,
  chained R run = true -> (List.length run <= leadingChain R (run ++ after))%nat.
Proof.
  induction run as [|a run IH]; intros after F; [simpl; lia|].
  destruct run as [|b run].
  - pose proof (leadingChain_pos a after). simpl in *. lia.
  - change (chained R (a :: b :: run)) with (R a b && chained R (b :: run)) in F.
    apply andb_prop in F as [E F]. specialize (IH after F).
    change (leadingChain R ((a :: b :: run) ++ after))
      with (if R a b then S (leadingChain R ((b :: run) ++ after)) else 1%nat).
    rewrite E. simpl List.length in *. lia.
Qed.

Lemma longestChain_Trend k ys : (k <= longestChain R ys)%nat <-> Trend R k ys.
Proof.
  split.
  - induction ys as [|v ys IH]; intros H.
    + simpl in H. exists [], [], []. repeat split; simpl; auto; lia.
    + change (longestChain R (v :: ys))
        with (Nat.max (leadingChain R (v :: ys)) (longestChain R ys)) in H.
      destruct (Nat.max_spec (leadingChain R (v :: ys)) (longestChain R ys)) as [[_ E]|[_ E]];
        rewrite E in H.
      * destruct (IH H) as (before & run & after & -> & L & F).
        exists (v :: before), run, after. auto.
      * destruct (chain_prefix k _ H) as (run & after & E' & L & F).
        exists [], run, after. auto.
  - intros (before & run & after & -> & <- & F).
    induction before as [|b before IH].
    + simpl. etransitivity; [apply prefix_chain, F | apply leadingChain_le_longest].
    + change (longestChain R ((b :: before) ++ run ++ after))
        with (Nat.max (leadingChain R ((b :: before) ++ run ++ after))
                      (longestChain R (before ++ run ++ after))).
      lia.
Qed.
End Trends.

(** * The runs loop of [spcUtils.ts] and the trend loop of the second file *)

Lemma SpcUtils_runStep_above gm c prev cur :
  SpcUtils.consecutiveAboveMean (SpcUtils.runStep gm c prev cur)
  = (if above gm cur then S (SpcUtils.consecutiveAboveMean c) else 0%nat) /\
  SpcUtils.maxConsecutiveAbove (SpcUtils.runStep gm c prev cur)
  = (if above gm cur
     then Nat.max (SpcUtils.maxConsecutiveAbove c) (S (SpcUtils.consecutiveAboveMean c))
     else SpcUtils.maxConsecutiveAbove c).
Proof.
  unfold SpcUtils.runStep, above.
  destruct (gt cur gm), (cur <? gm), prev as [p|]; try destruct (gt cur p);
    try destruct (cur <? p); split; reflexivity.
Qed.

Lemma SpcUtils_runStep_below gm c prev cur :
  SpcUtils.consecutiveBelowMean (SpcUtils.runStep gm c prev cur)
  = (if below gm cur then S (SpcUtils.consecutiveBelowMean c) else 0%nat) /\
  SpcUtils.maxConsecutiveBelow (SpcUtils.runStep gm c prev cur)
  = (if below gm cur
     then Nat.max (SpcUtils.maxConsecutiveBelow c) (S (SpcUtils.consecutiveBelowMean c))
     else SpcUtils.maxConsecutiveBelow c).
Proof.
  unfold SpcUtils.runStep, below, gt.
  destruct (cur <? gm) eqn:B.
  - rewrite (ltb_asym _ _ B).
    destruct prev as [p|]; try destruct (p <? cur); try destruct (cur <? p); split; reflexivity.
  - destruct (gm <? cur), prev as [p|]; try destruct (p <? cur); try destruct (cur <? p);
      split; reflexivity.
Qed.

Lemma SpcUtils_runLoop_above gm ys : forall c prev,
  (SpcUtils.consecutiveAboveMean c <= SpcUtils.maxConsecutiveAbove c)%nat ->
  SpcUtils.maxConsecutiveAbove (SpcUtils.runLoop gm c prev ys)
  = Nat.max (SpcUtils.maxConsecutiveAbove c)
      (Nat.max (SpcUtils.consecutiveAboveMean c + leading (above gm) ys)
               (longestStreak (above gm) ys)).
Proof.
  induction ys as [|v ys IH]; intros c prev H.
  - simpl. lia.
  - change (SpcUtils.runLoop gm c prev (v :: ys))
      with (SpcUtils.runLoop gm (SpcUtils.runStep gm c prev v) (Some v) ys).
    destruct (SpcUtils_runStep_above gm c prev v) as [E1 E2].
    rewrite IH; rewrite E1, E2.
    + pose proof (leading_le_longest (above gm) ys).
      change (longestStreak (above gm) (v :: ys))
        with (Nat.max (leading (above gm) (v :: ys)) (longestStreak (above gm) ys)).
      simpl leading. destruct (above gm v); lia.
    + destruct (above gm v); lia.
Qed.

Lemma SpcUtils_runLoop_below gm ys : forall c prev,
  (SpcUtils.consecutiveBelowMean c <= SpcUtils.maxConsecutiveBelow c)%nat ->
  SpcUtils.maxConsecutiveBelow (SpcUtils.runLoop gm c prev ys)
  = Nat.max (SpcUtils.maxConsecutiveBelow c)
      (Nat.max (SpcUtils.consecutiveBelowMean c + leading (below gm) ys)
               (longestStreak (below gm) ys)).
Proof.
  induction ys as [|v ys IH]; intros c prev H.
  - simpl. lia.
  - change (SpcUtils.runLoop gm c prev (v :: ys))
      with (SpcUtils.runLoop gm (SpcUtils.runStep gm c prev v) (Some v) ys).
    destruct (SpcUtils_runStep_below gm c prev v) as [E1 E2].
    rewrite IH; rewrite E1, E2.
    + pose proof (leading_le_longest (below gm) ys).
      change (longestStreak (below gm) (v :: ys))
        with (Nat.max (leading (below gm) (v :: ys)) (longestStreak (below gm) ys)).
      simpl leading. destruct (below gm v); lia.
    + destruct (below gm v); lia.
Qed.

(** The runs loop of [spcUtils.ts] finds a run of eight exactly when eight
    consecutive points are all strictly above, or all strictly below, the
    centre line; a point on the line satisfies neither test and ends the
    streak. *)
Lemma SpcUtils_eight_consecutive gm ys :
  SpcUtils.hasEightConsecutive (SpcUtils.runLoop gm SpcUtils.initialCounters None ys) = true
  <-> Streak (above gm) 8 ys \/ Streak (below gm) 8 ys.
Proof.
  unfold SpcUtils.hasEightConsecutive.
  rewrite SpcUtils_runLoop_above, SpcUtils_runLoop_below by (simpl; lia).
  rewrite orb_true_iff, !Nat.leb_le. simpl.
  rewrite <- !longestStreak_Streak.
  pose proof (leading_le_longest (above gm) ys).
  pose proof (leading_le_longest (below gm) ys). lia.
Qed.

(** The trend loop of the second file. *)
Lemma Part000_trendStep_up t prev cur :
  Part000.trendUp (Part000.trendStep t prev cur)
  = (if rising prev cur then S (Part000.trendUp t) else 1%nat) /\
  Part000.t_maxTrendUp (Part000.trendStep t prev cur)
  = Nat.max (Part000.t_maxTrendUp t)
      (if rising prev cur then S (Part000.trendUp t) else 1%nat).
Proof.
  unfold Part000.trendStep, rising.
  destruct (gt cur prev), (cur <? prev); split; reflexivity.
Qed.

Lemma Part000_trendStep_down t prev cur :
  Part000.trendDown (Part000.trendStep t prev cur)
  = (if falling prev cur then S (Part000.trendDown t) else 1%nat) /\
  Part000.t_maxTrendDown (Part000.trendStep t prev cur)
  = Nat.max (Part000.t_maxTrendDown t)
      (if falling prev cur then S (Part000.trendDown t) else 1%nat).
Proof.
  unfold Part000.trendStep, falling, gt.
  destruct (cur <? prev) eqn:B.
  - rewrite (ltb_asym _ _ B). split; reflexivity.
  - destruct (prev <? cur); split; reflexivity.
Qed.

Lemma Part000_trendLoop_up ys : forall t,
  (1 <= Part000.trendUp t)%nat ->
  Nat.max (Part000.t_maxTrendUp (Part000.trendLoop t ys)) (Part000.trendUp t)
  = Nat.max (Nat.max (Part000.t_maxTrendUp t) (Part000.trendUp t))
      (Nat.max (Part000.trendUp t - 1 + leadingChain rising ys) (longestChain rising ys))
  /\ (Part000.t_maxTrendUp t <= Part000.t_maxTrendUp (Part000.trendLoop t ys))%nat.
Proof.
  induction ys as [|a ys IH]; intros t H.
  - simpl. lia.
  - destruct ys as [|b ys].
    + simpl. lia.
    + change (Part000.trendLoop t (a :: b :: ys))
        with (Part000.trendLoop (Part000.trendStep t a b) (b :: ys)).
      destruct (Part000_trendStep_up t a b) as [E1 E2].
      destruct (IH (Part000.trendStep t a b)) as [I1 I2].
      { rewrite E1. destruct (rising a b); lia. }
      rewrite E1, E2 in I1. rewrite E2 in I2.
      pose proof (leadingChain_le_longest rising (b :: ys)).
      pose proof (leadingChain_pos rising b ys).
      change (longestChain rising (a :: b :: ys))
        with (Nat.max (leadingChain rising (a :: b :: ys)) (longestChain rising (b :: ys))).
      change (leadingChain rising (a :: b :: ys))
        with (if rising a b then S (leadingChain rising (b :: ys)) else 1%nat).
      destruct (rising a b); lia.
Qed.

Lemma Part000_trendLoop_down ys : forall t,
  (1 <= Part000.trendDown t)%nat ->
  Nat.max (Part000.t_maxTrendDown (Part000.trendLoop t ys)) (Part000.trendDown t)
  = Nat.max (Nat.max (Part000.t_maxTrendDown t) (Part000.trendDown t))
      (Nat.max (Part000.trendDown t - 1 + leadingChain falling ys) (longestChain falling ys))
  /\ (Part000.t_maxTrendDown t <= Part000.t_maxTrendDown (Part000.trendLoop t ys))%nat.
Proof.
  induction ys as [|a ys IH]; intros t H.
  - simpl. lia.
  - destruct ys as [|b ys].
    + simpl. lia.
    + change (Part000.trendLoop t (a :: b :: ys))
        with (Part000.trendLoop (Part000.trendStep t a b) (b :: ys)).
      destruct (Part000_trendStep_down t a b) as [E1 E2].
      destruct (IH (Part000.trendStep t a b)) as [I1 I2].
      { rewrite E1. destruct (falling a b); lia. }
      rewrite E1, E2 in I1. rewrite E2 in I2.
      pose proof (leadingChain_le_longest falling (b :: ys)).
      pose proof (leadingChain_pos falling b ys).
      change (longestChain falling (a :: b :: ys))
        with (Nat.max (leadingChain falling (a :: b :: ys)) (longestChain falling (b :: ys))).
      change (leadingChain falling (a :: b :: ys))
        with (if falling a b then S (leadingChain falling (b :: ys)) else 1%nat).
      destruct (falling a b); lia.
Qed.

(** The trend loop of the second file reaches 6 exactly when six consecutive
    points rise strictly, or fall strictly. *)
Lemma Part000_six_trend ys r :
  Part000.analyzeRuns ys = Some r ->
  ((6 <=? Nat.max (Part000.maxTrendUp r) (Part000.maxTrendDown r))%nat = true
   <-> Trend rising 6 ys \/ Trend falling 6 ys).
Proof.
  unfold Part000.analyzeRuns. destruct ys as [|y ys]; [discriminate|].
  destruct (Part000.calculateMean (y :: ys)); [|discriminate].
  intros [= <-]. cbn [Part000.maxTrendUp Part000.maxTrendDown].
  set (t0 := {| Part000.t_maxTrendUp := 0; Part000.t_maxTrendDown := 0;
                Part000.trendUp := 1; Part000.trendDown := 1 |}).
  destruct (Part000_trendLoop_up (y :: ys) t0) as [U _]; [simpl; lia|].
  destruct (Part000_trendLoop_down (y :: ys) t0) as [D _]; [simpl; lia|].
  rewrite Nat.leb_le, <- !longestChain_Trend.
  pose proof (leadingChain_le_longest rising (y :: ys)).
  pose proof (leadingChain_le_longest falling (y :: ys)).
  simpl Part000.trendUp in *. simpl Part000.trendDown in *.
  simpl Part000.t_maxTrendUp in U. simpl Part000.t_maxTrendDown in D.
  lia.
Qed.

(** Among infinities and NaN no three values rise strictly. *)
Lemma no_rise_between_infinities a b c :
  isFinite a = false -> isFinite b = false -> isFinite c = false ->
  (a <? b) = true -> (b <? c) = true -> False.
Proof.
  rewrite !isFinite_spec, !ltb_spec. unfold SFltb.
  destruct (Prim2SF a) as [[]|[]| |[] ? ?], (Prim2SF b) as [[]|[]| |[] ? ?],
    (Prim2SF c) as [[]|[]| |[] ? ?]; simpl; congruence.
Qed.

Lemma Trend_needs_finite R k ys :
  R = rising \/ R = falling ->
  filter isFinite ys = [] -> Trend R k ys -> (k <= 2)%nat.
Proof.
  intros HR F (before & run & after & -> & <- & C).
  assert (N : forall v, In v run -> isFinite v = false).
  { intros v I. destruct (isFinite v) eqn:E; auto.
    assert (In v (filter isFinite (before ++ run ++ after))).
    { apply filter_In. split; auto. apply in_or_app. right. apply in_or_app. auto. }
    rewrite F in H. destruct H. }
  destruct run as [|a [|b [|c run]]]; simpl; try lia.
  exfalso. simpl in C. apply andb_prop in C as [C1 C]. apply andb_prop in C as [C2 _].
  pose proof (N a ltac:(simpl; auto)). pose proof (N b ltac:(simpl; auto)).
  pose proof (N c ltac:(simpl; auto)).
  destruct HR; subst R; unfold rising, falling, gt in *;
    eauto using no_rise_between_infinities.
Qed.

(** In the second file the trend signal is "Yes" exactly when six consecutive
    subgroup means rise strictly or fall strictly, anywhere in the series;
    two equal consecutive means end both runs. *)
Lemma Part000_sixConsecutiveTrend first ms sampleSize constants :
  let a := Part000.analyse first ms sampleSize constants in
  sixConsecutiveTrend (ssAnalysis (Part000.report a)) = "Yes"%string <->
  Trend rising 6 (Part000.a_subgroupMeans a) \/ Trend falling 6 (Part000.a_subgroupMeans a).
Proof.
  cbn [Part000.report sixConsecutiveTrend ssAnalysis Part000.analyse Part000.runs
       Part000.a_subgroupMeans].
  set (ys := Part000.subgroupMeans ms sampleSize).
  destruct (Part000.analyzeRuns ys) as [r|] eqn:E.
  - rewrite <- (Part000_six_trend ys r E).
    destruct (6 <=? _)%nat; split; intros; try reflexivity; discriminate.
  - simpl. split; [discriminate|]. intros T. exfalso.
    unfold Part000.analyzeRuns in E. destruct ys as [|y ys'] eqn:Y.
    + destruct T as [(b & r & a & E' & L & _)|(b & r & a & E' & L & _)];
        apply (f_equal (@List.length _)) in E'; rewrite !length_app, L in E'; simpl in E'; lia.
    + rewrite <- Y in *. clearbody ys.
      assert (F : filter isFinite ys = []).
      { unfold Part000.calculateMean in E. destruct ys; [congruence|].
        destruct (filter isFinite (n :: ys)); [reflexivity | discriminate]. }
      destruct T as [T|T]; apply Trend_needs_finite in T; auto; lia.
Qed.

(** In [spcUtils.ts] the run signal is "Yes" exactly when eight consecutive
    subgroup means are all strictly above, or all strictly below, the grand
    mean. *)
Lemma SpcUtils_eightConsecutivePoints first ms sampleSize constants :
  let a := SpcUtils.analyse first ms sampleSize constants in
  eightConsecutivePoints (ssAnalysis (SpcUtils.report a)) = "Yes"%string <->
  Streak (above (SpcUtils.grandMean a)) 8 (SpcUtils.xBarValues a) \/
  Streak (below (SpcUtils.grandMean a)) 8 (SpcUtils.xBarValues a).
Proof.
  cbn [SpcUtils.report eightConsecutivePoints ssAnalysis SpcUtils.analyse SpcUtils.counters
       SpcUtils.grandMean SpcUtils.xBarValues].
  rewrite <- SpcUtils_eight_consecutive.
  destruct (SpcUtils.hasEightConsecutive _); split; intros; try reflexivity; discriminate.
Qed.

(** C5 (code defect in [spcUtils.ts]).  The claim: the trend signal is "Yes"
    if and only if the longest strictly increasing or strictly decreasing
    run of consecutive subgroup means, anywhere in the series, has length at
    least 6.  On [ramp] with sample size 1 the first seven means rise
    strictly; [spcUtils.ts] tests the counters as the loop leaves them, which
    the last, equal, point has reset, and answers "No".  The second file
    keeps the maximum, 7, and answers "Yes". *)
Theorem trend_spcUtils_last_counters_only :
  (exists a,
      SpcUtils.analysis ramp 1 = Returns a /\
      SpcUtils.xBarValues a = [1; 2; 3; 4; 5; 6; 7; 7] /\
      Trend rising 6 (SpcUtils.xBarValues a) /\
      SpcUtils.consecutiveIncreasing (SpcUtils.counters a) = 0%nat /\
      SpcUtils.consecutiveDecreasing (SpcUtils.counters a) = 0%nat /\
      sixConsecutiveTrend (ssAnalysis (SpcUtils.report a)) = "No"%string) /\
  (exists a,
      Part000.analysis ramp 1 = Returns a /\
      Part000.a_subgroupMeans a = [1; 2; 3; 4; 5; 6; 7; 7] /\
      Part000.maxTrendUp (Part000.runs a) = 7%nat /\
      sixConsecutiveTrend (ssAnalysis (Part000.report a)) = "Yes"%string).
Proof.
  split; eexists; (split; [vm_compute; reflexivity|]).
  - split; [vm_compute; reflexivity|]. split.
    + exists [], [1; 2; 3; 4; 5; 6], [7; 7]. vm_compute. auto.
    + vm_compute. auto.
  - vm_compute. auto.
Qed.

(** C6 (code defect in the second file).  The claim: a point equal to the
    grand mean is neither above nor below it and breaks any run, and the
    signal fires if and only if eight consecutive points are strictly above
    or strictly below.  On [level] with sample size 1 every subgroup mean
    equals the grand mean 5, so that no point is strictly above or below
    it; the second file classifies a point by [value > mean] alone, counts
    the eight points as one run and answers "Yes".  [spcUtils.ts] answers
    "No". *)
Theorem run_second_file_counts_points_on_the_mean :
  (exists a,
      Part000.analysis level 1 = Returns a /\
      Part000.a_subgroupMeans a = repeat 5 8 /\
      Part000.grandMean a = 5 /\
      existsb (above 5) (Part000.a_subgroupMeans a) = false /\
      existsb (below 5) (Part000.a_subgroupMeans a) = false /\
      ~ Streak (above (Part000.grandMean a)) 8 (Part000.a_subgroupMeans a) /\
      ~ Streak (below (Part000.grandMean a)) 8 (Part000.a_subgroupMeans a) /\
      Part000.maxRunLength (Part000.runs a) = 8%nat /\
      eightConsecutivePoints (ssAnalysis (Part000.report a)) = "Yes"%string) /\
  (exists a,
      SpcUtils.analysis level 1 = Returns a /\
      SpcUtils.xBarValues a = repeat 5 8 /\
      SpcUtils.grandMean a = 5 /\
      eightConsecutivePoints (ssAnalysis (SpcUtils.report a)) = "No"%string).
Proof.
  split; eexists; (split; [vm_compute; reflexivity|]).
  - repeat split; try (vm_compute; reflexivity).
    + rewrite <- longestStreak_Streak. vm_compute. lia.
    + rewrite <- longestStreak_Streak. vm_compute. lia.
  - vm_compute. auto.
Qed.

(** * The subgrouper *)

(** The slices do not depend on the fuel once it covers the array. *)
Lemma slicesFrom_fuel n : (1 <= n)%nat -> forall fuel fuel' xs,
  (List.length xs <= fuel)%nat -> (List.length xs <= fuel')%nat ->
  slicesFrom fuel n xs = slicesFrom fuel' n xs.
Proof.
  intros Hn. induction fuel as [|fuel IH]; intros fuel' xs H H'.
  - destruct xs as [|v xs]; [destruct fuel'; reflexivity|].
    simpl List.length in H. lia.
  - destruct xs as [|v xs]; [destruct fuel'; reflexivity|].
    simpl List.length in H, H'.
    destruct fuel' as [|fuel']; [lia|].
    simpl slicesFrom. f_equal. apply IH.
    + rewrite length_skipn. simpl List.length. lia.
    + rewrite length_skipn. simpl List.length. lia.
Qed.

(** After [k] full subgroups the slicing starts afresh. *)
Lemma slicesFrom_app n k : (1 <= n)%nat -> forall full tail,
  List.length full = (k * n)%nat ->
  slicesFrom (List.length (full ++ tail)) n (full ++ tail)
  = slicesFrom (List.length full) n full ++ slicesFrom (List.length tail) n tail.
Proof.
  intros Hn. induction k as [|k IH]; intros full tail L.
  - destruct full; [reflexivity | simpl in L; lia].
  - destruct full as [|v full]; [simpl in L; lia|].
    set (xs := v :: full) in *.
    assert (Lx : (n <= List.length xs)%nat) by lia.
    change (List.length (xs ++ tail)) with (S (List.length (full ++ tail))).
    change (List.length xs) with (S (List.length full)).
    change (slicesFrom (S (List.length (full ++ tail))) n (xs ++ tail))
      with (firstn n (xs ++ tail)
              :: slicesFrom (List.length (full ++ tail)) n (skipn n (xs ++ tail))).
    change (slicesFrom (S (List.length full)) n xs)
      with (firstn n xs :: slicesFrom (List.length full) n (skipn n xs)).
    rewrite firstn_app, skipn_app.
    replace (n - List.length xs)%nat with 0%nat by lia.
    rewrite firstn_O, skipn_O, app_nil_r. simpl app. f_equal.
    assert (Ls : List.length (skipn n xs) = (k * n)%nat).
    { rewrite length_skipn. lia. }
    rewrite (slicesFrom_fuel n Hn _ (List.length (skipn n xs ++ tail))).
    + rewrite (IH _ tail Ls).
      f_equal. apply slicesFrom_fuel; auto. rewrite Ls. unfold xs in L. simpl in L. lia.
    + rewrite !length_app, Ls. unfold xs in L. simpl in L. lia.
    + lia.
Qed.

Lemma slices_with_single_tail sampleSize k full v :
  (1 < sampleSize)%Z ->
  List.length full = (k * Z.to_nat sampleSize)%nat ->
  slices sampleSize (full ++ [v]) = slices sampleSize full ++ [[v]].
Proof.
  intros Hs L. unfold slices.
  rewrite (slicesFrom_app (Z.to_nat sampleSize) k) by (auto; lia).
  f_equal. simpl. destruct (Z.to_nat sampleSize) eqn:E; [lia|].
  simpl. rewrite firstn_nil. reflexivity.
Qed.

(** In [spcUtils.ts] a lone value after [k] full subgroups adds its mean to
    the means and nothing to the ranges. *)
Lemma SpcUtils_single_tail sampleSize k full v :
  (1 < sampleSize)%Z ->
  List.length full = (k * Z.to_nat sampleSize)%nat ->
  SpcUtils.calculateSubgroupXBar (full ++ [v]) sampleSize
  = SpcUtils.calculateSubgroupXBar full sampleSize ++ [(0 + v) / 1] /\
  SpcUtils.calculateSubgroupRanges (full ++ [v]) sampleSize
  = SpcUtils.calculateSubgroupRanges full sampleSize.
Proof.
  intros Hs L. unfold SpcUtils.calculateSubgroupXBar, SpcUtils.calculateSubgroupRanges.
  destruct (Z.eqb_spec sampleSize 1); [lia|].
  rewrite (slices_with_single_tail sampleSize k full v Hs L), !flat_map_app.
  simpl. rewrite app_nil_r. auto.
Qed.

(** In the second file it adds a range as well: the difference of the value
    with itself. *)
Lemma Part000_single_tail sampleSize k full v :
  (1 < sampleSize)%Z ->
  List.length full = (k * Z.to_nat sampleSize)%nat ->
  Part000.subgroupRanges (full ++ [v]) sampleSize
  = Part000.subgroupRanges full sampleSize ++ [max2 neg_infinity v - min2 infinity v].
Proof.
  intros Hs L. unfold Part000.subgroupRanges.
  destruct (Z.eqb_spec sampleSize 1); [lia|].
  rewrite (slices_with_single_tail sampleSize k full v Hs L), !flat_map_app.
  simpl. reflexivity.
Qed.

(** C9 (code defect in the second file).  The claim: with a sample size above
    1, a final chunk of exactly one element adds its mean to the subgroup
    means and no value to the subgroup ranges.  On the measurements 1, 2, 3
    with sample size 2 the chunks are 1, 2 and 3; the second file records the
    ranges 1 and 0, the second one for the lone 3, while [spcUtils.ts], which
    asks for at least two points, records the range 1 only. *)
Theorem lone_final_value_second_file_range :
  (exists a,
      Part000.analysis (inspected ["1"; "2"; "3"]%string) 2 = Returns a /\
      slices 2 (Part000.measurements a) = [[1; 2]; [3]] /\
      Part000.a_subgroupMeans a = [1.5; 3] /\
      Part000.a_subgroupRanges a = [1; 0] /\
      rangeData (controlCharts (Part000.report a))
      = [{| x := 1; y := 1 |}; {| x := 2; y := 0 |}]) /\
  (exists a,
      SpcUtils.analysis (inspected ["1"; "2"; "3"]%string) 2 = Returns a /\
      SpcUtils.xBarValues a = [1.5; 3] /\
      SpcUtils.rangeValues a = [1] /\
      rangeData (controlCharts (SpcUtils.report a)) = [{| x := 1; y := 1 |}]).
Proof.
  split; eexists; (split; [vm_compute; reflexivity|]); vm_compute; auto.
Qed.

(** * The distribution binner *)

Lemma length_bump i : forall bins, List.length (bump i bins) = List.length bins.
Proof.
  induction i as [|i IH]; intros [|c bins]; simpl; auto.
Qed.

Lemma total_bump i : forall bins,
  total (bump i bins) = (if (i <? List.length bins)%nat then S (total bins) else total bins).
Proof.
  induction i as [|i IH]; intros [|c bins]; simpl; auto.
  rewrite IH. change (S i <? S (List.length bins))%nat with (i <? List.length bins)%nat.
  destruct (i <? List.length bins)%nat; lia.
Qed.

Lemma nth_bump j i : forall bins,
  nth j (bump i bins) 0%nat
  = (if ((i =? j) && (i <? List.length bins))%nat then S (nth j bins 0%nat) else nth j bins 0%nat).
Proof.
  revert j. induction i as [|i IH]; intros j [|c bins]; simpl.
  - destruct j; reflexivity.
  - destruct j; reflexivity.
  - destruct j; simpl; rewrite ?andb_false_r; reflexivity.
  - destruct j as [|j]; [reflexivity|]. rewrite IH. reflexivity.
Qed.

(** Counting in a bin that exists. *)
Lemma bumpZ_in i bins :
  (0 <= i < Z.of_nat (List.length bins))%Z ->
  List.length (bumpZ i bins) = List.length bins /\
  total (bumpZ i bins) = S (total bins) /\
  forall j, nth j (bumpZ i bins) 0%nat
            = (if (i =? Z.of_nat j)%Z then S (nth j bins 0%nat) else nth j bins 0%nat).
Proof.
  intros H. unfold bumpZ. destruct (Z.leb_spec 0 i); [|lia].
  rewrite length_bump, total_bump.
  destruct (Nat.ltb_spec (Z.to_nat i) (List.length bins)); [|lia].
  repeat split. intros j. rewrite nth_bump.
  destruct (Nat.ltb_spec (Z.to_nat i) (List.length bins)); [|lia].
  rewrite andb_true_r.
  destruct (Nat.eqb_spec (Z.to_nat i) j), (Z.eqb_spec i (Z.of_nat j)); auto; lia.
Qed.

Lemma inBins_range binCount i :
  inBins binCount (Some i) = true -> (0 <= i < Z.of_nat binCount)%Z.
Proof. simpl. rewrite andb_true_iff, Z.leb_le, Z.ltb_lt. auto. Qed.

Section Binning.
Variables (max binStart binWidth : number) (binCount : nat).
Hypothesis bins_exist : (1 <= binCount)%nat.

Lemma SpcUtils_binStep bins v :
List.length bins = binCount ->
let bins' := SpcUtils.binStep max binStart binWidth binCount bins v in
List.length bins' = binCount /\
total bins' = (total bins + if countedA max binStart binWidth binCount v then 1 else 0)%nat /\
forall j, nth j bins' 0%nat = (nth j bins 0%nat + if binA max binStart binWidth binCount j v then 1 else 0)%nat.
Proof.
intros L. unfold SpcUtils.binStep, countedA, binA, indexOf.
destruct (v =? max).
- destruct (bumpZ_in (Z.of_nat binCount - 1) bins ltac:(lia)) as (E1 & E2 & E3).
  simpl. repeat split; try lia. intros j. rewrite E3.
  destruct (Z.eqb_spec (Z.of_nat binCount - 1) (Z.of_nat j)),
    (Nat.eqb_spec j (binCount - 1)); lia.
- simpl. destruct (floorZ ((v - binStart) / binWidth)) as [i|] eqn:F.
  + change ((0 <=? i)%Z && (i <? Z.of_nat binCount)%Z) with (inBins binCount (Some i)).
    destruct (inBins binCount (Some i)) eqn:I.
    * apply inBins_range in I.
      destruct (bumpZ_in i bins ltac:(lia)) as (E1 & E2 & E3).
      repeat split; try lia. intros j. rewrite E3. simpl.
      destruct (i =? Z.of_nat j)%Z; lia.
    * simpl. repeat split; intros; lia.
  + simpl. repeat split; intros; lia.
Qed.

Lemma Part000_binStep bins v :
List.length bins = binCount ->
let bins' := Part000.binStep max binStart binWidth binCount bins v in
List.length bins' = binCount /\
total bins' = (total bins + if countedB max binStart binWidth binCount v then 1 else 0)%nat /\
forall j, nth j bins' 0%nat = (nth j bins 0%nat + if binB max binStart binWidth binCount j v then 1 else 0)%nat.
Proof.
intros L. unfold Part000.binStep, countedB, binB, countedA, binA, indexOf.
destruct (isFinite v); simpl; [|repeat split; try lia; intros; lia].
destruct (v =? max).
- assert (I : inBins binCount (Some (Z.of_nat binCount - 1)%Z) = true).
  { simpl. apply andb_true_iff. rewrite Z.leb_le, Z.ltb_lt. lia. }
  change ((0 <=? Z.of_nat binCount - 1)%Z && (Z.of_nat binCount - 1 <? Z.of_nat binCount)%Z)
    with (inBins binCount (Some (Z.of_nat binCount - 1)%Z)).
  rewrite I.
  destruct (bumpZ_in (Z.of_nat binCount - 1) bins ltac:(lia)) as (E1 & E2 & E3).
  simpl. repeat split; try lia. intros j. rewrite E3.
  destruct (Z.eqb_spec (Z.of_nat binCount - 1) (Z.of_nat j)),
    (Nat.eqb_spec j (binCount - 1)); lia.
- simpl. destruct (floorZ ((v - binStart) / binWidth)) as [i|] eqn:F.
  + change ((0 <=? i)%Z && (i <? Z.of_nat binCount)%Z) with (inBins binCount (Some i)).
    destruct (inBins binCount (Some i)) eqn:I.
    * apply inBins_range in I.
      destruct (bumpZ_in i bins ltac:(lia)) as (E1 & E2 & E3).
      repeat split; try lia. intros j. rewrite E3. simpl.
      destruct (i =? Z.of_nat j)%Z; lia.
    * simpl. repeat split; intros; lia.
  + simpl. repeat split; intros; lia.
Qed.

End Binning.

(** A loop whose body counts the values [counted] selects, and in bin [j]
    those [bin j] selects. *)
Lemma binning_fold (binCount : nat) (step : list nat -> number -> list nat)
  (counted : number -> bool) (bin : nat -> number -> bool) :
  (forall bins v, List.length bins = binCount ->
     List.length (step bins v) = binCount /\
     total (step bins v) = (total bins + if counted v then 1 else 0)%nat /\
     forall j, nth j (step bins v) 0%nat
               = (nth j bins 0%nat + if bin j v then 1 else 0)%nat) ->
  forall xs bins, List.length bins = binCount ->
    List.length (fold_left step xs bins) = binCount /\
    total (fold_left step xs bins) = (total bins + List.length (filter counted xs))%nat /\
    forall j, nth j (fold_left step xs bins) 0%nat
              = (nth j bins 0%nat + List.length (filter (bin j) xs))%nat.
Proof.
  intros S. induction xs as [|v xs IH]; intros bins L; simpl.
  - repeat split; intros; lia.
  - destruct (S bins v L) as (S1 & S2 & S3).
    destruct (IH _ S1) as (I1 & I2 & I3).
    repeat split; auto.
    + rewrite I2, S2. destruct (counted v); simpl; lia.
    + intros j. rewrite I3, S3. destruct (bin j v); simpl; lia.
Qed.



Lemma nth_repeat_zero n j : nth j (repeat 0%nat n) 0%nat = 0%nat.
Proof. revert j. induction n; intros [|j]; simpl; auto. Qed.

Lemma ceilSqrt_pos n : (1 <= n)%nat -> (1 <= ceilSqrt n)%nat.
Proof.
  intros H. unfold ceilSqrt.
  assert (0 < Z.sqrt_up (Z.of_nat n))%Z by (apply Z.sqrt_up_pos; lia). lia.
Qed.

(** On the lengths up to 1024 the integer ceiling of the square root is what
    [Math.ceil(Math.sqrt(n))] computes with the binary64 square root. *)
Lemma ceilSqrt_agrees :
  forallb (fun n => match ceilSqrtFloat n with
                    | Some k => (k =? Z.of_nat (ceilSqrt n))%Z
                    | None => false
                    end) (seq 0 1025) = true.
Proof. vm_compute. reflexivity. Qed.

Lemma bars_counts (f : number -> number) edges : forall bins,
  (List.length bins <= List.length edges)%nat ->
  map barY (map (fun '(edge, count) => {| barX := f edge; barY := count |})
                (combine edges bins)) = bins.
Proof.
  induction edges as [|e edges IH]; intros [|c bins] L; simpl in *; try lia; auto.
  f_equal. apply IH. lia.
Qed.

Lemma filter_length_le {A} (f : A -> bool) xs :
  (List.length (filter f xs) <= List.length xs)%nat.
Proof. induction xs as [|v xs IH]; simpl; [lia|]. destruct (f v); simpl; lia. Qed.

Lemma SpcUtils_distribution_some xs lsl usl :
  xs <> [] ->
  exists d, SpcUtils.calculateDistributionData xs lsl usl = Some d /\
    let max := maxOf xs in
    let binCount := ceilSqrt (List.length xs) in
    let binWidth := (max - minOf xs) / ofNat binCount in
    let binStart := min2 (minOf xs) lsl in
    map barY (data d)
    = map barY
        (map (fun '(edge, count) =>
                {| barX := toFixed 4 (edge + binWidth / 2); barY := count |})
           (combine (map (fun i => binStart + ofNat i * binWidth) (seq 0 (binCount + 1)))
              (fold_left (SpcUtils.binStep max binStart binWidth binCount) xs
                 (repeat 0%nat binCount)))).
Proof.
  intros NE. destruct xs as [|x0 xs]; [congruence|]. eexists. split; reflexivity.
Qed.

Lemma Part000_distribution_some xs lsl usl :
  xs <> [] ->
  exists d, Part000.calculateDistributionData xs lsl usl = Some d /\
    let max := maxOf xs in
    let binCount := ceilSqrt (List.length xs) in
    let binWidth := (max - minOf xs) / ofNat binCount in
    let binStart := min2 (minOf xs) lsl in
    map barY (data d)
    = map barY
        (map (fun '(edge, count) =>
                {| barX := toFixed 4 (edge + binWidth / 2); barY := count |})
           (combine (map (fun i => binStart + ofNat i * binWidth) (seq 0 (binCount + 1)))
              (fold_left (Part000.binStep max binStart binWidth binCount) xs
                 (repeat 0%nat binCount)))).
Proof.
  intros NE. destruct xs as [|x0 xs]; [congruence|]. eexists. split; reflexivity.
Qed.




(** * The range chart *)

Lemma D3_zero sampleSize constants :
  controlChartConstants sampleSize = Some constants -> D3 constants = 0.
Proof.
  intros E.
  assert (R : (1 <= sampleSize <= 5)%Z).
  { destruct (Z_le_gt_dec 1 sampleSize), (Z_le_gt_dec sampleSize 5); try lia;
      assert (N : controlChartConstants sampleSize = None)
        by (apply constants_defined; lia); congruence. }
  assert (C : sampleSize = 1%Z \/ sampleSize = 2%Z \/ sampleSize = 3%Z \/
              sampleSize = 4%Z \/ sampleSize = 5%Z) by lia.
  destruct C as [-> | [-> | [-> | [-> | ->]]]]; injection E as <-; reflexivity.
Qed.

Lemma In_firstn {A} n (xs : list A) v : In v (firstn n xs) -> In v xs.
Proof.
  intros H. rewrite <- (firstn_skipn n xs). apply in_or_app. auto.
Qed.

Lemma In_skipn {A} n (xs : list A) v : In v (skipn n xs) -> In v xs.
Proof.
  intros H. rewrite <- (firstn_skipn n xs). apply in_or_app. auto.
Qed.

Lemma slicesFrom_In n : forall fuel xs g,
  In g (slicesFrom fuel n xs) -> forall v, In v g -> In v xs.
Proof.
  induction fuel as [|fuel IH]; intros xs g H; [destruct H|].
  destruct xs as [|x xs]; [destruct H|].
  simpl slicesFrom in H. destruct H as [<- | H]; intros v I.
  - eapply In_firstn, I.
  - eapply In_skipn, IH; eauto.
Qed.

Lemma movingRanges_In xs : forall v,
  In v (movingRanges xs) -> exists a b, In a xs /\ In b xs /\ v = abs (b - a).
Proof.
  induction xs as [|a xs IH]; intros v H; [destruct H|].
  destruct xs as [|b xs]; [destruct H|].
  simpl movingRanges in H. destruct H as [<- | H].
  - exists a, b. simpl. auto.
  - destruct (IH v H) as (a' & b' & Ia & Ib & E). exists a', b'. simpl in *. auto.
Qed.

Lemma finite_slice sampleSize xs g :
  forallb isFinite xs = true -> In g (slices sampleSize xs) -> forallb isFinite g = true.
Proof.
  intros F H. apply forallb_forall. intros v I.
  eapply forallb_forall in F; [exact F|]. eapply slicesFrom_In; eauto.
Qed.

(** The ranges of finite measurements are not negative. *)
Lemma SpcUtils_ranges_nonneg ms sampleSize v :
  forallb isFinite ms = true ->
  In v (SpcUtils.calculateSubgroupRanges ms sampleSize) -> (0 <=? v) = true.
Proof.
  intros F. unfold SpcUtils.calculateSubgroupRanges.
  destruct (sampleSize =? 1)%Z.
  - intros H. destruct (movingRanges_In _ _ H) as (a & b & Ia & Ib & ->).
    rewrite forallb_forall in F. apply abs_sub_nonneg; auto.
  - intros H. apply in_flat_map in H as (g & Ig & H).
    destruct (1 <? List.length g)%nat eqn:L; [|destruct H].
    destruct H as [<- | []]. apply spread_nonneg.
    + intros ->. discriminate.
    + eapply finite_slice; eauto.
Qed.

Lemma Part000_ranges_nonneg ms sampleSize v :
  forallb isFinite ms = true ->
  In v (Part000.subgroupRanges ms sampleSize) -> (0 <=? v) = true.
Proof.
  intros F. unfold Part000.subgroupRanges.
  destruct (sampleSize =? 1)%Z.
  - intros H. apply filter_In in H as [H _].
    destruct (movingRanges_In _ _ H) as (a & b & Ia & Ib & ->).
    rewrite forallb_forall in F. apply abs_sub_nonneg; auto.
  - intros H. apply in_flat_map in H as (g & Ig & H).
    destruct (0 <? List.length g)%nat eqn:L; [|destruct H].
    destruct H as [<- | []]. apply spread_nonneg.
    + intros ->. discriminate.
    + eapply finite_slice; eauto.
Qed.

Lemma Part000_measurements_finite ds :
  forallb isFinite (map (fun d => parseFloat (ActualSpecification d)) (Part000.validData ds))
  = true.
Proof.
  apply forallb_forall. intros v H. apply in_map_iff in H as (d & <- & H).
  apply Part000_retained in H. tauto.
Qed.

Lemma points_filter (f : number -> bool) xs : forall i,
  List.length (filter (fun p => f (y p)) (pointsFrom i xs)) = List.length (filter f xs).
Proof.
  induction xs as [|v xs IH]; intros i; simpl; auto.
  destruct (f v); simpl; auto.
Qed.

Lemma filter_above_only (f g : number -> bool) xs :
  (forall v, In v xs -> g v = false) ->
  filter (fun v => f v || g v) xs = filter f xs.
Proof.
  intros H. induction xs as [|v xs IH]; simpl; auto.
  rewrite (H v) by (simpl; auto). rewrite orb_false_r.
  rewrite IH by (intros; apply H; simpl; auto). reflexivity.
Qed.

(** C10 (amended).  For every input that passes the two checks with finite
    measurements (the second file retains no others): the table entry has
    D3 = 0; the lower range limit [D3 * avgRange] is zero when the average
    range is finite and NaN when it is not; every range value is at least
    zero; no range value is strictly below the lower range limit; and the
    range out-of-limits result counts the values above the upper range limit
    only. *)
Theorem range_chart_lower_limit ds sampleSize :
  (forall a, SpcUtils.analysis ds sampleSize = Returns a ->
     forallb isFinite (SpcUtils.measurements a) = true ->
     (exists constants,
         controlChartConstants sampleSize = Some constants /\ D3 constants = 0 /\
         SpcUtils.a_rangeLcl a = D3 constants * SpcUtils.a_avgRange a) /\
     (if isFinite (SpcUtils.a_avgRange a)
      then (SpcUtils.a_rangeLcl a =? 0) = true
      else isNaN (SpcUtils.a_rangeLcl a) = true) /\
     (forall v, In v (SpcUtils.rangeValues a) ->
        (0 <=? v) = true /\ (v <? SpcUtils.a_rangeLcl a) = false) /\
     SpcUtils.pointsOutsideRangeLimits a
     = List.length (filter (fun v => gt v (SpcUtils.a_rangeUcl a)) (SpcUtils.rangeValues a))) /\
  (forall a, Part000.analysis ds sampleSize = Returns a ->
     forallb isFinite (Part000.measurements a) = true /\
     (exists constants,
         controlChartConstants sampleSize = Some constants /\ D3 constants = 0 /\
         Part000.a_rangeLcl a = D3 constants * Part000.a_avgRange a) /\
     (if isFinite (Part000.a_avgRange a)
      then (Part000.a_rangeLcl a =? 0) = true
      else isNaN (Part000.a_rangeLcl a) = true) /\
     (forall v, In v (Part000.a_subgroupRanges a) ->
        (0 <=? v) = true /\ (v <? Part000.a_rangeLcl a) = false) /\
     rangePointsOutsideLimits (ssAnalysis (Part000.report a))
     = if Nat.ltb 0 (List.length (filter (fun v => gt v (Part000.a_rangeUcl a))
                                         (Part000.a_subgroupRanges a)))
       then "Points Detected"%string else "None"%string).
Proof.
  split; intros a.
  - unfold SpcUtils.analysis.
    destruct (controlChartConstants sampleSize) as [c|] eqn:C; [|discriminate].
    destruct (_ <? _)%Z; [discriminate|].
    destruct ds as [|first rest]; [discriminate|].
    set (ms := SpcUtils.validMeasurements (first :: rest)). clearbody ms.
    intros [= <-].
    cbn [SpcUtils.measurements SpcUtils.a_rangeLcl SpcUtils.a_avgRange SpcUtils.rangeValues
         SpcUtils.pointsOutsideRangeLimits SpcUtils.a_rangeUcl SpcUtils.analyse].
    intros F. rewrite (D3_zero _ _ C).
    set (avg := match SpcUtils.calculateMean _ with Some m => m | None => 0 end).
    assert (N : forall v, In v (SpcUtils.calculateSubgroupRanges ms sampleSize) ->
                (0 <=? v) = true /\ (v <? 0 * avg) = false).
    { intros v I. pose proof (SpcUtils_ranges_nonneg ms sampleSize v F I) as P.
      split; [exact P | apply nonneg_not_below_zero_mul, P]. }
    repeat split.
    + exists c. rewrite (D3_zero _ _ C). auto.
    + apply zero_mul.
    + apply N, H.
    + apply N, H.
    + rewrite (points_filter (fun v => gt v (D4 c * avg) || (v <? 0 * avg))).
      rewrite filter_above_only; [reflexivity|]. intros v I. apply N, I.
  - unfold Part000.analysis.
    destruct (controlChartConstants sampleSize) as [c|] eqn:C; [|discriminate].
    destruct (_ <? _)%Z; [discriminate|].
    pose proof (Part000_measurements_finite ds) as F.
    destruct (Part000.validData ds) as [|first rest]; [discriminate|].
    set (ms := map _ (first :: rest)) in *. clearbody ms.
    intros [= <-].
    cbn [Part000.measurements Part000.a_rangeLcl Part000.a_avgRange Part000.a_subgroupRanges
         Part000.a_rangeUcl Part000.analyse Part000.report ssAnalysis rangePointsOutsideLimits].
    rewrite (D3_zero _ _ C).
    set (avg := match Part000.calculateMean _ with Some m => m | None => 0 end).
    assert (N : forall v, In v (Part000.subgroupRanges ms sampleSize) ->
                (0 <=? v) = true /\ (v <? 0 * avg) = false).
    { intros v I. pose proof (Part000_ranges_nonneg ms sampleSize v F I) as P.
      split; [exact P | apply nonneg_not_below_zero_mul, P]. }
    repeat split.
    + exact F.
    + exists c. rewrite (D3_zero _ _ C). auto.
    + apply zero_mul.
    + apply N, H.
    + apply N, H.
    + rewrite (points_filter (fun v => gt v (D4 c * avg) || (v <? 0 * avg))).
      rewrite filter_above_only; [reflexivity|]. intros v I. apply N, I.
Qed.

(** The statement above at the measurements 5, 7, 6 with sample size 1. *)
Lemma range_chart_lower_limit_witness :
  exists a,
    SpcUtils.analysis (inspected ["5"; "7"; "6"]%string) 1 = Returns a /\
    (forall v, In v (SpcUtils.rangeValues a) ->
       (0 <=? v) = true /\ (v <? SpcUtils.a_rangeLcl a) = false) /\
    exists b,
      Part000.analysis (inspected ["5"; "7"; "6"]%string) 1 = Returns b /\
      (forall v, In v (Part000.a_subgroupRanges b) ->
         (0 <=? v) = true /\ (v <? Part000.a_rangeLcl b) = false).
Proof.
  eexists. split; [vm_compute; reflexivity|].
  pose proof (range_chart_lower_limit (inspected ["5"; "7"; "6"]%string) 1) as [A B].
  split.
  - apply A; vm_compute; reflexivity.
  - eexists. split; [vm_compute; reflexivity|]. apply B. vm_compute. reflexivity.
Defined.

(** C10, as stated, fails where the ranges overflow: the measurements 1e308
    and -1e308 are finite, their range is [Infinity], and so is the average
    range of [spcUtils.ts]; the lower range limit [0 * Infinity] is NaN, not
    0.  In the second file two ranges of 1.5e308 have an infinite sum, and
    the limit is NaN as well. *)
Lemma range_chart_lower_limit_counterexample :
  (exists a,
      SpcUtils.analysis (inspected ["1e308"; "-1e308"]%string) 2 = Returns a /\
      forallb isFinite (SpcUtils.measurements a) = true /\
      SpcUtils.rangeValues a = [infinity] /\
      SpcUtils.a_avgRange a = infinity /\
      SpcUtils.a_rangeLcl a = nan /\
      (SpcUtils.a_rangeLcl a =? 0) = false /\
      rangeLcl (limits (controlCharts (SpcUtils.report a))) = nan) /\
  (exists a,
      Part000.analysis (inspected ["1.5e308"; "0"; "1.5e308"; "0"]%string) 2 = Returns a /\
      forallb isFinite (Part000.measurements a) = true /\
      Part000.a_subgroupRanges a = [1.5e308; 1.5e308] /\
      Part000.a_avgRange a = infinity /\
      Part000.a_rangeLcl a = nan /\
      (Part000.a_rangeLcl a =? 0) = false /\
      rangeLcl (limits (controlCharts (Part000.report a))) = nan).
Proof.
  split; eexists; (split; [vm_compute; reflexivity|]); vm_compute; auto 10.
Qed.

(** * The subgroups *)

Lemma skipn_skipn' {A} (a b : nat) (l : list A) : skipn a (skipn b l) = skipn (b + a) l.
Proof.
  revert l. induction b as [|b IH]; intros l; simpl; auto.
  destruct l; [rewrite skipn_nil; reflexivity | apply IH].
Qed.

Lemma slicesFrom_nth n : forall fuel xs i,
  (1 <= n)%nat -> (List.length xs <= fuel)%nat ->
  nth i (slicesFrom fuel n xs) [] = firstn n (skipn (i * n) xs).
Proof.
  induction fuel as [|fuel IH]; intros xs i Hn H.
  - destruct xs; [|simpl in H; lia]. simpl. rewrite skipn_nil, firstn_nil.
    destruct i; reflexivity.
  - destruct xs as [|v xs].
    + simpl. rewrite skipn_nil, firstn_nil. destruct i; reflexivity.
    + simpl slicesFrom. destruct i as [|i]; [reflexivity|].
      simpl nth. rewrite IH; auto.
      * rewrite skipn_skipn'. simpl Nat.mul. reflexivity.
      * rewrite length_skipn. simpl List.length in *. lia.
Qed.

Lemma slicesFrom_concat n : forall fuel xs,
  (1 <= n)%nat -> (List.length xs <= fuel)%nat -> List.concat (slicesFrom fuel n xs) = xs.
Proof.
  induction fuel as [|fuel IH]; intros xs Hn H.
  - destruct xs; [reflexivity | simpl in H; lia].
  - destruct xs as [|v xs]; [reflexivity|].
    simpl slicesFrom. simpl List.concat. rewrite IH; auto.
    + apply firstn_skipn.
    + rewrite length_skipn. simpl List.length in *. lia.
Qed.

Lemma slicesFrom_count n : forall fuel xs,
  (1 <= n)%nat -> (List.length xs <= fuel)%nat ->
  List.length (slicesFrom fuel n xs) = ((List.length xs + n - 1) / n)%nat.
Proof.
  induction fuel as [|fuel IH]; intros xs Hn H.
  - destruct xs; [|simpl in H; lia]. simpl. symmetry. apply Nat.div_small. lia.
  - destruct xs as [|v xs].
    + simpl. symmetry. apply Nat.div_small. lia.
    + simpl slicesFrom. simpl List.length at 1. rewrite IH; auto.
      2:{ rewrite length_skipn. simpl List.length in *. lia. }
      rewrite length_skipn. set (len := List.length (v :: xs)).
      assert (1 <= len)%nat by (unfold len; simpl; lia).
      destruct (Nat.le_gt_cases n len).
      * replace (len + n - 1)%nat with ((len - n + n - 1) + 1 * n)%nat by lia.
        rewrite Nat.div_add by lia. lia.
      * replace (len - n + n - 1)%nat with (n - 1)%nat by lia.
        rewrite (Nat.div_small (n - 1) n) by lia.
        apply (Nat.div_unique _ _ 1 (len - 1)); lia.
Qed.

Lemma slicesFrom_pairs n : forall fuel xs,
  (2 <= n)%nat -> (List.length xs <= fuel)%nat ->
  List.length (filter (fun g => (1 <? List.length g)%nat) (slicesFrom fuel n xs))
  = ((List.length xs + n - 2) / n)%nat.
Proof.
  induction fuel as [|fuel IH]; intros xs Hn H.
  - destruct xs; [|simpl in H; lia]. simpl. symmetry. apply Nat.div_small. lia.
  - destruct xs as [|v xs].
    + simpl. symmetry. apply Nat.div_small. lia.
    + simpl slicesFrom. simpl filter. rewrite length_firstn.
      assert (E := IH (skipn n (v :: xs)) Hn).
      rewrite length_skipn in E. set (len := List.length (v :: xs)) in *.
      assert (1 <= len)%nat by (unfold len; simpl; lia).
      specialize (E ltac:(unfold len in *; simpl List.length in *; lia)).
      destruct (Nat.ltb_spec 1 (Nat.min n len)); simpl List.length; rewrite E.
      * destruct (Nat.le_gt_cases n len).
        -- replace (len + n - 2)%nat with ((len - n + n - 2) + 1 * n)%nat by lia.
           rewrite Nat.div_add by lia. lia.
        -- replace (len - n + n - 2)%nat with (n - 2)%nat by lia.
           rewrite (Nat.div_small (n - 2) n) by lia.
           apply (Nat.div_unique _ _ 1 (len - 2)); lia.
      * assert (len = 1)%nat by lia.
        replace (len - n + n - 2)%nat with (n - 2)%nat by lia.
        rewrite (Nat.div_small (n - 2) n) by lia.
        symmetry. apply Nat.div_small. lia.
Qed.

Lemma flat_map_option_length {A B} (p : A -> bool) (f : A -> B) (l : list A) :
  List.length (flat_map (fun g => if p g then [f g] else []) l) = List.length (filter p l).
Proof.
  induction l as [|g l IH]; simpl; auto. destruct (p g); simpl; rewrite ?IH; auto.
Qed.

(** Every subgroup has between one and [sampleSize] values. *)
Lemma slices_sizes sampleSize xs g :
  (1 <= sampleSize)%Z -> In g (slices sampleSize xs) ->
  (1 <= List.length g <= Z.to_nat sampleSize)%nat.
Proof.
  intros Hs H. set (s := Z.to_nat sampleSize).
  assert (Hn : (1 <= s)%nat) by (unfold s; lia). unfold slices in H. fold s in H.
  destruct (In_nth _ _ [] H) as (i & Hi & <-).
  rewrite slicesFrom_count in Hi by auto.
  rewrite slicesFrom_nth, length_firstn, length_skipn by auto.
  assert (i * s < List.length xs)%nat; [|lia].
  destruct (Nat.le_gt_cases (List.length xs) (i * s)); auto. exfalso.
  assert ((List.length xs + s - 1) / s < S i)%nat; [|lia].
  apply Nat.Div0.div_lt_upper_bound. nia.
Qed.

(** The loop [for (i = 0; i < n; i += sampleSize) slice(i, i + sampleSize)]
    of both files cuts the series into consecutive subgroups: put end to
    end they give the series back, there are [ceil(n / sampleSize)] of them,
    the [i]-th holds the values from position [i * sampleSize] on, and none
    is empty or longer than [sampleSize]. *)
Theorem slices_are_consecutive sampleSize xs :
  (1 <= sampleSize)%Z ->
  let s := Z.to_nat sampleSize in
  List.concat (slices sampleSize xs) = xs /\
  List.length (slices sampleSize xs) = ((List.length xs + s - 1) / s)%nat /\
  (forall i, nth i (slices sampleSize xs) [] = firstn s (skipn (i * s) xs)) /\
  (forall g, In g (slices sampleSize xs) -> (1 <= List.length g <= s)%nat).
Proof.
  intros Hs s. assert (Hn : (1 <= s)%nat) by (unfold s; lia).
  repeat split; try (unfold slices; fold s).
  - apply slicesFrom_concat; auto.
  - apply slicesFrom_count; auto.
  - intros i. apply slicesFrom_nth; auto.
  - apply (slices_sizes sampleSize xs g Hs H).
  - apply (slices_sizes sampleSize xs g Hs H).
Qed.

(** The statement above at five values cut by two. *)
Lemma slices_are_consecutive_witness :
  List.concat (slices 2 [1; 2; 3; 4; 5]) = [1; 2; 3; 4; 5] /\
  List.length (slices 2 [1; 2; 3; 4; 5]) = 3%nat /\
  nth 2 (slices 2 [1; 2; 3; 4; 5]) [] = [5].
Proof.
  destruct (slices_are_consecutive 2 [1; 2; 3; 4; 5] ltac:(lia)) as (A & B & C & _).
  split; [exact A|]. split; [exact B|]. exact (C 2%nat).
Defined.

(** For a sample size of two or more, the number of subgroup means is
    [ceil(n / sampleSize)] in both files; [spcUtils.ts] has a range for each
    subgroup of two or more values, the second file a range for every
    subgroup.  When the series is made of [k] full subgroups, [spcUtils.ts]
    has [k] means and [k] ranges. *)
Theorem subgroup_counts ms sampleSize :
  (2 <= sampleSize)%Z ->
  let n := List.length ms in
  let s := Z.to_nat sampleSize in
  List.length (SpcUtils.calculateSubgroupXBar ms sampleSize) = ((n + s - 1) / s)%nat /\
  List.length (SpcUtils.calculateSubgroupRanges ms sampleSize) = ((n + s - 2) / s)%nat /\
  List.length (Part000.subgroupMeans ms sampleSize) = ((n + s - 1) / s)%nat /\
  List.length (Part000.subgroupRanges ms sampleSize) = ((n + s - 1) / s)%nat /\
  (forall k, n = (k * s)%nat ->
     List.length (SpcUtils.calculateSubgroupXBar ms sampleSize) = k /\
     List.length (SpcUtils.calculateSubgroupRanges ms sampleSize) = k).
Proof.
  intros Hs n s. assert (Hn : (2 <= s)%nat) by (unfold s; lia).
  unfold SpcUtils.calculateSubgroupXBar, SpcUtils.calculateSubgroupRanges,
    Part000.subgroupMeans, Part000.subgroupRanges.
  destruct (Z.eqb_spec sampleSize 1); [lia|].
  rewrite !flat_map_option_length.
  assert (C : List.length (slices sampleSize ms) = ((n + s - 1) / s)%nat).
  { unfold slices. apply slicesFrom_count; auto. lia. }
  assert (F : filter (fun g => (0 <? List.length g)%nat) (slices sampleSize ms)
              = slices sampleSize ms).
  { apply filter_all. apply forallb_forall. intros g I. apply Nat.ltb_lt.
    pose proof (slices_sizes sampleSize ms g ltac:(lia) I). lia. }
  rewrite F, C.
  assert (P : List.length (filter (fun g => (1 <? List.length g)%nat) (slices sampleSize ms))
              = ((n + s - 2) / s)%nat).
  { unfold slices. apply slicesFrom_pairs; auto. }
  rewrite P. repeat split; auto.
  - fold n. rewrite H. replace (k * s + s - 1)%nat with ((s - 1) + k * s)%nat by lia.
    rewrite Nat.div_add by lia. rewrite Nat.div_small; lia.
  - rewrite H. replace (k * s + s - 2)%nat with ((s - 2) + k * s)%nat by lia.
    rewrite Nat.div_add by lia. rewrite Nat.div_small; lia.
Qed.

(** The statement above at five values cut by two: three means in both
    files, two ranges in [spcUtils.ts] and three in the second file. *)
Lemma subgroup_counts_witness :
  List.length (SpcUtils.calculateSubgroupXBar [1; 2; 3; 4; 5] 2) = 3%nat /\
  List.length (SpcUtils.calculateSubgroupRanges [1; 2; 3; 4; 5] 2) = 2%nat /\
  List.length (Part000.subgroupMeans [1; 2; 3; 4; 5] 2) = 3%nat /\
  List.length (Part000.subgroupRanges [1; 2; 3; 4; 5] 2) = 3%nat.
Proof.
  destruct (subgroup_counts [1; 2; 3; 4; 5] 2 ltac:(lia)) as (A & B & C & D & _).
  split; [exact A|]. split; [exact B|]. split; [exact C|]. exact D.
Defined.

(** * The charts and the validated input *)

Lemma movingRanges_length xs : List.length (movingRanges xs) = (List.length xs - 1)%nat.
Proof.
  induction xs as [|a xs IH]; [reflexivity|].
  destruct xs as [|b xs]; [reflexivity|].
  change (movingRanges (a :: b :: xs)) with (abs (b - a) :: movingRanges (b :: xs)).
  simpl List.length in *. lia.
Qed.

Lemma movingRanges_nth xs : forall i,
  (i + 1 < List.length xs)%nat ->
  nth i (movingRanges xs) 0 = abs (nth (i + 1) xs 0 - nth i xs 0).
Proof.
  induction xs as [|a xs IH]; intros i H; [simpl in H; lia|].
  destruct xs as [|b xs]; [simpl in H; lia|].
  change (movingRanges (a :: b :: xs)) with (abs (b - a) :: movingRanges (b :: xs)).
  destruct i as [|i]; [reflexivity|].
  simpl nth at 1. rewrite IH by (simpl List.length in *; lia). reflexivity.
Qed.

Lemma map_finite_id xs :
  forallb isFinite xs = true -> map (fun v => if isFinite v then v else 0) xs = xs.
Proof.
  induction xs as [|v xs IH]; simpl; auto. intros H. apply andb_prop in H as [-> H].
  f_equal. auto.
Qed.

(** With sample size 1 the chart is an individuals chart.  In [spcUtils.ts]
    the points of the X-bar chart are the measurements themselves and the
    range chart holds the [n - 1] moving ranges [|x[i+1] - x[i]|].  In the
    second file the points are the measurements as well, and the ranges are
    the moving ranges that are finite, at most [n - 1] of them. *)
Theorem individuals_chart ds :
  (forall a, SpcUtils.analysis ds 1 = Returns a ->
     let ms := SpcUtils.measurements a in
     SpcUtils.xBarValues a = ms /\
     List.length (SpcUtils.rangeValues a) = (List.length ms - 1)%nat /\
     (forall i, (i + 1 < List.length ms)%nat ->
        nth i (SpcUtils.rangeValues a) 0 = abs (nth (i + 1) ms 0 - nth i ms 0))) /\
  (forall a, Part000.analysis ds 1 = Returns a ->
     let ms := Part000.measurements a in
     Part000.a_subgroupMeans a = ms /\
     Part000.a_subgroupRanges a = filter isFinite (movingRanges ms) /\
     (List.length (Part000.a_subgroupRanges a) <= List.length ms - 1)%nat).
Proof.
  split; intros a.
  - unfold SpcUtils.analysis. simpl controlChartConstants. cbv iota.
    destruct (_ <? _)%Z; [discriminate|].
    destruct ds as [|first rest]; [discriminate|].
    set (ms := SpcUtils.validMeasurements (first :: rest)). clearbody ms.
    intros [= <-].
    cbn [SpcUtils.measurements SpcUtils.xBarValues SpcUtils.rangeValues SpcUtils.analyse].
    unfold SpcUtils.calculateSubgroupXBar, SpcUtils.calculateSubgroupRanges.
    simpl Z.eqb. cbv iota.
    repeat split.
    + apply movingRanges_length.
    + apply movingRanges_nth.
  - unfold Part000.analysis. simpl controlChartConstants. cbv iota.
    destruct (_ <? _)%Z; [discriminate|].
    pose proof (Part000_measurements_finite ds) as F.
    destruct (Part000.validData ds) as [|first rest]; [discriminate|].
    set (ms := map _ (first :: rest)) in *. clearbody ms.
    intros [= <-].
    cbn [Part000.measurements Part000.a_subgroupMeans Part000.a_subgroupRanges
         Part000.analyse].
    unfold Part000.subgroupMeans, Part000.subgroupRanges. simpl Z.eqb. cbv iota.
    repeat split.
    + apply map_finite_id, F.
    + rewrite <- movingRanges_length. apply filter_length_le.
Qed.

(** The statement above at the measurements 5, 7, 6. *)
Lemma individuals_chart_witness :
  exists a,
    SpcUtils.analysis (inspected ["5"; "7"; "6"]%string) 1 = Returns a /\
    SpcUtils.xBarValues a = SpcUtils.measurements a /\
    List.length (SpcUtils.rangeValues a) = 2%nat /\
    exists b,
      Part000.analysis (inspected ["5"; "7"; "6"]%string) 1 = Returns b /\
      Part000.a_subgroupMeans b = Part000.measurements b.
Proof.
  pose proof (individuals_chart (inspected ["5"; "7"; "6"]%string)) as [A B].
  eexists. split; [vm_compute; reflexivity|].
  split; [apply A; vm_compute; reflexivity|].
  split; [apply (A _ ltac:(vm_compute; reflexivity))|].
  eexists. split; [vm_compute; reflexivity|].
  apply B. vm_compute. reflexivity.
Defined.

Lemma pointsFrom_xy xs : forall i,
  map x (pointsFrom i xs) = seq (i + 1) (List.length xs) /\
  map y (pointsFrom i xs) = xs.
Proof.
  induction xs as [|v xs IH]; intros i; simpl; auto.
  destruct (IH (S i)) as [E1 E2]. rewrite E1, E2.
  replace (S (i + 1)) with (S i + 1)%nat by lia. auto.
Qed.

(** The points of both charts are numbered from 1 in the order of the
    subgroups, and carry the subgroup means and the ranges unchanged, in
    both files. *)
Theorem chart_points_are_numbered :
  (forall a,
     map x (xBarData (controlCharts (SpcUtils.report a)))
     = seq 1 (List.length (SpcUtils.xBarValues a)) /\
     map y (xBarData (controlCharts (SpcUtils.report a))) = SpcUtils.xBarValues a /\
     map x (rangeData (controlCharts (SpcUtils.report a)))
     = seq 1 (List.length (SpcUtils.rangeValues a)) /\
     map y (rangeData (controlCharts (SpcUtils.report a))) = SpcUtils.rangeValues a) /\
  (forall a,
     map x (xBarData (controlCharts (Part000.report a)))
     = seq 1 (List.length (Part000.a_subgroupMeans a)) /\
     map y (xBarData (controlCharts (Part000.report a))) = Part000.a_subgroupMeans a /\
     map x (rangeData (controlCharts (Part000.report a)))
     = seq 1 (List.length (Part000.a_subgroupRanges a)) /\
     map y (rangeData (controlCharts (Part000.report a))) = Part000.a_subgroupRanges a).
Proof.
  split; intros a; cbn [xBarData rangeData controlCharts SpcUtils.report Part000.report];
    repeat split; apply pointsFrom_xy.
Qed.

Lemma SpcUtils_measurements_not_NaN ds :
  forallb (fun m => negb (isNaN m)) (SpcUtils.validMeasurements ds) = true.
Proof.
  apply forallb_forall. intros v H. unfold SpcUtils.validMeasurements in H.
  apply filter_In in H. tauto.
Qed.

(** What a returned analysis was computed from.  In [spcUtils.ts] no
    measurement is NaN (an infinite one is let through), the sample size is
    between 1 and the number of measurements, and no measurement was
    invented.  In the second file every measurement and both limits are
    finite, with the same bounds. *)
Theorem validated_values ds sampleSize :
  (forall a, SpcUtils.analysis ds sampleSize = Returns a ->
     forallb (fun m => negb (isNaN m)) (SpcUtils.measurements a) = true /\
     (1 <= sampleSize <= Z.of_nat (List.length (SpcUtils.measurements a)))%Z /\
     (List.length (SpcUtils.measurements a) <= List.length ds)%nat) /\
  (forall a, Part000.analysis ds sampleSize = Returns a ->
     forallb isFinite (Part000.measurements a) = true /\
     isFinite (Part000.a_lsl a) = true /\ isFinite (Part000.a_usl a) = true /\
     (1 <= sampleSize <= Z.of_nat (List.length (Part000.measurements a)))%Z /\
     (List.length (Part000.measurements a) <= List.length ds)%nat).
Proof.
  split; intros a.
  - unfold SpcUtils.analysis.
    destruct (controlChartConstants sampleSize) as [c|] eqn:C; [|discriminate].
    assert (R : (1 <= sampleSize <= 5)%Z).
    { destruct (Z_le_gt_dec 1 sampleSize), (Z_le_gt_dec sampleSize 5); try lia;
        assert (N : controlChartConstants sampleSize = None)
          by (apply constants_defined; lia); congruence. }
    destruct (Z.ltb_spec (Z.of_nat (List.length (SpcUtils.validMeasurements ds))) sampleSize);
      [discriminate|].
    destruct ds as [|first rest] eqn:D; [discriminate|]. rewrite <- D in *.
    intros [= <-]. cbn [SpcUtils.measurements SpcUtils.analyse].
    repeat split; try lia.
    + apply SpcUtils_measurements_not_NaN.
    + unfold SpcUtils.validMeasurements.
      etransitivity; [apply filter_length_le|]. rewrite length_map. lia.
  - intros E. destruct (Part000_validator ds sampleSize a E) as (M & first & F & L & U).
    assert (I : In first (Part000.validData ds)).
    { rewrite firstRetained_filter in F. change (filter allFinite ds) with (Part000.validData ds) in F.
      destruct (Part000.validData ds); [discriminate|]. injection F as ->. simpl. auto. }
    apply Part000_retained in I as (_ & _ & FL & FU).
    rewrite M, L, U. change (filter allFinite ds) with (Part000.validData ds).
    repeat split; auto.
    + apply Part000_measurements_finite.
    + revert E. unfold Part000.analysis.
      destruct (controlChartConstants sampleSize) as [c|] eqn:C; [|discriminate].
      intros _. destruct (Z_le_gt_dec 1 sampleSize); auto.
      assert (N : controlChartConstants sampleSize = None)
          by (apply constants_defined; lia). congruence.
    + revert E. unfold Part000.analysis.
      destruct (controlChartConstants sampleSize) as [c|] eqn:C; [|discriminate].
      destruct (Z.ltb_spec
                  (Z.of_nat (List.length
                     (map (fun d => parseFloat (ActualSpecification d)) (Part000.validData ds))))
                  sampleSize); [discriminate|]. intros _. lia.
    + rewrite length_map. apply filter_length_le.
Qed.

(** The statement above at three records of which the first has no
    measurement and the second no lower limit. *)
Lemma validated_values_witness :
  exists a,
    SpcUtils.analysis mixedRecords 2 = Returns a /\
    (1 <= 2 <= Z.of_nat (List.length (SpcUtils.measurements a)))%Z /\
    exists b,
      Part000.analysis mixedRecords 1 = Returns b /\
      forallb isFinite (Part000.measurements b) = true /\
      isFinite (Part000.a_lsl b) = true.
Proof.
  eexists. split; [vm_compute; reflexivity|].
  split; [apply (proj1 (validated_values mixedRecords 2)); vm_compute; reflexivity|].
  eexists. split; [vm_compute; reflexivity|].
  pose proof (proj2 (validated_values mixedRecords 1) _ ltac:(vm_compute; reflexivity))
    as (F & L & _).
  split; [exact F | exact L].
Defined.

(** * Trends and runs *)

Lemma chained_snoc R u v : forall l,
  chained R (l ++ [u; v]) = chained R (l ++ [u]) && R u v.
Proof.
  induction l as [|a l IH].
  - simpl. rewrite andb_true_r. reflexivity.
  - destruct l as [|b l].
    + simpl. rewrite !andb_true_r. reflexivity.
    + change (chained R ((a :: b :: l) ++ [u; v]))
        with (R a b && chained R ((b :: l) ++ [u; v])).
      change (chained R ((a :: b :: l) ++ [u]))
        with (R a b && chained R ((b :: l) ++ [u])).
      rewrite IH. apply andb_assoc.
Qed.

Lemma chained_rev R : forall l, chained R (rev l) = chained (backwards R) l.
Proof.
  induction l as [|a l IH]; [reflexivity|].
  destruct l as [|b l]; [reflexivity|].
  change (rev (a :: b :: l)) with ((rev l ++ [b]) ++ [a]).
  rewrite <- app_assoc. simpl app. rewrite chained_snoc.
  change (rev l ++ [b]) with (rev (b :: l)). rewrite IH.
  change (chained (backwards R) (a :: b :: l))
    with (backwards R a b && chained (backwards R) (b :: l)).
  unfold backwards at 2. apply andb_comm.
Qed.

Lemma EndsWith_leadingChain R k ys :
  EndsWith R k ys <-> (k <= leadingChain (backwards R) (rev ys))%nat.
Proof.
  split.
  - intros (before & run & -> & <- & C). rewrite rev_app_distr, <- length_rev.
    apply prefix_chain. rewrite <- chained_rev, rev_involutive. exact C.
  - intros H. destruct (chain_prefix _ _ _ H) as (run & after & E & L & C).
    exists (rev after), (rev run). repeat split.
    + rewrite <- rev_app_distr, <- E, rev_involutive. reflexivity.
    + rewrite length_rev. exact L.
    + rewrite chained_rev. exact C.
Qed.

(** The trend counters of [spcUtils.ts] after a point. *)
Lemma SpcUtils_runStep_trend gm c prev cur :
  SpcUtils.consecutiveIncreasing (SpcUtils.runStep gm c prev cur)
  = match prev with
    | None => SpcUtils.consecutiveIncreasing c
    | Some p => if rising p cur then S (SpcUtils.consecutiveIncreasing c) else 0%nat
    end /\
  SpcUtils.consecutiveDecreasing (SpcUtils.runStep gm c prev cur)
  = match prev with
    | None => SpcUtils.consecutiveDecreasing c
    | Some p => if falling p cur then S (SpcUtils.consecutiveDecreasing c) else 0%nat
    end.
Proof.
  unfold SpcUtils.runStep, rising, falling, gt.
  destruct prev as [p|].
  - destruct (cur <? p) eqn:B.
    + rewrite (ltb_asym _ _ B).
      destruct (gm <? cur), (cur <? gm); split; reflexivity.
    + destruct (p <? cur), (gm <? cur), (cur <? gm); split; reflexivity.
  - destruct (gm <? cur), (cur <? gm); split; reflexivity.
Qed.

Lemma SpcUtils_runLoop_snoc gm v : forall ys c prev,
  SpcUtils.runLoop gm c prev (ys ++ [v])
  = SpcUtils.runStep gm (SpcUtils.runLoop gm c prev ys) (last (map Some ys) prev) v.
Proof.
  induction ys as [|a ys IH]; intros c prev; [reflexivity|].
  simpl SpcUtils.runLoop. rewrite IH. f_equal.
  destruct ys as [|b ys]; [reflexivity|]. simpl map.
  change (last (Some a :: Some b :: map Some ys) prev)
    with (last (Some b :: map Some ys) prev).
  clear. revert b. induction ys as [|d ys IH]; intros b; [reflexivity|].
  simpl map.
  change (last (Some b :: Some d :: map Some ys) (Some a))
    with (last (Some d :: map Some ys) (Some a)).
  change (last (Some b :: Some d :: map Some ys) prev)
    with (last (Some d :: map Some ys) prev).
  apply IH.
Qed.

Lemma last_rev_head ys (v : number) prev :
  last (map Some (ys ++ [v])) prev = Some v.
Proof.
  induction ys as [|a ys IH]; [reflexivity|].
  simpl. destruct (map Some (ys ++ [v])) eqn:E; [|exact IH].
  destruct ys; discriminate.
Qed.

Lemma SpcUtils_trailing gm ys :
  ys <> [] ->
  S (SpcUtils.consecutiveIncreasing (SpcUtils.runLoop gm SpcUtils.initialCounters None ys))
  = leadingChain (backwards rising) (rev ys) /\
  S (SpcUtils.consecutiveDecreasing (SpcUtils.runLoop gm SpcUtils.initialCounters None ys))
  = leadingChain (backwards falling) (rev ys).
Proof.
  induction ys as [|v ys IH] using rev_ind; [congruence|]. intros _.
  rewrite SpcUtils_runLoop_snoc.
  destruct (SpcUtils_runStep_trend gm
              (SpcUtils.runLoop gm SpcUtils.initialCounters None ys)
              (last (map Some ys) None) v) as [E1 E2].
  rewrite E1, E2. rewrite rev_app_distr. simpl app.
  destruct ys as [|u ys] using rev_ind; [simpl; auto|]. clear IHys.
  rewrite last_rev_head. destruct IH as [I1 I2]; [destruct ys; discriminate|].
  rewrite rev_app_distr in *. simpl app in *.
  change (leadingChain (backwards rising) (v :: u :: rev ys))
    with (if backwards rising v u then S (leadingChain (backwards rising) (u :: rev ys))
          else 1%nat).
  change (leadingChain (backwards falling) (v :: u :: rev ys))
    with (if backwards falling v u then S (leadingChain (backwards falling) (u :: rev ys))
          else 1%nat).
  unfold backwards at 1 3. rewrite <- I1, <- I2.
  destruct (rising u v), (falling u v); auto.
Qed.

(** In [spcUtils.ts] the trend counters are reset by every point that does
    not continue the trend and are read once, after the loop: the signal is
    "Yes" exactly when the last seven subgroup means rise strictly, each
    above the one before, or fall strictly.  A trend that ended before the
    last point is not reported. *)
Theorem SpcUtils_trend_at_the_end first ms sampleSize constants :
  let a := SpcUtils.analyse first ms sampleSize constants in
  sixConsecutiveTrend (ssAnalysis (SpcUtils.report a)) = "Yes"%string <->
  EndsWith rising 7 (SpcUtils.xBarValues a) \/ EndsWith falling 7 (SpcUtils.xBarValues a).
Proof.
  cbn [SpcUtils.report sixConsecutiveTrend ssAnalysis SpcUtils.analyse SpcUtils.counters
       SpcUtils.xBarValues].
  set (ys := SpcUtils.calculateSubgroupXBar ms sampleSize).
  set (gm := match SpcUtils.calculateMean ys with Some m => m | None => 0 end).
  rewrite !EndsWith_leadingChain.
  assert (H : SpcUtils.hasSixConsecutiveTrend
                (SpcUtils.runLoop gm SpcUtils.initialCounters None ys) = true <->
              (7 <= leadingChain (backwards rising) (rev ys))%nat \/
              (7 <= leadingChain (backwards falling) (rev ys))%nat).
  { unfold SpcUtils.hasSixConsecutiveTrend. rewrite orb_true_iff, !Nat.leb_le.
    destruct ys as [|y ys'] eqn:Y.
    - simpl. lia.
    - rewrite <- Y. destruct (SpcUtils_trailing gm ys) as [E1 E2]; [rewrite Y; discriminate|].
      rewrite <- E1, <- E2. lia. }
  rewrite <- H.
  destruct (SpcUtils.hasSixConsecutiveTrend _); split; intros; try reflexivity; discriminate.
Qed.

(** The points of the class [b]: strictly above the mean, or not. *)
Lemma class_leading (mean : number) (b : bool) (v : number) (ys : list number) :
  leading (if b then above mean else notAbove mean) (v :: ys)
  = (if Bool.eqb (gt v mean) b
     then S (leading (if b then above mean else notAbove mean) ys) else 0%nat).
Proof.
  unfold notAbove, above. simpl. destruct b, (gt v mean); reflexivity.
Qed.

Lemma Part000_runs_fold mean ys : forall s b,
  Part000.prevAboveMean s = Some b ->
  Part000.s_maxRunLength (Part000.closeRuns (fold_left (Part000.runStep mean) ys s))
  = Nat.max (Part000.s_maxRunLength s)
      (Nat.max (Part000.currentRun s + leading (if b then above mean else notAbove mean) ys)
         (Nat.max (longestStreak (above mean) ys) (longestStreak (notAbove mean) ys))).
Proof.
  induction ys as [|v ys IH]; intros s b P.
  - simpl. unfold Part000.closeRuns. rewrite P. simpl. lia.
  - simpl fold_left.
    change (longestStreak (above mean) (v :: ys))
      with (Nat.max (leading (above mean) (v :: ys)) (longestStreak (above mean) ys)).
    change (longestStreak (notAbove mean) (v :: ys))
      with (Nat.max (leading (notAbove mean) (v :: ys)) (longestStreak (notAbove mean) ys)).
    pose proof (class_leading mean true v ys) as LT.
    pose proof (class_leading mean false v ys) as LF.
    cbv iota in LT, LF.
    pose proof (leading_le_longest (above mean) ys).
    pose proof (leading_le_longest (notAbove mean) ys).
    unfold Part000.runStep at 2. rewrite P.
    destruct (Bool.eqb (gt v mean) b) eqn:E.
    + rewrite (IH _ b) by reflexivity. cbn [Part000.s_maxRunLength Part000.currentRun].
      apply eqb_prop in E. rewrite E in LT, LF.
      destruct b; simpl Bool.eqb in LT, LF; rewrite LT, LF; simpl leading; lia.
    + rewrite (IH _ (gt v mean)) by reflexivity.
      cbn [Part000.s_maxRunLength Part000.currentRun].
      destruct b, (gt v mean); try discriminate; simpl Bool.eqb in LT, LF;
        rewrite LT, LF; simpl leading; lia.
Qed.

Lemma Part000_maxRunLength ys r :
  Part000.analyzeRuns ys = Some r ->
  exists mean,
    Part000.calculateMean ys = Some mean /\
    Part000.maxRunLength r
    = Nat.max (longestStreak (above mean) ys) (longestStreak (notAbove mean) ys).
Proof.
  unfold Part000.analyzeRuns. destruct ys as [|y ys]; [discriminate|].
  destruct (Part000.calculateMean (y :: ys)) as [mean|]; [|discriminate].
  intros [= <-]. exists mean. split; [reflexivity|]. cbn [Part000.maxRunLength].
  simpl fold_left. unfold Part000.runStep at 2. cbn [Part000.prevAboveMean].
  rewrite (Part000_runs_fold mean ys _ (gt y mean)) by reflexivity.
  cbn [Part000.s_maxRunLength Part000.currentRun].
  change (longestStreak (above mean) (y :: ys))
    with (Nat.max (leading (above mean) (y :: ys)) (longestStreak (above mean) ys)).
  change (longestStreak (notAbove mean) (y :: ys))
    with (Nat.max (leading (notAbove mean) (y :: ys)) (longestStreak (notAbove mean) ys)).
  pose proof (class_leading mean true y ys) as LT.
  pose proof (class_leading mean false y ys) as LF.
  cbv iota in LT, LF. rewrite LT, LF.
  pose proof (leading_le_longest (above mean) ys).
  pose proof (leading_le_longest (notAbove mean) ys).
  destruct (gt y mean); simpl Bool.eqb; cbv iota; lia.
Qed.

(** In the second file a point is classed as strictly above the grand mean
    or not, and a run is a stretch of points of one class: when [analyzeRuns]
    has a result, the run signal is "Yes" exactly when eight consecutive
    subgroup means are all strictly above the grand mean, or eight
    consecutive ones are all not above it (below it or on it); and the
    process shift is "Present" exactly then. *)
Theorem Part000_run_of_eight first ms sampleSize constants :
  let a := Part000.analyse first ms sampleSize constants in
  Part000.analyzeRuns (Part000.a_subgroupMeans a) <> None ->
  (eightConsecutivePoints (ssAnalysis (Part000.report a)) = "Yes"%string <->
   Streak (above (Part000.grandMean a)) 8 (Part000.a_subgroupMeans a) \/
   Streak (notAbove (Part000.grandMean a)) 8 (Part000.a_subgroupMeans a)) /\
  (processShift (processInterpretation (Part000.report a)) = "Present"%string <->
   eightConsecutivePoints (ssAnalysis (Part000.report a)) = "Yes"%string).
Proof.
  cbn [Part000.report eightConsecutivePoints ssAnalysis processShift processInterpretation
       Part000.analyse Part000.runs Part000.a_subgroupMeans Part000.grandMean].
  set (ys := Part000.subgroupMeans ms sampleSize).
  destruct (Part000.analyzeRuns ys) as [r|] eqn:E; [|congruence]. intros _.
  destruct (Part000_maxRunLength ys r E) as (mean & M & L). rewrite M, L.
  rewrite <- !longestStreak_Streak.
  destruct (Nat.leb_spec 8 (Nat.max (longestStreak (above mean) ys)
                                    (longestStreak (notAbove mean) ys)));
    repeat split; intros; try reflexivity; try discriminate; lia.
Qed.

(** The statement above at eight equal measurements, none of them above
    their mean. *)
Lemma Part000_run_of_eight_witness :
  let a := Part000.analyse
             {| ActualSpecification := "5"; FromSpecification := "5";
                ToSpecification := "15" |}
             [5; 5; 5; 5; 5; 5; 5; 5] 1
             {| A2 := 2.66; D3 := 0; D4 := 3.267; d2 := 1.128 |} in
  Part000.analyzeRuns (Part000.a_subgroupMeans a) <> None /\
  (eightConsecutivePoints (ssAnalysis (Part000.report a)) = "Yes"%string <->
   Streak (above (Part000.grandMean a)) 8 (Part000.a_subgroupMeans a) \/
   Streak (notAbove (Part000.grandMean a)) 8 (Part000.a_subgroupMeans a)).
Proof.
  intros a.
  assert (H : Part000.analyzeRuns (Part000.a_subgroupMeans a) <> None)
    by (vm_compute; discriminate).
  split; [exact H|].
  apply (Part000_run_of_eight
           {| ActualSpecification := "5"; FromSpecification := "5";
              ToSpecification := "15" |}
           [5; 5; 5; 5; 5; 5; 5; 5] 1
           {| A2 := 2.66; D3 := 0; D4 := 3.267; d2 := 1.128 |} H).
Defined.

(** * The verdicts *)

Lemma SFleb_trans x y z :
  SFleb x y = true -> SFleb y z = true -> SFleb x z = true.
Proof.
  unfold SFleb.
  destruct x as [sx|sx| |sx mx ex], y as [sy|sy| |sy my ey], z as [sz|sz| |sz mz ez];
    simpl; try discriminate; try reflexivity;
    try (destruct sx; simpl; congruence);
    try (destruct sy; simpl; congruence);
    try (destruct sz; simpl; congruence);
    try (destruct sx, sy; simpl; congruence);
    try (destruct sy, sz; simpl; congruence);
    try (destruct sx, sz; simpl; congruence);
    try (destruct sx, sy, sz; simpl; congruence).
  all: destruct sx, sy, sz; simpl; try congruence.
  all: change (PosDef.Pos.compare_cont Eq) with Pos.compare.
  all: destruct (Z.compare_spec ex ey), (Z.compare_spec ey ez), (Z.compare_spec ex ez);
    try lia; try congruence; subst.
  all: destruct (Pos.compare_spec mx my), (Pos.compare_spec my mz), (Pos.compare_spec mx mz);
    simpl; try lia; try congruence.
Qed.

Lemma leb_trans a b c : (a <=? b) = true -> (b <=? c) = true -> (a <=? c) = true.
Proof. rewrite !leb_spec. apply SFleb_trans. Qed.

Lemma ltb_not_leb a b : (a <? b) = true -> (b <=? a) = false.
Proof.
  rewrite ltb_spec, leb_spec. unfold SFltb, SFleb.
  destruct (SFcompare (Prim2SF a) (Prim2SF b)) as [c|] eqn:E; try discriminate.
  rewrite (SFcompare_antisym _ _ _ E). destruct c; simpl; congruence.
Qed.

Lemma not_leb_ltb a b :
  isNaN a = false -> isNaN b = false -> (b <=? a) = false -> (a <? b) = true.
Proof.
  rewrite !isNaN_spec, ltb_spec, leb_spec. unfold SFltb, SFleb. intros Na Nb.
  destruct (SFcompare (Prim2SF b) (Prim2SF a)) as [c|] eqn:E.
  - rewrite (SFcompare_antisym _ _ _ E). destruct c; simpl; congruence.
  - destruct (Prim2SF a) as [[]|[]| |[] ? ?], (Prim2SF b) as [[]|[]| |[] ? ?];
      simpl in *; congruence.
Qed.

(** The tiers of an index: a value that reaches a threshold reaches the
    lower ones. *)
Lemma tiers c :
  ((1.67 <=? c) = true -> (1.45 <=? c) = true) /\
  ((1.45 <=? c) = true -> (1.33 <=? c) = true) /\
  ((1.33 <=? c) = true -> (1.0 <=? c) = true) /\
  ((c <? 1) = true -> (1.0 <=? c) = false).
Proof.
  repeat split; intros H.
  - apply (leb_trans 1.45 1.67 c); [reflexivity | exact H].
  - apply (leb_trans 1.33 1.45 c); [reflexivity | exact H].
  - apply (leb_trans 1.0 1.33 c); [reflexivity | exact H].
  - apply ltb_not_leb in H. exact H.
Qed.

Ltac tier_cases c :=
  destruct (tiers c) as (T1 & T2 & T3 & T4);
  unfold ge;
  destruct (1.67 <=? c) eqn:E1, (1.45 <=? c) eqn:E2, (1.33 <=? c) eqn:E3,
    (1.0 <=? c) eqn:E4;
  try (specialize (T1 eq_refl); discriminate);
  try (specialize (T2 eq_refl); discriminate);
  try (specialize (T3 eq_refl); discriminate).

(** The verdicts of one report agree with each other, in both files.  The
    process performance is "Excellent" exactly with the three best decision
    remarks, "Good" exactly with the fourth and "Poor" exactly with the
    last, since both are read from the same Cpk on nested thresholds.  A
    process spread of "Yes" (Cp below 1) comes with a process potential of
    "Poor".  In [spcUtils.ts] a "Stable" process has no shift, no run of
    eight and no point outside the limits; in the second file the process
    shift is "Present" exactly when the run signal is "Yes". *)
Theorem verdicts_agree :
  (forall a,
     let r := SpcUtils.report a in
     (processPerformance (processInterpretation r) = "Excellent"%string <->
      decisionRemark (processInterpretation r) = "Process Excellent"%string \/
      decisionRemark (processInterpretation r)
      = "Process is more capable, Scope for Further Improvement"%string \/
      decisionRemark (processInterpretation r)
      = "Process is capable, Scope for Further Improvement"%string) /\
     (processPerformance (processInterpretation r) = "Good"%string <->
      decisionRemark (processInterpretation r)
      = "Process is slightly capable, need 100% inspection"%string) /\
     (processPerformance (processInterpretation r) = "Poor"%string <->
      decisionRemark (processInterpretation r)
      = "Stop Process change, process design"%string) /\
     (processSpread (ssAnalysis r) = "Yes"%string ->
      processPotential (processInterpretation r) = "Poor"%string) /\
     (processStability (processInterpretation r) = "Stable"%string ->
      processShift (processInterpretation r) = "Not Detected"%string /\
      eightConsecutivePoints (ssAnalysis r) = "No"%string /\
      pointsOutsideLimits (ssAnalysis r) = "None"%string)) /\
  (forall a,
     let r := Part000.report a in
     (processPerformance (processInterpretation r) = "Excellent"%string <->
      decisionRemark (processInterpretation r) = "Process Excellent"%string \/
      decisionRemark (processInterpretation r) = "Process more capable, improve"%string \/
      decisionRemark (processInterpretation r) = "Process capable"%string) /\
     (processPerformance (processInterpretation r) = "Good"%string <->
      decisionRemark (processInterpretation r) = "Slightly capable"%string) /\
     (processPerformance (processInterpretation r) = "Poor"%string <->
      decisionRemark (processInterpretation r) = "Stop and fix"%string) /\
     (processSpread (ssAnalysis r) = "Yes"%string ->
      processPotential (processInterpretation r) = "Poor"%string) /\
     (processShift (processInterpretation r) = "Present"%string <->
      eightConsecutivePoints (ssAnalysis r) = "Yes"%string)).
Proof.
  split; intros a r; subst r.
  - cbn [SpcUtils.report processPerformance processInterpretation decisionRemark
         processSpread ssAnalysis processPotential processStability processShift
         eightConsecutivePoints pointsOutsideLimits].
    repeat split.
    1-6: tier_cases (SpcUtils.a_cpk a); intros; try reflexivity; try discriminate; auto;
      try (repeat match goal with H : _ \/ _ |- _ => destruct H end; discriminate).
    + destruct (tiers (SpcUtils.a_cp a)) as (T1 & T2 & T3 & T4). unfold ge.
      destruct (SpcUtils.a_cp a <? 1) eqn:E; [|discriminate].
      rewrite (T4 eq_refl).
      destruct (1.33 <=? SpcUtils.a_cp a) eqn:E3; [|reflexivity].
      rewrite (T3 eq_refl) in T4. specialize (T4 eq_refl). discriminate.
    + destruct (SpcUtils.pointsOutsideXBarLimits a), (SpcUtils.hasEightConsecutive _);
        simpl in *; try discriminate; reflexivity.
    + destruct (SpcUtils.pointsOutsideXBarLimits a), (SpcUtils.hasEightConsecutive _);
        simpl in *; try discriminate; reflexivity.
    + destruct (SpcUtils.pointsOutsideXBarLimits a), (SpcUtils.hasEightConsecutive _);
        simpl in *; try discriminate; reflexivity.
  - cbn [Part000.report processPerformance processInterpretation decisionRemark
         processSpread ssAnalysis processPotential processShift eightConsecutivePoints].
    repeat split.
    1-6: tier_cases (Part000.a_cpk a); intros; try reflexivity; try discriminate; auto;
      try (repeat match goal with H : _ \/ _ |- _ => destruct H end; discriminate).
    + destruct (tiers (Part000.a_cp a)) as (T1 & T2 & T3 & T4). unfold ge.
      destruct (Part000.a_cp a <? 1) eqn:E; [|discriminate].
      rewrite (T4 eq_refl).
      destruct (1.33 <=? Part000.a_cp a) eqn:E3; [|reflexivity].
      rewrite (T3 eq_refl) in T4. specialize (T4 eq_refl). discriminate.
    + destruct (8 <=? _)%nat; intros; try reflexivity; discriminate.
    + destruct (8 <=? _)%nat; intros; try reflexivity; discriminate.
Qed.

(** * The sign of the estimates *)

Lemma notneg_spec v : (v <? 0) = negb (sf_notneg (Prim2SF v)).
Proof.
  rewrite ltb_spec. change (Prim2SF 0) with (S754_zero false). unfold SFltb.
  destruct (Prim2SF v) as [[]|[]| |[] ? ?]; reflexivity.
Qed.

Lemma signed_false_plus r : signed_as false r -> sf_plus r = true.
Proof. destruct r as [[]|[]| |[] ? ?]; simpl; auto; try discriminate; tauto. Qed.

Lemma ofNat_plus n : sf_plus (Prim2SF (ofNat n)) = true.
Proof.
  unfold ofNat. rewrite of_uint63_spec.
  pose proof (Uint63.to_Z_bounded (Uint63.of_Z (Z.of_nat n))) as [H _].
  pose proof (binary_normalize_nonneg _ 0 H) as B.
  destruct (binary_normalize prec emax _ 0 false) as [[]|[]| |[] ? ?]; simpl in *; try reflexivity; contradiction.
Qed.

Lemma SFadd_nonneg x y :
  sf_nonneg x = true -> sf_nonneg y = true -> sf_nonneg (SFadd prec emax x y) = true.
Proof.
  destruct x as [[]|[]| |[] mx ex], y as [[]|[]| |[] my ey]; simpl; try discriminate; auto.
  intros _ _.
  match goal with
  | |- context [binary_round prec emax false ?m ?e] =>
      pose proof (binary_round_signed false m e) as S;
      destruct (binary_round prec emax false m e) as [[]|[]| |[] ? ?]
  end; simpl in *; auto; discriminate.
Qed.

Lemma sum_nonneg xs : forall acc,
  (0 <=? acc) = true -> (forall v, In v xs -> (0 <=? v) = true) ->
  (0 <=? fold_left add xs acc) = true.
Proof.
  induction xs as [|v xs IH]; intros acc A H; simpl; auto.
  apply IH; [|intros; apply H; simpl; auto].
  specialize (H v (or_introl eq_refl)).
  rewrite nonneg_spec in *. rewrite add_spec. apply SFadd_nonneg; auto.
Qed.

Lemma SFdiv_notneg x y :
  sf_notneg x = true -> sf_plus y = true -> sf_notneg (SFdiv prec emax x y) = true.
Proof.
  destruct x as [[]|[]| |[] mx ex], y as [[]|[]| |[] my ey]; simpl; try discriminate; auto.
  intros _ _. unfold SFdiv_core_binary.
  set (e' := Z.min _ _). set (m' := match (ex - ey - e')%Z with Zpos _ => _ | _ => _ end).
  assert (M : (0 <= m')%Z).
  { unfold m'. destruct (ex - ey - e')%Z; try lia. apply Z.shiftl_nonneg. lia. }
  pose proof (Z.div_pos m' (Zpos my) M ltac:(lia)) as Q.
  unfold Z.div in Q. destruct (Z.div_eucl m' (Zpos my)) as [q r].
  pose proof (binary_round_aux_signed false q e' (new_location (Zpos my) r) Q) as S.
  destruct (binary_round_aux prec emax false q e' _) as [[]|[]| |[] ? ?];
    simpl in *; auto; discriminate.
Qed.

Lemma SFmul_notneg x y :
  sf_plus x = true -> sf_notneg y = true -> sf_notneg (SFmul prec emax x y) = true.
Proof.
  destruct x as [[]|[]| |[] mx ex], y as [[]|[]| |[] my ey]; simpl; try discriminate; auto.
  intros _ _.
  pose proof (binary_round_aux_signed false (Zpos (mx * my)) (ex + ey) loc_Exact ltac:(lia)) as S.
  destruct (binary_round_aux prec emax false _ _ _) as [[]|[]| |[] ? ?];
    simpl in *; auto; discriminate.
Qed.

Lemma SFsqrt_notneg x : sf_notneg (SFsqrt prec emax x) = true.
Proof.
  destruct x as [[]|[]| |[] mx ex]; simpl; auto.
  unfold SFsqrt_core_binary.
  set (e' := Z.min _ _). set (m' := match (ex - 2 * e')%Z with Zpos _ => _ | _ => _ end).
  assert (M : (0 <= m')%Z).
  { unfold m'. destruct (ex - 2 * e')%Z; try lia. apply Z.shiftl_nonneg. lia. }
  pose proof (Z.sqrtrem_sqrt m') as Q. pose proof (Z.sqrt_nonneg m') as P.
  destruct (Z.sqrtrem m') as [q r]. simpl in Q. subst q.
  match goal with
  | |- context [binary_round_aux prec emax false ?q ?e ?l] =>
      pose proof (binary_round_aux_signed false q e l P) as S;
      destruct (binary_round_aux prec emax false q e l) as [[]|[]| |[] ? ?]
  end; simpl in *; auto; discriminate.
Qed.

Lemma sqrt_notneg v : (sqrt v <? 0) = false.
Proof. rewrite notneg_spec, sqrt_spec. unfold SF64sqrt. rewrite SFsqrt_notneg. reflexivity. Qed.

Lemma nonneg_notneg s : sf_nonneg s = true -> sf_notneg s = true.
Proof. destruct s; simpl; auto. Qed.

(** The mean of values that are at least zero is not negative. *)
Lemma mean_notneg xs :
  (forall v, In v xs -> (0 <=? v) = true) ->
  (sum xs / ofNat (List.length xs) <? 0) = false.
Proof.
  intros H. rewrite notneg_spec, div_spec. unfold SF64div.
  rewrite SFdiv_notneg; auto using ofNat_plus.
  apply nonneg_notneg. rewrite <- nonneg_spec. apply sum_nonneg; auto.
Qed.

Lemma div_notneg a b : (a <? 0) = false -> sf_plus (Prim2SF b) = true -> (a / b <? 0) = false.
Proof.
  rewrite !notneg_spec, div_spec. unfold SF64div. intros A B.
  rewrite SFdiv_notneg; auto. destruct (sf_notneg (Prim2SF a)); auto.
Qed.

Lemma mul_notneg a b : sf_plus (Prim2SF a) = true -> (b <? 0) = false -> (a * b <? 0) = false.
Proof.
  rewrite !notneg_spec, mul_spec. unfold SF64mul. intros A B.
  rewrite SFmul_notneg; auto. destruct (sf_notneg (Prim2SF b)); auto.
Qed.

Lemma constants_plus sampleSize c :
  controlChartConstants sampleSize = Some c ->
  sf_plus (Prim2SF (A2 c)) = true /\ sf_plus (Prim2SF (D4 c)) = true /\
  sf_plus (Prim2SF (d2 c)) = true.
Proof.
  intros E.
  assert (R : (1 <= sampleSize <= 5)%Z).
  { destruct (Z_le_gt_dec 1 sampleSize), (Z_le_gt_dec sampleSize 5); try lia;
      assert (N : controlChartConstants sampleSize = None)
        by (apply constants_defined; lia); congruence. }
  assert (C : sampleSize = 1%Z \/ sampleSize = 2%Z \/ sampleSize = 3%Z \/
              sampleSize = 4%Z \/ sampleSize = 5%Z) by lia.
  destruct C as [-> | [-> | [-> | [-> | ->]]]]; injection E as <-;
    repeat split; vm_compute; reflexivity.
Qed.

Lemma SpcUtils_stdDev_notneg ms mean :
  (match SpcUtils.calculateStdDev ms mean with Some s => s | None => 0 end <? 0) = false.
Proof.
  unfold SpcUtils.calculateStdDev. destruct ms; [reflexivity|].
  destruct (match mean with Some m => Some m | None => _ end); [|reflexivity].
  destruct (SpcUtils.calculateMean _); [apply sqrt_notneg | reflexivity].
Qed.

Lemma Part000_stdDev_notneg ms mean :
  (match Part000.calculateStdDev ms mean with Some s => s | None => 0 end <? 0) = false.
Proof.
  unfold Part000.calculateStdDev. destruct ms; [reflexivity|].
  destruct (match mean with Some m => Some m | None => _ end); [|reflexivity].
  destruct (Part000.calculateMean _); [apply sqrt_notneg | reflexivity].
Qed.

Lemma SpcUtils_mean_notneg xs :
  (forall v, In v xs -> (0 <=? v) = true) ->
  (match SpcUtils.calculateMean xs with Some m => m | None => 0 end <? 0) = false.
Proof.
  intros H. unfold SpcUtils.calculateMean. destruct xs eqn:E; [reflexivity|].
  rewrite <- E in *. apply mean_notneg, H.
Qed.

Lemma Part000_mean_notneg xs :
  (forall v, In v xs -> (0 <=? v) = true) ->
  (match Part000.calculateMean xs with Some m => m | None => 0 end <? 0) = false.
Proof.
  intros H. unfold Part000.calculateMean. destruct xs eqn:E; [reflexivity|].
  rewrite <- E in *. destruct (filter isFinite xs) eqn:F; [reflexivity|].
  rewrite <- F. apply mean_notneg. intros v I. apply filter_In in I. apply H. tauto.
Qed.

(** No estimate of spread is negative.  The overall standard deviation is
    never below zero, in both files and on every input.  In the second
    file, whose measurements are finite, the average range, the within
    standard deviation and the upper range limit are never below zero
    either; in [spcUtils.ts] the same holds when the measurements are
    finite. *)
Theorem estimates_are_never_negative ds sampleSize :
  (forall a, SpcUtils.analysis ds sampleSize = Returns a ->
     (SpcUtils.stdDev a <? 0) = false /\
     (forallb isFinite (SpcUtils.measurements a) = true ->
      (SpcUtils.a_avgRange a <? 0) = false /\
      (SpcUtils.withinStdDev a <? 0) = false /\
      (SpcUtils.a_rangeUcl a <? 0) = false)) /\
  (forall a, Part000.analysis ds sampleSize = Returns a ->
     (Part000.stdDev a <? 0) = false /\
     (Part000.a_avgRange a <? 0) = false /\
     (Part000.withinStdDev a <? 0) = false /\
     (Part000.a_rangeUcl a <? 0) = false).
Proof.
  split; intros a.
  - unfold SpcUtils.analysis.
    destruct (controlChartConstants sampleSize) as [c|] eqn:C; [|discriminate].
    destruct (constants_plus _ _ C) as (_ & PD4 & Pd2).
    destruct (_ <? _)%Z; [discriminate|].
    destruct ds as [|first rest]; [discriminate|].
    set (ms := SpcUtils.validMeasurements (first :: rest)). clearbody ms.
    intros [= <-].
    cbn [SpcUtils.stdDev SpcUtils.measurements SpcUtils.a_avgRange SpcUtils.withinStdDev
         SpcUtils.a_rangeUcl SpcUtils.analyse].
    split; [apply SpcUtils_stdDev_notneg|]. intros F.
    assert (A : (match SpcUtils.calculateMean (SpcUtils.calculateSubgroupRanges ms sampleSize)
                 with Some m => m | None => 0 end <? 0) = false).
    { apply SpcUtils_mean_notneg. intros v. apply SpcUtils_ranges_nonneg, F. }
    repeat split; auto using div_notneg, mul_notneg.
  - unfold Part000.analysis.
    destruct (controlChartConstants sampleSize) as [c|] eqn:C; [|discriminate].
    destruct (constants_plus _ _ C) as (_ & PD4 & Pd2).
    destruct (_ <? _)%Z; [discriminate|].
    pose proof (Part000_measurements_finite ds) as F.
    destruct (Part000.validData ds) as [|first rest]; [discriminate|].
    set (ms := map _ (first :: rest)) in *. clearbody ms.
    intros [= <-].
    cbn [Part000.stdDev Part000.measurements Part000.a_avgRange Part000.withinStdDev
         Part000.a_rangeUcl Part000.analyse].
    assert (A : (match Part000.calculateMean (Part000.subgroupRanges ms sampleSize)
                 with Some m => m | None => 0 end <? 0) = false).
    { apply Part000_mean_notneg. intros v. apply Part000_ranges_nonneg, F. }
    repeat split; auto using div_notneg, mul_notneg, Part000_stdDev_notneg.
    destruct (sampleSize =? 1)%Z; auto using div_notneg.
Qed.

(** The statement above at the measurements 5, 7, 6 with sample size 1. *)
Lemma estimates_are_never_negative_witness :
  exists a,
    SpcUtils.analysis (inspected ["5"; "7"; "6"]%string) 1 = Returns a /\
    forallb isFinite (SpcUtils.measurements a) = true /\
    (SpcUtils.stdDev a <? 0) = false /\
    (SpcUtils.a_avgRange a <? 0) = false /\
    exists b,
      Part000.analysis (inspected ["5"; "7"; "6"]%string) 1 = Returns b /\
      (Part000.a_rangeUcl b <? 0) = false.
Proof.
  pose proof (estimates_are_never_negative (inspected ["5"; "7"; "6"]%string) 1) as [A B].
  eexists. split; [vm_compute; reflexivity|].
  split; [vm_compute; reflexivity|].
  split; [apply A; vm_compute; reflexivity|].
  split; [apply (A _ ltac:(vm_compute; reflexivity)); vm_compute; reflexivity|].
  eexists. split; [vm_compute; reflexivity|].
  apply (B _ ltac:(vm_compute; reflexivity)).
Defined.

(** * The histogram of a constant series *)

Lemma ltb_irrefl v : (v <? v) = false.
Proof. destruct (v <? v) eqn:E; auto. rewrite (ltb_asym _ _ E) in E. discriminate. Qed.

Lemma max2_same v : isFinite v = true -> max2 v v = v.
Proof.
  intros F. unfold max2. rewrite (isFinite_not_NaN _ F), ltb_irrefl. simpl.
  destruct (get_sign v); reflexivity.
Qed.

Lemma maxOf_repeat v k : isFinite v = true -> maxOf (repeat v (S k)) = v.
Proof.
  intros F. unfold maxOf. simpl. rewrite (max2_start v F).
  induction k as [|k IH]; simpl; auto. rewrite (max2_same v F). exact IH.
Qed.

Lemma eqb_refl_finite v : isFinite v = true -> (v =? v) = true.
Proof.
  intros F. pose proof (isFinite_not_NaN _ F) as N. unfold isNaN, is_nan in N.
  destruct (v =? v); auto.
Qed.

Lemma filter_none {A} (f : A -> bool) xs :
  (forall v, In v xs -> f v = false) -> filter f xs = [].
Proof.
  induction xs as [|v xs IH]; simpl; auto. intros H.
  rewrite (H v) by auto. apply IH. intros; apply H; auto.
Qed.

Lemma filter_repeat_all {A} (f : A -> bool) v n :
  f v = true -> filter f (repeat v n) = repeat v n.
Proof. intros H. induction n; simpl; auto. rewrite H, IHn. reflexivity. Qed.

Lemma filter_repeat_none {A} (f : A -> bool) v n :
  f v = false -> filter f (repeat v n) = [].
Proof. intros H. induction n; simpl; auto. rewrite H. exact IHn. Qed.

Lemma nth_last_bin m c j :
  nth j (repeat 0%nat m ++ [c]) 0%nat = if (j =? m)%nat then c else 0%nat.
Proof.
  revert j. induction m as [|m IH]; intros [|j]; simpl; auto.
  destruct j; reflexivity.
Qed.

(** A series of [k + 1] equal finite measurements: the bin width is zero,
    and since a value equal to the maximum is counted in the last bin
    before any quotient is taken, all the measurements are counted there
    and the other bins are empty, in both files and whatever the limits. *)
Theorem constant_series_histogram v k lsl usl :
  isFinite v = true ->
  let xs := repeat v (S k) in
  let counts := repeat 0%nat (ceilSqrt (S k) - 1) ++ [S k] in
  (exists d, SpcUtils.calculateDistributionData xs lsl usl = Some d /\
             map barY (data d) = counts) /\
  (exists d, Part000.calculateDistributionData xs lsl usl = Some d /\
             map barY (data d) = counts).
Proof.
  intros F xs counts.
  assert (NE : xs <> []) by discriminate.
  assert (M : maxOf xs = v) by (apply maxOf_repeat, F).
  assert (P : (1 <= ceilSqrt (S k))%nat) by (apply ceilSqrt_pos; lia).
  assert (Lx : List.length xs = S k) by apply repeat_length.
  assert (Q : (v =? v) = true) by (apply eqb_refl_finite, F).
  split.
  - destruct (SpcUtils_distribution_some xs lsl usl NE) as (d & E & C).
    exists d. split; [exact E|]. cbv zeta in C. rewrite C. clear C E.
    rewrite M, Lx.
    set (binCount := ceilSqrt (S k)) in *.
    set (binWidth := (v - minOf xs) / ofNat binCount).
    set (binStart := min2 (minOf xs) lsl).
    destruct (binning_fold binCount
                (SpcUtils.binStep v binStart binWidth binCount)
                (countedA v binStart binWidth binCount)
                (binA v binStart binWidth binCount)
                (fun bins v0 L => SpcUtils_binStep v binStart binWidth binCount P bins v0 L)
                xs (repeat 0%nat binCount) (repeat_length _ _)) as (L & _ & N).
    rewrite bars_counts by (rewrite L, length_map, length_seq; lia).
    apply (nth_ext _ _ 0%nat 0%nat).
    + rewrite L. unfold counts. rewrite length_app, repeat_length. simpl. lia.
    + intros j _. rewrite N, nth_repeat_zero, Nat.add_0_l. unfold counts. rewrite nth_last_bin.
      unfold xs. destruct (Nat.eqb_spec j (binCount - 1)) as [->|D].
      * rewrite filter_repeat_all; [apply repeat_length|].
        unfold binA. rewrite Q. apply Nat.eqb_refl.
      * rewrite filter_repeat_none; [reflexivity|].
        unfold binA. rewrite Q. apply Nat.eqb_neq, D.
  - destruct (Part000_distribution_some xs lsl usl NE) as (d & E & C).
    exists d. split; [exact E|]. cbv zeta in C. rewrite C. clear C E.
    rewrite M, Lx.
    set (binCount := ceilSqrt (S k)) in *.
    set (binWidth := (v - minOf xs) / ofNat binCount).
    set (binStart := min2 (minOf xs) lsl).
    destruct (binning_fold binCount
                (Part000.binStep v binStart binWidth binCount)
                (countedB v binStart binWidth binCount)
                (binB v binStart binWidth binCount)
                (fun bins v0 L => Part000_binStep v binStart binWidth binCount P bins v0 L)
                xs (repeat 0%nat binCount) (repeat_length _ _)) as (L & _ & N).
    rewrite bars_counts by (rewrite L, length_map, length_seq; lia).
    apply (nth_ext _ _ 0%nat 0%nat).
    + rewrite L. unfold counts. rewrite length_app, repeat_length. simpl. lia.
    + intros j _. rewrite N, nth_repeat_zero, Nat.add_0_l. unfold counts. rewrite nth_last_bin.
      unfold xs. destruct (Nat.eqb_spec j (binCount - 1)) as [->|D].
      * rewrite filter_repeat_all; [apply repeat_length|].
        unfold binB, binA. rewrite F, Q. apply Nat.eqb_refl.
      * rewrite filter_repeat_none; [reflexivity|].
        unfold binB, binA. rewrite F, Q. apply Nat.eqb_neq, D.
Qed.

(** The statement above at eight measurements 5: three bins, the last with
    all eight. *)
Lemma constant_series_histogram_witness :
  isFinite 5 = true /\
  exists d,
    SpcUtils.calculateDistributionData (repeat 5 8) 5 15 = Some d /\
    map barY (data d) = [0; 0; 8]%nat.
Proof.
  assert (F : isFinite 5 = true) by reflexivity.
  split; [exact F|].
  exact (proj1 (constant_series_histogram 5 7 5 15 F)).
Defined.

(** * The fallbacks *)

Lemma SpcUtils_calculateMean_none xs : SpcUtils.calculateMean xs = None <-> xs = [].
Proof. destruct xs; simpl; split; congruence. Qed.

Lemma slices_head sampleSize v xs :
  exists rest,
    slices sampleSize (v :: xs) = firstn (Z.to_nat sampleSize) (v :: xs) :: rest.
Proof. unfold slices. simpl. eexists. reflexivity. Qed.

Lemma SpcUtils_xBar_nonempty ms sampleSize :
  (1 <= sampleSize)%Z -> ms <> [] -> SpcUtils.calculateSubgroupXBar ms sampleSize <> [].
Proof.
  intros Hs NE. unfold SpcUtils.calculateSubgroupXBar.
  destruct (sampleSize =? 1)%Z; auto.
  destruct ms as [|v xs]; [congruence|].
  destruct (slices_head sampleSize v xs) as (rest & ->).
  destruct (Z.to_nat sampleSize) eqn:E; [lia|]. simpl. discriminate.
Qed.

Lemma SpcUtils_ranges_empty ms sampleSize :
  (1 <= sampleSize <= Z.of_nat (List.length ms))%Z ->
  SpcUtils.calculateSubgroupRanges ms sampleSize = [] <->
  sampleSize = 1%Z /\ List.length ms = 1%nat.
Proof.
  intros Hs. unfold SpcUtils.calculateSubgroupRanges.
  destruct (Z.eqb_spec sampleSize 1) as [->|N].
  - destruct ms as [|a [|b xs]]; simpl in *; split; try lia; try congruence; intuition lia.
  - split; [|lia]. intros E. exfalso.
    destruct ms as [|v xs]; [simpl in Hs; lia|].
    destruct (slices_head sampleSize v xs) as (rest & S). rewrite S in E.
    assert (L : List.length (firstn (Z.to_nat sampleSize) (v :: xs)) = Z.to_nat sampleSize).
    { rewrite length_firstn. lia. }
    cbn [flat_map] in E.
    destruct (Nat.ltb_spec 1 (List.length (firstn (Z.to_nat sampleSize) (v :: xs))));
      [discriminate | lia].
Qed.

(** The fallbacks of [calculateAnalysisData].  In [spcUtils.ts], whenever
    the analysis returns, the measurements are not empty, so that the grand
    mean, the standard deviation, the mean behind [calculateMean(...)!] and
    the distribution are the computed ones, never the defaults; the average
    range is the default 0 exactly for a single measurement with sample
    size 1, the only case without a range.  In the second file the
    distribution is the computed one as well. *)
Theorem fallbacks_of_the_analysis ds sampleSize :
  (forall a, SpcUtils.analysis ds sampleSize = Returns a ->
     let ms := SpcUtils.measurements a in
     SpcUtils.calculateMean (SpcUtils.xBarValues a) = Some (SpcUtils.grandMean a) /\
     SpcUtils.calculateStdDev ms None = Some (SpcUtils.stdDev a) /\
     SpcUtils.calculateMean ms <> None /\
     SpcUtils.calculateDistributionData ms (SpcUtils.a_lsl a) (SpcUtils.a_usl a)
     = Some (distribution (SpcUtils.report a)) /\
     (SpcUtils.calculateMean (SpcUtils.rangeValues a) = None <->
      sampleSize = 1%Z /\ List.length ms = 1%nat)) /\
  (forall a, Part000.analysis ds sampleSize = Returns a ->
     Part000.calculateDistributionData (Part000.measurements a)
       (Part000.a_lsl a) (Part000.a_usl a)
     = Some (distribution (Part000.report a))).
Proof.
  split; intros a.
  - unfold SpcUtils.analysis.
    destruct (controlChartConstants sampleSize) as [c|] eqn:C; [|discriminate].
    destruct (Z.ltb_spec (Z.of_nat (List.length (SpcUtils.validMeasurements ds))) sampleSize)
      as [|Hn]; [discriminate|].
    destruct ds as [|first rest]; [discriminate|].
    set (ms := SpcUtils.validMeasurements (first :: rest)) in *. clearbody ms.
    assert (Hs : (1 <= sampleSize)%Z).
    { unfold controlChartConstants in C.
      destruct (Z.leb_spec 1 sampleSize); auto.
      destruct sampleSize as [|p|p]; try discriminate; lia. }
    intros [= <-].
    assert (NE : ms <> []) by (intros ->; simpl in Hn; lia).
    cbn [SpcUtils.analyse SpcUtils.measurements SpcUtils.xBarValues SpcUtils.grandMean
         SpcUtils.stdDev SpcUtils.a_lsl SpcUtils.a_usl SpcUtils.rangeValues
         SpcUtils.report distribution].
    split; [|split; [|split; [|split]]].
    + pose proof (SpcUtils_xBar_nonempty ms sampleSize Hs NE) as X.
      destruct (SpcUtils.calculateSubgroupXBar ms sampleSize); [congruence | reflexivity].
    + destruct ms as [|v xs]; [congruence|]. reflexivity.
    + rewrite SpcUtils_calculateMean_none. exact NE.
    + destruct ms as [|v xs]; [congruence|]. reflexivity.
    + rewrite SpcUtils_calculateMean_none. apply SpcUtils_ranges_empty. lia.
  - unfold Part000.analysis.
    destruct (controlChartConstants sampleSize) as [c|] eqn:C; [|discriminate].
    destruct (_ <? _)%Z; [discriminate|].
    destruct (Part000.validData ds) as [|first rest]; [discriminate|].
    intros [= <-]. reflexivity.
Qed.

(** The statement above at a single measurement with sample size 1, where
    there is no range. *)
Lemma fallbacks_of_the_analysis_witness :
  exists a,
    SpcUtils.analysis (inspected ["5"]%string) 1 = Returns a /\
    SpcUtils.calculateMean (SpcUtils.xBarValues a) = Some (SpcUtils.grandMean a) /\
    SpcUtils.calculateMean (SpcUtils.rangeValues a) = None /\
    exists b,
      Part000.analysis (inspected ["5"]%string) 1 = Returns b /\
      Part000.calculateDistributionData (Part000.measurements b)
        (Part000.a_lsl b) (Part000.a_usl b)
      = Some (distribution (Part000.report b)).
Proof.
  pose proof (fallbacks_of_the_analysis (inspected ["5"]%string) 1) as [A B].
  eexists. split; [vm_compute; reflexivity|].
  split; [apply A; vm_compute; reflexivity|].
  split.
  - apply (A _ ltac:(vm_compute; reflexivity)). split; reflexivity.
  - eexists. split; [vm_compute; reflexivity|].
    apply (B _ ltac:(vm_compute; reflexivity)).
Defined.


(** * Further instances *)

(** In [spcUtils.ts] a lone fifth value after two full subgroups of two
    adds no range. *)
Lemma SpcUtils_single_tail_witness :
  SpcUtils.calculateSubgroupRanges ([1; 2; 3; 4] ++ [5]) 2
  = SpcUtils.calculateSubgroupRanges [1; 2; 3; 4] 2.
Proof.
  apply (SpcUtils_single_tail 2 2 [1; 2; 3; 4] 5); [lia | reflexivity].
Defined.

(** * The divisors of the capability indices *)

(** Shifting a mantissa right by [p] bits divides it by [2^p]. *)
Lemma shr_1_half r : (0 <= shr_m r)%Z -> shr_m (shr_1 r) = (shr_m r / 2)%Z.
Proof.
  destruct r as [m r s]; simpl. destruct m as [|p|p]; simpl; intros H; try lia.
  - reflexivity.
  - destruct p as [p|p|]; simpl shr_m.
    + rewrite Pos2Z.inj_xI. apply (Z.div_unique _ 2 _ 1); lia.
    + rewrite Pos2Z.inj_xO. apply (Z.div_unique _ 2 _ 0); lia.
    + reflexivity.
Qed.

Lemma iter_pos_shr_1_value p : forall r,
  (0 <= shr_m r)%Z -> shr_m (iter_pos shr_1 p r) = (shr_m r / 2 ^ Zpos p)%Z.
Proof.
  induction p as [p IH|p IH|]; intros r H; simpl iter_pos.
  - pose proof (shr_1_nonneg r H) as H1.
    pose proof (iter_pos_shr_1_nonneg p _ H1) as H2.
    rewrite IH, IH, shr_1_half by auto.
    rewrite !Z.div_div by lia. f_equal.
    replace (Zpos p~1) with (1 + Zpos p + Zpos p)%Z by lia.
    rewrite !Z.pow_add_r by lia. ring.
  - pose proof (iter_pos_shr_1_nonneg p _ H) as H2.
    rewrite IH, IH by auto.
    rewrite !Z.div_div by lia. f_equal.
    replace (Zpos p~0) with (Zpos p + Zpos p)%Z by lia.
    rewrite !Z.pow_add_r by lia. ring.
  - rewrite shr_1_half by auto. reflexivity.
Qed.

(** Rounding keeps a mantissa whose value reaches the smallest positive
    number away from zero. *)
Lemma shr_fexp_pos m e l :
  (0 < m)%Z -> (emin <= e + Zdigits2 m - 1)%Z ->
  (0 < shr_m (fst (shr_fexp prec emax m e l)))%Z /\
  (emin <= snd (shr_fexp prec emax m e l))%Z.
Proof.
  intros Hm He. destruct m as [|p|p]; try lia.
  unfold shr_fexp, shr. simpl Zdigits2 in *.
  pose proof (digits2_pos_bounds p) as [L U].
  set (d := Zpos (digits2_pos p)) in *.
  assert (F : (fexp prec emax (d + e) = Z.max (d + e - prec) emin)%Z) by reflexivity.
  destruct (fexp prec emax (d + e) - e)%Z as [|n|n] eqn:N; simpl fst; simpl snd.
  - rewrite shr_record_of_loc_m. lia.
  - rewrite iter_pos_shr_1_value by (rewrite shr_record_of_loc_m; lia).
    rewrite shr_record_of_loc_m. split; [|lia].
    assert (Zpos n <= d - 1)%Z by (change prec with 53%Z in *; lia).
    assert (2 ^ Zpos n <= 2 ^ (d - 1))%Z by (apply Z.pow_le_mono_r; lia).
    apply Z.div_str_pos. lia.
  - rewrite shr_record_of_loc_m. lia.
Qed.

Lemma round_nearest_even_pos m l : (0 < m)%Z -> (0 < round_nearest_even m l)%Z.
Proof.
  intros H. unfold round_nearest_even. destruct l as [|[]]; try lia.
  destruct (Z.even m); lia.
Qed.

Lemma Zdigits2_pos m : (0 < m)%Z -> (1 <= Zdigits2 m)%Z.
Proof. destruct m; simpl; lia. Qed.

Lemma binary_round_aux_not_zero s m e l :
  (0 < m)%Z -> (emin <= e + Zdigits2 m - 1)%Z ->
  match binary_round_aux prec emax s m e l with
  | S754_zero _ | S754_nan => False
  | _ => True
  end.
Proof.
  intros Hm He. unfold binary_round_aux.
  destruct (shr_fexp_pos m e l Hm He) as [P1 E1].
  destruct (shr_fexp prec emax m e l) as [r1 e1]. simpl in P1, E1.
  pose proof (round_nearest_even_pos _ (loc_of_shr_record r1) P1) as P2.
  set (m2 := round_nearest_even (shr_m r1) (loc_of_shr_record r1)) in *.
  destruct (shr_fexp_pos m2 e1 loc_Exact P2) as [P3 _].
  { pose proof (Zdigits2_pos m2 P2). lia. }
  destruct (shr_fexp prec emax m2 e1 loc_Exact) as [r2 e2]. simpl in P3.
  destruct (shr_m r2) as [|q|q]; try lia.
  destruct (e2 <=? _)%Z; exact I.
Qed.

(** The product of a number that is at least 1 in magnitude with a number
    that is not zero is not zero. *)
Lemma SFmul_not_zero sk mk ek w :
  (1 <= Zpos (digits2_pos mk) + ek)%Z ->
  valid_binary w = true ->
  match w with S754_zero _ => False | _ => True end ->
  match SFmul prec emax (S754_finite sk mk ek) w with
  | S754_zero _ => False
  | _ => True
  end.
Proof.
  intros Hk V NZ. destruct w as [s|s| |s m e]; simpl; auto.
  simpl in V. apply andb_prop in V as [C _].
  assert (Ee : (emin <= e)%Z).
  { unfold canonical_mantissa, fexp in C. apply Z.eqb_eq in C. fold emin in C. lia. }
  pose proof (digits2_pos_bounds mk) as [Lk Uk].
  pose proof (digits2_pos_bounds m) as [Lm Um].
  pose proof (digits2_pos_bounds (mk * m)) as [Lp Up].
  set (dk := Zpos (digits2_pos mk)) in *.
  set (dm := Zpos (digits2_pos m)) in *.
  set (dp := Zpos (digits2_pos (mk * m))) in *.
  assert (dk + dm - 1 <= dp)%Z.
  { destruct (Z_le_gt_dec (dk + dm - 1) dp); auto. exfalso.
    assert (2 ^ dp <= 2 ^ (dk + dm - 2))%Z by (apply Z.pow_le_mono_r; lia).
    assert (2 ^ (dk + dm - 2) = 2 ^ (dk - 1) * 2 ^ (dm - 1))%Z.
    { rewrite <- Z.pow_add_r by (unfold dk, dm; lia). f_equal. lia. }
    rewrite Pos2Z.inj_mul in Up.
    assert (2 ^ (dk - 1) * 2 ^ (dm - 1) <= Zpos mk * Zpos m)%Z by (apply Z.mul_le_mono_nonneg; lia).
    lia. }
  pose proof (binary_round_aux_not_zero (xorb sk s) (Zpos (mk * m)) (ek + e) loc_Exact
                ltac:(lia)) as R.
  simpl Zdigits2 in R. fold dp in R. specialize (R ltac:(unfold dm in *; lia)).
  destruct (binary_round_aux _ _ _ _ _ _); auto.
Qed.

Lemma zero_spec v :
  (v =? 0) = match Prim2SF v with S754_zero _ => true | _ => false end.
Proof.
  rewrite eqb_spec. change (Prim2SF 0) with (S754_zero false). unfold SFeqb.
  destruct (Prim2SF v) as [[]|[]| |[] ? ?]; reflexivity.
Qed.

(** Six and three times a number that is not zero are not zero. *)
Lemma scaled_not_zero k w :
  k = 6 \/ k = 3 -> (w =? 0) = false -> (k * w =? 0) = false.
Proof.
  intros K. rewrite !zero_spec, mul_spec. intros NZ.
  pose proof (Prim2SF_valid w) as V.
  assert (E : exists mk ek, Prim2SF k = S754_finite false mk ek /\
                            (1 <= Zpos (digits2_pos mk) + ek)%Z).
  { destruct K as [-> | ->]; eexists; eexists; (split; [reflexivity|]); vm_compute; discriminate. }
  destruct E as (mk & ek & -> & Hk).
  pose proof (SFmul_not_zero false mk ek (Prim2SF w) Hk V) as R.
  unfold SF64mul.
  destruct (Prim2SF w) as [s|s| |s m e]; try discriminate;
    specialize (R I); destruct (SFmul _ _ _ _); tauto.
Qed.

Lemma scaled_not_nan k w :
  k = 6 \/ k = 3 -> isNaN w = false -> isNaN (k * w) = false.
Proof.
  intros K. rewrite !isNaN_spec, mul_spec. intros N.
  assert (E : exists mk ek, Prim2SF k = S754_finite false mk ek).
  { destruct K as [-> | ->]; eexists; eexists; reflexivity. }
  destruct E as (mk & ek & ->). unfold SF64mul.
  destruct (Prim2SF w) as [s|s| |s m e]; try discriminate; simpl; auto.
  pose proof (binary_round_aux_signed (xorb false s) (Zpos (mk * m)) (ek + e) loc_Exact
                ltac:(lia)) as S.
  destruct (binary_round_aux _ _ _ _ _ _); auto. destruct S.
Qed.

(** A finite number over a divisor that is neither zero nor NaN is not
    NaN. *)
Lemma quotient_not_nan n d :
  isFinite n = true -> isNaN d = false -> (d =? 0) = false -> isNaN (n / d) = false.
Proof.
  rewrite zero_spec, isFinite_spec, !isNaN_spec, div_spec. unfold SF64div.
  destruct (Prim2SF n) as [sn|sn| |sn mn en], (Prim2SF d) as [sd|sd| |sd md ed];
    simpl; try discriminate; auto.
  intros _ _ _.
  destruct (SFdiv_core_binary prec emax (Zpos mn) en (Zpos md) ed) as [[mz ez] lz] eqn:E.
  assert (0 <= mz)%Z.
  { unfold SFdiv_core_binary in E.
    destruct (Z.div_eucl _ (Zpos md)) as [q r] eqn:D. injection E as <- _ _.
    match type of D with Z.div_eucl ?a _ = _ =>
      assert (0 <= a)%Z; [|pose proof (Z_div_mod a (Zpos md) ltac:(lia)) as M;
                           rewrite D in M; nia] end.
    destruct (_ - _ - _)%Z; try lia. rewrite Z.shiftl_mul_pow2 by lia.
    apply Z.mul_nonneg_nonneg; [lia|]. apply Z.pow_nonneg. lia. }
  pose proof (binary_round_aux_signed (xorb sn sd) mz ez lz H) as S.
  destruct (binary_round_aux _ _ _ _ _ _); auto. destruct S.
Qed.

Lemma min2_not_nan a b : isNaN a = false -> isNaN b = false -> isNaN (min2 a b) = false.
Proof.
  intros Na Nb. unfold min2. rewrite Na, Nb. simpl.
  destruct (a <? b); auto. destruct (b <? a); auto. destruct (get_sign a); auto.
Qed.

Lemma guarded_not_zero w : ((if w =? 0 then 0.000001 else w) =? 0) = false.
Proof. destruct (w =? 0) eqn:E; [reflexivity | exact E]. Qed.

Lemma guarded_not_nan w : isNaN w = false -> isNaN (if w =? 0 then 0.000001 else w) = false.
Proof. intros N. destruct (w =? 0); [reflexivity | exact N]. Qed.

(** In [spcUtils.ts] no capability index is the result of a division by
    zero.  Each of Cp, Cpu, Cpl and of Pp, Ppu, Ppl is its numerator over 6
    or 3 times the guarded estimator, and that divisor is never zero.  So,
    whenever its numerator is finite and the estimator is not NaN, the index
    is not NaN; Cpk and Ppk, the smaller of two such quotients, are not NaN
    when both numerators are finite. *)
Theorem SpcUtils_divisors_not_zero first ms sampleSize constants :
  let a := SpcUtils.analyse first ms sampleSize constants in
  let lsl := SpcUtils.a_lsl a in
  let usl := SpcUtils.a_usl a in
  let mean := SpcUtils.grandMean a in
  let within := SpcUtils.safeWithinStdDev a in
  let overall := SpcUtils.safeStdDev a in
  (SpcUtils.a_cp a = (usl - lsl) / (6 * within) /\
   SpcUtils.a_cpu a = (usl - mean) / (3 * within) /\
   SpcUtils.a_cpl a = (mean - lsl) / (3 * within) /\
   SpcUtils.a_pp a = (usl - lsl) / (6 * overall) /\
   SpcUtils.a_ppu a = (usl - mean) / (3 * overall) /\
   SpcUtils.a_ppl a = (mean - lsl) / (3 * overall)) /\
  ((6 * within =? 0) = false /\ (3 * within =? 0) = false /\
   (6 * overall =? 0) = false /\ (3 * overall =? 0) = false) /\
  (isNaN (SpcUtils.withinStdDev a) = false ->
   (isFinite (usl - lsl) = true -> isNaN (SpcUtils.a_cp a) = false) /\
   (isFinite (usl - mean) = true -> isNaN (SpcUtils.a_cpu a) = false) /\
   (isFinite (mean - lsl) = true -> isNaN (SpcUtils.a_cpl a) = false) /\
   (isFinite (usl - mean) = true -> isFinite (mean - lsl) = true ->
    isNaN (SpcUtils.a_cpk a) = false)) /\
  (isNaN (SpcUtils.stdDev a) = false ->
   (isFinite (usl - lsl) = true -> isNaN (SpcUtils.a_pp a) = false) /\
   (isFinite (usl - mean) = true -> isNaN (SpcUtils.a_ppu a) = false) /\
   (isFinite (mean - lsl) = true -> isNaN (SpcUtils.a_ppl a) = false) /\
   (isFinite (usl - mean) = true -> isFinite (mean - lsl) = true ->
    isNaN (SpcUtils.a_ppk a) = false)).
Proof.
  cbn [SpcUtils.analyse SpcUtils.a_lsl SpcUtils.a_usl SpcUtils.grandMean
       SpcUtils.safeWithinStdDev SpcUtils.safeStdDev SpcUtils.withinStdDev SpcUtils.stdDev
       SpcUtils.a_cp SpcUtils.a_cpu SpcUtils.a_cpl SpcUtils.a_cpk
       SpcUtils.a_pp SpcUtils.a_ppu SpcUtils.a_ppl SpcUtils.a_ppk].
  set (lsl := parseFloat (FromSpecification first)).
  set (usl := parseFloat (ToSpecification first)).
  set (mean := match SpcUtils.calculateMean _ with Some m => m | None => 0 end).
  set (w := _ / d2 constants).
  set (s := match SpcUtils.calculateStdDev ms None with Some s => s | None => 0 end).
  pose proof (guarded_not_zero w) as Zw. pose proof (guarded_not_zero s) as Zs.
  set (w' := if w =? 0 then 0.000001 else w) in *.
  set (s' := if s =? 0 then 0.000001 else s) in *.
  split; [repeat split|]. split; [repeat split; apply scaled_not_zero; auto|].
  split; intros N.
  - pose proof (guarded_not_nan w N) as N'. fold w' in N'.
    assert (Q : forall k n, k = 6 \/ k = 3 -> isFinite n = true -> isNaN (n / (k * w')) = false).
    { intros k n K F. apply quotient_not_nan; auto using scaled_not_nan, scaled_not_zero. }
    repeat split; intros; auto using min2_not_nan.
  - pose proof (guarded_not_nan s N) as N'. fold s' in N'.
    assert (Q : forall k n, k = 6 \/ k = 3 -> isFinite n = true -> isNaN (n / (k * s')) = false).
    { intros k n K F. apply quotient_not_nan; auto using scaled_not_nan, scaled_not_zero. }
    repeat split; intros; auto using min2_not_nan.
Qed.

(** The statement above at three measurements 10 with the limits 5 and 15
    and sample size 1, where both estimators are zero. *)
Lemma SpcUtils_divisors_not_zero_witness :
  let a := SpcUtils.analyse
             {| ActualSpecification := "10"; FromSpecification := "5";
                ToSpecification := "15" |}
             [10; 10; 10] 1
             {| A2 := 2.66; D3 := 0; D4 := 3.267; d2 := 1.128 |} in
  (SpcUtils.withinStdDev a =? 0) = true /\ (SpcUtils.stdDev a =? 0) = true /\
  isNaN (SpcUtils.a_cpk a) = false /\ isNaN (SpcUtils.a_ppk a) = false.
Proof.
  intros a.
  pose proof (SpcUtils_divisors_not_zero
                {| ActualSpecification := "10"; FromSpecification := "5";
                   ToSpecification := "15" |}
                [10; 10; 10] 1
                {| A2 := 2.66; D3 := 0; D4 := 3.267; d2 := 1.128 |}) as (_ & _ & W & O).
  split; [vm_compute; reflexivity|]. split; [vm_compute; reflexivity|].
  split.
  - apply W; vm_compute; reflexivity.
  - apply O; vm_compute; reflexivity.
Defined.
